(** * Bed probe subsystem (Marlin/src/module/probe.cpp)

    A shallow embedding of the deploy/stow state machine and of the
    multi-sample height acquisition of [Probe::run_z_probe].

    Conventions of the embedding.
    - A C [float] is an exact rational ([Q]); the result of [run_z_probe],
      which may be the NAN constant, is a [float] value ([FNaN] or
      [FNum q]).  Rounding is not modelled: every arithmetic statement below
      is a statement about the exact value of the expression the code
      evaluates.
    - Preprocessor switches and constants are the fields of [Config]: one
      value of [Config] is one build of the firmware.
    - The firmware globals that probe.cpp reads or writes are the fields of
      [Machine]; every call into another module is recorded, in program
      order, in the [log] field.
    - What the physical world answers (where a descent stops, which endstop
      bits are set, what the probe pin reads) comes from [World], indexed by
      counters kept in [Machine].
    - A loop that may never end (the wait for the operator's probe, the
      sample loop of a build whose 8-bit counter cannot reach its bound) is
      followed for [loop_fuel] rounds; a function that has not returned by
      then gives [None]. *)

From Stdlib Require Import ZArith QArith Qabs Qminmax Bool String List Sorted Permutation Lia Lqa.
Import ListNotations.

Open Scope Q_scope.

(** ** Numbers *)

Inductive float : Type :=
| FNaN : float
| FNum : Q -> float.

(** [a > b] and [a < b] on floats, as booleans. *)
Definition Qgtb (a b : Q) : bool := negb (Qle_bool a b).
Definition Qltb (a b : Q) : bool := negb (Qle_bool b a).

(** [_MAX(a, b)] of macros.h: [a > b ? a : b]. *)
Definition _MAX (a b : Q) : Q := if Qgtb a b then a else b.

(** [NOLESS(v, n)]: [if (v < n) v = n]; the new value of [v]. *)
Definition NOLESS (v n : Q) : Q := if Qltb v n then n else v.

(** [ABS(x)]. *)
Definition ABS (x : Q) : Q := if Qltb x 0 then - x else x.

(** [MMM_TO_MMS(x)]: mm/min to mm/s. *)
Definition MMM_TO_MMS (x : Q) : Q := x / 60.

(** 8-bit integer conversions. *)
Definition u8 (x : Z) : Z := (x mod 256)%Z.
Definition i8 (x : Z) : Z := ((x + 128) mod 256 - 128)%Z.

(** [_BV(b)] and [TEST(n, b)]. *)
Definition _BV (b : Z) : Z := Z.shiftl 1 b.
Definition TEST (n b : Z) : bool := Z.testbit n b.

(** ** The [probes] array

    A C array is a list read and written by index; a read or write outside
    the list (undefined in C) reads 0 and writes nothing. *)

Definition aget (l : list Q) (i : Z) : Q :=
  if (i <? 0)%Z then 0 else nth (Z.to_nat i) l 0.

Fixpoint set_nth (l : list Q) (n : nat) (v : Q) : list Q :=
  match l, n with
  | [], _ => []
  | _ :: t, O => v :: t
  | h :: t, S n' => h :: set_nth t n' v
  end.

Definition aset (l : list Q) (i : Z) (v : Q) : list Q :=
  if (i <? 0)%Z then l else set_nth l (Z.to_nat i) v.

(** ** Build configuration *)

(** The thermal, quiet-probing and cycle switches and constants. *)
Record Options : Type := mkOptions {
  (* probe_at_point *)
  DELTA : bool;
  BD_SENSOR : bool;
  HAS_PTC : bool;
  X_AXIS_TWIST_COMPENSATION : bool;
  HAS_PROBE_XY_OFFSET : bool;
  G29_RETRY_AND_RECOVER : bool;
  XY_PROBE_FEEDRATE_MM_S : Q;
  (* set_probing_paused *)
  PROBING_HEATERS_OFF : bool;
  HAS_PROBE_SETTINGS : bool;
  PROBING_FANS_OFF : bool;
  PROBING_ESTEPPERS_OFF : bool;
  PROBING_STEPPERS_OFF : bool;
  DELAY_BEFORE_PROBING : Z;
  X_AXIS : Z;
  Y_AXIS : Z;
  (* preheat_for_probing *)
  HAS_HOTEND : bool;
  HAS_HEATED_BED : bool;
  PROBING_NOZZLE_TEMP : Z;
  LEVELING_NOZZLE_TEMP : Z;
  PROBING_BED_TEMP : Z;
  LEVELING_BED_TEMP : Z;
  TEMP_WINDOW : Z;
  TEMP_BED_WINDOW : Z;
  (* the waits at the top of probe_down_to_z *)
  WAIT_FOR_BED_HEATER : bool;
  HAS_TEMP_HOTEND : bool;
  WAIT_FOR_HOTEND : bool;
  WAIT_ONLY_FOR_HOTEND : bool
}.

Record Config : Type := mkConfig {
  (* probe kind and deploy/stow options *)
  FIX_MOUNTED_PROBE : bool;
  NOZZLE_AS_PROBE : bool;
  PAUSE_BEFORE_DEPLOY_STOW : bool;
  PAUSE_PROBE_DEPLOY_WHEN_TRIGGERED : bool;
  HAS_RESUME_CONTINUE : bool;
  SOLENOID_PROBE : bool;
  MAGLEV4 : bool;
  Z_PROBE_SLED : bool;
  BLTOUCH : bool;
  HAS_Z_SERVO_PROBE : bool;
  TOUCH_MI_PROBE : bool;
  Z_PROBE_ALLEN_KEY : bool;
  MAG_MOUNTED_PROBE : bool;
  RACK_AND_PINION_PROBE : bool;
  PROBE_TRIGGERED_WHEN_STOWED_TEST : bool;
  PREHEAT_BEFORE_PROBING : bool;
  (* probing options *)
  SENSORLESS_PROBING : bool;
  HAS_DELTA_SENSORLESS_PROBING : bool;
  HAS_QUIET_PROBING : bool;
  PROBE_TARE : bool;
  PROBE_ACTIVATION_SWITCH : bool;
  PROBE_TARE_ONLY_WHILE_INACTIVE : bool;
  MEASURE_BACKLASH_WHEN_PROBING : bool;
  (* heights, in mm *)
  Z_CLEARANCE_DEPLOY_PROBE : Q;
  Z_CLEARANCE_BETWEEN_PROBES : Q;
  Z_CLEARANCE_MULTI_PROBE : Q;
  Z_PROBE_LOW_POINT : Q;
  (* feedrates, in mm/min *)
  Z_PROBE_FEEDRATE_FAST : Q;
  Z_PROBE_FEEDRATE_SLOW : Q;
  (* sample counts *)
  MULTIPLE_PROBING : Z;
  EXTRA_PROBING : Z;
  TOTAL_PROBING : Z;
  (* positions of the endstop bits in [endstops.state()] *)
  X_MAX : Z;
  Y_MAX : Z;
  Z_MAX : Z;
  Z_MIN_PROBE : Z;
  (* the switches of the thermal, quiet-probing and cycle code *)
  options : Options
}.

(** ** Firmware state *)

Record xyz_pos_t : Type := mkXYZ { x : Q; y : Q; z : Q }.
Record abc_float_t : Type := mkABC { a : Q; b : Q; c : Q }.

(** The fields of [probe_settings_t] that probe.cpp reads. *)
Record probe_settings_t : Type := mkSettings {
  turn_heaters_off : bool;
  stabilize_temperatures_after_probing : bool
}.

Inductive Actuator : Type :=
| Solenoid | MagLev | Sled | BLTouchPin | Servo | DeployMoves | RackAndPinion.

Inductive Event : Type :=
| EvZClearance (z_dest : Q)            (* do_z_clearance(z_dest) *)
| EvMoveZ (z_to fr_mm_s : Q)           (* do_blocking_move_to_z(z, fr) *)
| EvMoveXY (x_to y_to : Q)             (* do_blocking_move_to(xy) *)
| EvUserPause (deploy : bool)          (* manual deploy/stow: status line, serial line, buzz *)
| EvIdle                               (* idle_no_sleep() *)
| EvUserConfirm (deploy : bool)        (* manual deploy/stow: prompt, wait_for_user_response() *)
| EvActuate (act : Actuator) (deploy : bool)
| EvPreheat                            (* preheat_for_probing(...) *)
| EvSerial (msg : string)              (* serial output *)
| EvLcdAlert (msg : string)            (* LCD_ALERTMESSAGE *)
| EvLcdStatus (msg : string)           (* ui.set_status *)
| EvWaitForBedHeating                  (* thermalManager.wait_for_bed_heating() *)
| EvWaitForHotendHeating               (* thermalManager.wait_for_hotend_heating(active_extruder) *)
| EvWaitForHotend                      (* thermalManager.wait_for_hotend(0) *)
| EvStop                               (* stop() *)
| EvEnableZProbe (on : bool)           (* endstops.enable_z_probe(on) *)
| EvHitOnPurpose                       (* endstops.hit_on_purpose() *)
| EvTarePin (level : bool)             (* WRITE(PROBE_TARE_PIN, ...) *)
| EvSensorless (on : bool)             (* stallGuard and homing current *)
| EvProbingPaused (on : bool)          (* set_probing_paused(on) *)
| EvSyncPlan                           (* sync_plan_position() *)
| EvBacklash.                          (* backlash.measure_with_probe() *)

(** What [probe_down_to_z] reads to decide whether to wait for the heaters
    again; probe.cpp never writes any of it. *)
Record Heatup : Type := mkHeatup {
  respect_leveling_heatup_settings : bool;
  settings : probe_settings_t;         (* Probe::settings *)
  has_commands_queued : bool;          (* queue.has_commands_queued() *)
  has_blocks_queued : bool;            (* planner.has_blocks_queued() *)
  print_job_running : bool             (* print_job_timer.isRunning() *)
}.

Record Machine : Type := mkMachine {
  current_position : xyz_pos_t;
  offset : xyz_pos_t;                  (* Probe::offset *)
  z_probe_enabled : bool;              (* endstops.z_probe_enabled *)
  z_trusted : bool;                    (* axis_is_trusted(Z_AXIS) *)
  needs_homing : bool;                 (* what homing_needed_error(...) finds *)
  running : bool;                      (* IsRunning() *)
  bltouch_high_speed_mode : bool;
  offset_sensorless_adj : abc_float_t;
  largest_sensorless_adj : Q;
  heatup : Heatup;
  (* how many answers of the world have been consumed *)
  pin_reads : nat;
  switch_reads : nat;
  bltouch_cmds : nat;
  descents : nat;
  log : list Event
}.

(** What the world answers to one downward probing move. *)
Record Descent : Type := mkDescent {
  trigger_state : Z;                   (* endstops.trigger_state() after the move *)
  live_state : Z;                      (* endstops.state() after the move *)
  stepper_z : Q                        (* Z where the steppers stopped *)
}.

Record World : Type := mkWorld {
  PROBE_TRIGGERED : nat -> bool;       (* successive reads of the probe pin *)
  wait_for_user : nat -> bool;         (* the wait_for_user flag, as it is when read
                                          after the n-th read of the probe pin *)
  probe_switch_activated : nat -> bool;
  bltouch_fails : nat -> bool;         (* result of bltouch.deploy()/stow() *)
  descent : nat -> Q -> Descent;       (* n-th probing move, commanded down to Z *)
  loop_fuel : nat                      (* rounds for which a loop that may never end
                                          is followed *)
}.

(** ** State-passing commands *)

Definition Cmd (A : Type) : Type := Machine -> A * Machine.

Definition ret {A} (v : A) : Cmd A := fun m => (v, m).
Definition bind {A B} (c : Cmd A) (k : A -> Cmd B) : Cmd B :=
  fun m => let (v, m1) := c m in k v m1.

Declare Scope cmd_scope.
Delimit Scope cmd_scope with cmd.
Notation "v <- c ;; k" := (bind c (fun v => k))
  (at level 100, c at next level, right associativity) : cmd_scope.
Notation "c ;;; k" := (bind c (fun _ => k))
  (at level 100, right associativity) : cmd_scope.

Definition get : Cmd Machine := fun m => (m, m).
Definition when (cond : bool) (c : Cmd unit) : Cmd unit :=
  if cond then c else ret tt.

(** A call that may not return: [None] when it has not. *)
Definition returns {A} (c : Cmd A) : Cmd (option A) :=
  (v <- c ;; ret (Some v))%cmd.

(** What follows a call that may not return is run only when it has. *)
Definition and_then {A B} (c : Cmd (option A)) (k : A -> Cmd (option B))
  : Cmd (option B) :=
  (r <- c ;;
   match r with
   | Some v => k v
   | None => ret None
   end)%cmd.

Notation "v <-- c ;; k" := (and_then c (fun v => k))
  (at level 100, c at next level, right associativity) : cmd_scope.

Definition set_log (l : list Event) (m : Machine) : Machine :=
  mkMachine m.(current_position) m.(offset) m.(z_probe_enabled) m.(z_trusted)
    m.(needs_homing) m.(running) m.(bltouch_high_speed_mode)
    m.(offset_sensorless_adj) m.(largest_sensorless_adj)
    m.(heatup)
    m.(pin_reads) m.(switch_reads) m.(bltouch_cmds) m.(descents) l.

Definition set_current_z (v : Q) (m : Machine) : Machine :=
  mkMachine (mkXYZ m.(current_position).(x) m.(current_position).(y) v)
    m.(offset) m.(z_probe_enabled) m.(z_trusted)
    m.(needs_homing) m.(running) m.(bltouch_high_speed_mode)
    m.(offset_sensorless_adj) m.(largest_sensorless_adj)
    m.(heatup)
    m.(pin_reads) m.(switch_reads) m.(bltouch_cmds) m.(descents) m.(log).

Definition set_z_probe_enabled (v : bool) (m : Machine) : Machine :=
  mkMachine m.(current_position) m.(offset) v m.(z_trusted)
    m.(needs_homing) m.(running) m.(bltouch_high_speed_mode)
    m.(offset_sensorless_adj) m.(largest_sensorless_adj)
    m.(heatup)
    m.(pin_reads) m.(switch_reads) m.(bltouch_cmds) m.(descents) m.(log).

Definition set_running (v : bool) (m : Machine) : Machine :=
  mkMachine m.(current_position) m.(offset) m.(z_probe_enabled) m.(z_trusted)
    m.(needs_homing) v m.(bltouch_high_speed_mode)
    m.(offset_sensorless_adj) m.(largest_sensorless_adj)
    m.(heatup)
    m.(pin_reads) m.(switch_reads) m.(bltouch_cmds) m.(descents) m.(log).

Definition set_largest_sensorless_adj (v : Q) (m : Machine) : Machine :=
  mkMachine m.(current_position) m.(offset) m.(z_probe_enabled) m.(z_trusted)
    m.(needs_homing) m.(running) m.(bltouch_high_speed_mode)
    m.(offset_sensorless_adj) v
    m.(heatup)
    m.(pin_reads) m.(switch_reads) m.(bltouch_cmds) m.(descents) m.(log).

Definition set_counters (p s bl d : nat) (m : Machine) : Machine :=
  mkMachine m.(current_position) m.(offset) m.(z_probe_enabled) m.(z_trusted)
    m.(needs_homing) m.(running) m.(bltouch_high_speed_mode)
    m.(offset_sensorless_adj) m.(largest_sensorless_adj)
    m.(heatup)
    p s bl d m.(log).

Definition emit (e : Event) : Cmd unit :=
  fun m => (tt, set_log (m.(log) ++ [e]) m).

(** ** Calls into the other firmware modules *)

(** Modelled from the spec: [do_z_clearance] of motion.cpp is not in this
    file.  It raises Z to a minimum height ("Raise Z to a minimum height to
    make room for a probe to move"): the call is recorded with its argument
    and the logical Z is [z_dest] when it returns, unless it was higher. *)
Definition do_z_clearance (z_dest : Q) : Cmd unit :=
  (emit (EvZClearance z_dest) ;;;
   fun m => (tt, set_current_z (NOLESS m.(current_position).(z) z_dest) m))%cmd.

(** [do_blocking_move_to_z(z, fr)]: the move is recorded and the logical
    position is the destination when it returns. *)
Definition do_blocking_move_to_z (z_to fr : Q) : Cmd unit :=
  (emit (EvMoveZ z_to fr) ;;; fun m => (tt, set_current_z z_to m))%cmd.

(** [do_blocking_move_to(xy)]. *)
Definition do_blocking_move_to_xy (p : xyz_pos_t) : Cmd unit :=
  emit (EvMoveXY p.(x) p.(y)).

(** [endstops.enable_z_probe(onoff)] sets [z_probe_enabled]. *)
Definition enable_z_probe (onoff : bool) : Cmd unit :=
  (emit (EvEnableZProbe onoff) ;;; fun m => (tt, set_z_probe_enabled onoff m))%cmd.

(** [stop()] of MarlinCore.cpp: leaves the running state. *)
Definition stop : Cmd unit :=
  (emit EvStop ;;; fun m => (tt, set_running false m))%cmd.

Definition IsRunning : Cmd bool := fun m => (m.(running), m).

(** [homing_needed_error(...)]: true when the axes it needs are not homed. *)
Definition homing_needed_error : Cmd bool := fun m => (m.(needs_homing), m).

Section Probe.

Variable cfg : Config.
Variable world : World.

(** [PROBE_TRIGGERED()]: the next read of the probe pin. *)
Definition read_PROBE_TRIGGERED : Cmd bool := fun m =>
  (world.(PROBE_TRIGGERED) m.(pin_reads),
   set_counters (S m.(pin_reads)) m.(switch_reads) m.(bltouch_cmds) m.(descents) m).

(** [endstops.probe_switch_activated()]. *)
Definition read_probe_switch_activated : Cmd bool := fun m =>
  (world.(probe_switch_activated) m.(switch_reads),
   set_counters m.(pin_reads) (S m.(switch_reads)) m.(bltouch_cmds) m.(descents) m).

(** [bltouch.deploy()] and [bltouch.stow()]: true when the command failed. *)
Definition bltouch_cmd (deploy : bool) : Cmd bool := fun m =>
  (world.(bltouch_fails) m.(bltouch_cmds),
   set_counters m.(pin_reads) m.(switch_reads) (S m.(bltouch_cmds)) m.(descents)
     (set_log (m.(log) ++ [EvActuate BLTouchPin deploy]) m)).


(** ** Probe::do_z_raise *)

Definition z_raise_dest (offset_z z_raise : Q) : Q :=
  let z_dest := z_raise in
  if Qltb offset_z 0 then z_dest - offset_z else z_dest.

Definition do_z_raise (z_raise : Q) : Cmd unit :=
  (m <- get ;; do_z_clearance (z_raise_dest m.(offset).(z) z_raise))%cmd.

(** ** probe_specific_action

    The manual deploy/stow of PAUSE_BEFORE_DEPLOY_STOW: the status line, the
    serial line and the buzz are one [EvUserPause]; the prompts, the wait
    for the operator's confirmation and the reset of the status line are
    one [EvUserConfirm].  The actuation is the first enabled branch of the
    #if/#elif chain. *)

(** [while (deploy == PROBE_TRIGGERED() && TERN1(HAS_RESUME_CONTINUE,
    wait_for_user)) idle_no_sleep();] followed for [fuel] rounds: true when
    the loop has ended. *)
Fixpoint wait_for_probe (fuel : nat) (deploy : bool) : Cmd bool :=
  match fuel with
  | O => ret false
  | S fuel' =>
      (t <- read_PROBE_TRIGGERED ;;
       m <- get ;;
       if Bool.eqb deploy t
          && (if cfg.(HAS_RESUME_CONTINUE) then world.(wait_for_user) m.(pin_reads)
              else true)
       then (emit EvIdle ;;; wait_for_probe fuel' deploy)
       else ret true)%cmd
  end.

(** The block of PAUSE_BEFORE_DEPLOY_STOW: true when it has been left. *)
Definition pause_before (deploy : bool) : Cmd bool :=
  (when (cfg.(PREHEAT_BEFORE_PROBING) && deploy) (emit EvPreheat) ;;;
   emit (EvUserPause deploy) ;;;
   ended <- (if cfg.(PAUSE_PROBE_DEPLOY_WHEN_TRIGGERED)
             then wait_for_probe world.(loop_fuel) deploy
             else ret true) ;;
   if ended then (emit (EvUserConfirm deploy) ;;; ret true) else ret false)%cmd.

(** The #if/#elif chain of the probe kinds. *)
Definition actuate (deploy : bool) : Cmd unit :=
  (if cfg.(SOLENOID_PROBE) then emit (EvActuate Solenoid deploy)
   else if cfg.(MAGLEV4) then emit (EvActuate MagLev deploy)
   else if cfg.(Z_PROBE_SLED) then emit (EvActuate Sled deploy)
   else if cfg.(BLTOUCH) then (_ <- bltouch_cmd deploy ;; ret tt)
   else if cfg.(HAS_Z_SERVO_PROBE) then emit (EvActuate Servo deploy)
   else if cfg.(TOUCH_MI_PROBE) || cfg.(Z_PROBE_ALLEN_KEY) || cfg.(MAG_MOUNTED_PROBE)
     then emit (EvActuate DeployMoves deploy)
   else if cfg.(RACK_AND_PINION_PROBE) then emit (EvActuate RackAndPinion deploy)
   else ret tt)%cmd.

Definition probe_specific_action (deploy : bool) : Cmd (option unit) :=
  (over <- (if cfg.(PAUSE_BEFORE_DEPLOY_STOW) then pause_before deploy else ret true) ;;
   if over then returns (actuate deploy) else ret None)%cmd.

(** ** Probe::probe_error_stop *)
Definition probe_error_stop : Cmd unit :=
  (emit (EvSerial "STR_STOP_PRE") ;;;
   (if cfg.(Z_PROBE_SLED) || cfg.(Z_PROBE_ALLEN_KEY) then emit (EvSerial "STR_STOP_UNHOMED")
    else if cfg.(BLTOUCH) then emit (EvSerial "STR_STOP_BLTOUCH")
    else ret tt) ;;;
   emit (EvSerial "STR_STOP_POST") ;;;
   stop)%cmd.

(** ** Probe::set_deployed: true when the probe could not be deployed/stowed *)

Definition z_raise_wanted (deploy : bool) : bool :=
  if (cfg.(FIX_MOUNTED_PROBE) || cfg.(NOZZLE_AS_PROBE))
     && negb cfg.(PAUSE_BEFORE_DEPLOY_STOW)
  then deploy else true.

(** The tail of the function, from the preheat to [return false]. *)
Definition set_deployed_finish (deploy : bool) (old_xy : xyz_pos_t) : Cmd bool :=
  (when (cfg.(PREHEAT_BEFORE_PROBING) && deploy) (emit EvPreheat) ;;;
   do_blocking_move_to_xy old_xy ;;;
   enable_z_probe deploy ;;;
   ret false)%cmd.

(** PROBE_TRIGGERED_WHEN_STOWED_TEST: "Only deploy/stow if needed". *)
Definition deploy_if_needed (deploy t1 : bool) : Cmd (option unit) :=
  (if Bool.eqb t1 deploy
   then (when (negb deploy) (enable_z_probe false) ;;;
         probe_specific_action deploy)
   else ret (Some tt))%cmd.

(** "Unchanged after deploy/stow action?" *)
Definition deploy_failed : Cmd bool :=
  (r <- IsRunning ;;
   when r (emit (EvSerial "Z-Probe failed") ;;;
           emit (EvLcdAlert "Err: ZPROBE")) ;;;
   stop ;;;
   ret true)%cmd.

(** From [const xy_pos_t old_xy = current_position] on. *)
Definition set_deployed_actuate (deploy : bool) : Cmd (option bool) :=
  (m0 <- get ;;
   let old_xy := m0.(current_position) in
   if cfg.(PROBE_TRIGGERED_WHEN_STOWED_TEST) then
     (t1 <- read_PROBE_TRIGGERED ;;
      _ <-- deploy_if_needed deploy t1 ;;
      t2 <- read_PROBE_TRIGGERED ;;
      if Bool.eqb t2 deploy then returns deploy_failed
      else returns (set_deployed_finish deploy old_xy))
   else
     (_ <-- probe_specific_action deploy ;;
      returns (set_deployed_finish deploy old_xy)))%cmd.

(** From the homing test of the sled and Allen-key probes on. *)
Definition set_deployed_homed (deploy : bool) : Cmd (option bool) :=
  (if cfg.(Z_PROBE_SLED) || cfg.(Z_PROBE_ALLEN_KEY) then
     (h <- homing_needed_error ;;
      if h then (probe_error_stop ;;; ret (Some true))
      else set_deployed_actuate deploy)
   else set_deployed_actuate deploy)%cmd.

Definition set_deployed (deploy : bool) : Cmd (option bool) :=
  (m <- get ;;
   if Bool.eqb m.(z_probe_enabled) deploy then ret (Some false)
   else
     (when (z_raise_wanted deploy)
        (do_z_raise (_MAX cfg.(Z_CLEARANCE_BETWEEN_PROBES) cfg.(Z_CLEARANCE_DEPLOY_PROBE))) ;;;
      set_deployed_homed deploy))%cmd.

(** [deploy()] and [stow()] of probe.h. *)
Definition deploy : Cmd (option bool) := set_deployed true.
Definition stow : Cmd (option bool) := set_deployed false.

(** ** Probe::refresh_largest_sensorless_adj *)

Definition refresh_adj (adj : abc_float_t) (state : Z) : Q :=
  let largest := -3 in
  let largest := if TEST state cfg.(X_MAX) then NOLESS largest adj.(a) else largest in
  let largest := if TEST state cfg.(Y_MAX) then NOLESS largest adj.(b) else largest in
  let largest := if TEST state cfg.(Z_MAX) then NOLESS largest adj.(c) else largest in
  largest.

(** [state] is what [endstops.state()] returns. *)
Definition refresh_largest_sensorless_adj (state : Z) : Cmd unit := fun m =>
  (tt, set_largest_sensorless_adj (refresh_adj m.(offset_sensorless_adj) state) m).

(** ** Probe::probe_down_to_z: true when the probe failed to trigger

    Enabling stallGuard, the homing current and the endstops for
    SENSORLESS_PROBING is one [EvSensorless true], undoing it one
    [EvSensorless false]. *)

(** The waits for temperature at the top of the function. *)
Definition heat_up_again (m : Machine) : bool :=
  m.(heatup).(respect_leveling_heatup_settings)
  && (if cfg.(options).(HAS_PROBE_SETTINGS)
      then m.(heatup).(settings).(turn_heaters_off)
           && m.(heatup).(settings).(stabilize_temperatures_after_probing)
      else true)
  && (m.(heatup).(has_commands_queued) || m.(heatup).(has_blocks_queued)
      || m.(heatup).(print_job_running)).

Definition wait_for_heaters : Cmd unit :=
  (when (cfg.(options).(HAS_HEATED_BED) && cfg.(options).(WAIT_FOR_BED_HEATER))
     (emit EvWaitForBedHeating) ;;;
   when (cfg.(options).(HAS_TEMP_HOTEND) && cfg.(options).(WAIT_FOR_HOTEND))
     (emit EvWaitForHotendHeating) ;;;
   m <- get ;;
   when (cfg.(options).(PROBING_HEATERS_OFF) && heat_up_again m)
     (emit (EvSerial "Waiting to heat-up again before continueing") ;;;
      emit (EvLcdStatus "Waiting for heat-up...") ;;;
      emit EvWaitForHotend ;;;
      when (negb cfg.(options).(WAIT_ONLY_FOR_HOTEND)) (emit EvWaitForBedHeating)))%cmd.

Definition probe_triggered_of (d : Descent) : bool :=
  if cfg.(HAS_DELTA_SENSORLESS_PROBING)
  then negb (Z.land d.(trigger_state)
               (Z.lor (Z.lor (_BV cfg.(X_MAX)) (_BV cfg.(Y_MAX))) (_BV cfg.(Z_MAX))) =? 0)%Z
  else TEST d.(trigger_state) cfg.(Z_MIN_PROBE).

(** The blocking move down: the next answer of the world is consumed. *)
Definition probing_move (z_to fr : Q) : Cmd Descent :=
  (do_blocking_move_to_z z_to fr ;;;
   fun m => (world.(descent) m.(descents) z_to,
             set_counters m.(pin_reads) m.(switch_reads) m.(bltouch_cmds) (S m.(descents)) m))%cmd.

(** [set_current_from_steppers_for_axis(Z_AXIS)]. *)
Definition set_current_from_steppers_for_axis_Z (d : Descent) : Cmd unit :=
  fun m => (tt, set_current_z d.(stepper_z) m).

(** From the BLTouch deploy on. *)
Definition probe_down (z_to fr : Q) : Cmd bool :=
  (m0 <- get ;;
   dfail <- (if cfg.(BLTOUCH) && negb m0.(bltouch_high_speed_mode)
             then bltouch_cmd true else ret false) ;;
   if dfail then ret true
   else
     (when cfg.(SENSORLESS_PROBING) (emit (EvSensorless true)) ;;;
      when cfg.(HAS_QUIET_PROBING) (emit (EvProbingPaused true)) ;;;
      d <- probing_move z_to fr ;;
      let probe_triggered := probe_triggered_of d in
      when (cfg.(HAS_DELTA_SENSORLESS_PROBING) && probe_triggered)
        (refresh_largest_sensorless_adj d.(live_state)) ;;;
      when cfg.(HAS_QUIET_PROBING) (emit (EvProbingPaused false)) ;;;
      when cfg.(SENSORLESS_PROBING) (emit (EvSensorless false)) ;;;
      m1 <- get ;;
      sfail <- (if cfg.(BLTOUCH) && probe_triggered && negb m1.(bltouch_high_speed_mode)
                then bltouch_cmd false else ret false) ;;
      if sfail then ret true
      else
        (emit EvHitOnPurpose ;;;
         set_current_from_steppers_for_axis_Z d ;;;
         emit EvSyncPlan ;;;
         ret (negb probe_triggered))))%cmd.

Definition probe_down_to_z (z_to fr : Q) : Cmd bool :=
  (wait_for_heaters ;;; probe_down z_to fr)%cmd.

(** ** Probe::tare: true when the tare could not be completed *)
Definition tare : Cmd bool :=
  (act <- (if cfg.(PROBE_ACTIVATION_SWITCH) && cfg.(PROBE_TARE_ONLY_WHILE_INACTIVE)
           then read_probe_switch_activated else ret false) ;;
   if act then (emit (EvSerial "Cannot tare an active probe") ;;; ret true)
   else
     (emit (EvSerial "Taring probe") ;;;
      emit (EvTarePin true) ;;;
      emit (EvTarePin false) ;;;
      emit EvHitOnPurpose ;;;
      ret false))%cmd.

(** [TERN0(PROBE_TARE, tare())]. *)
Definition TERN0_PROBE_TARE_tare : Cmd bool :=
  if cfg.(PROBE_TARE) then tare else ret false.

(** ** Probe::run_z_probe *)

(** The [try_to_probe] lambda; the label only reaches the debug output. *)
Definition try_to_probe (z_probe_low_point fr_mm_s : Q) (scheck : bool) (clearance : Q)
  : Cmd bool :=
  (t <- TERN0_PROBE_TARE_tare ;;
   if t then ret true
   else
     (probe_fail <- probe_down_to_z z_probe_low_point fr_mm_s ;;
      m <- get ;;
      let early_fail :=
        scheck && Qgtb m.(current_position).(z) (- m.(offset).(z) + clearance) in
      ret (probe_fail || early_fail)))%cmd.

Definition z_probe_low_point (m : Machine) : Q :=
  if m.(z_trusted) then - m.(offset).(z) + cfg.(Z_PROBE_LOW_POINT) else - (10).

Definition z_probe_fast_mm_s : Q := MMM_TO_MMS cfg.(Z_PROBE_FEEDRATE_FAST).

(** [DIFF_TERN(HAS_DELTA_SENSORLESS_PROBING, current_position.z, largest_sensorless_adj)]. *)
Definition sampled_z (m : Machine) : Q :=
  if cfg.(HAS_DELTA_SENSORLESS_PROBING)
  then m.(current_position).(z) - m.(largest_sensorless_adj)
  else m.(current_position).(z).

(** *** Keeping [probes] sorted

    [for (int8_t m = p; --m >= i;) probes[m + 1] = probes[m];]
    runs for m = (int8_t)p - 1 down to i. *)
Fixpoint shift_items (probes : list Q) (i : Z) (n : nat) : list Q :=
  match n with
  | O => probes
  | S n' =>
      let m := (i + Z.of_nat n')%Z in
      shift_items (aset probes (m + 1) (aget probes m)) i n'
  end.

Definition shift_down (probes : list Q) (p i : Z) : list Q :=
  shift_items probes i (Z.to_nat (i8 p - i)).

(** [LOOP_LE_N(i, p)] with its [break]: the scan stops at [i == p] at the
    latest, after at most [p + 1] rounds. *)
Fixpoint insert_scan (probes : list Q) (zv : Q) (p i : Z) (rounds : nat) : list Q :=
  match rounds with
  | O => probes
  | S r =>
      if (i =? p)%Z || Qgtb (aget probes i) zv
      then aset (shift_down probes p i) i zv
      else insert_scan probes zv p (u8 (i + 1)) r
  end.

Definition insert_probe (probes : list Q) (zv : Q) (p : Z) : list Q :=
  insert_scan probes zv p 0 (S (Z.to_nat p)).

(** *** Median and trimming *)

Definition PHALF : Z := Z.quot (cfg.(TOTAL_PROBING) - 1) 2.

Definition median_of (probes : list Q) : Q :=
  let middle := aget probes PHALF in
  if negb (Z.land cfg.(TOTAL_PROBING) 1 =? 0)%Z then middle
  else (middle + aget probes (PHALF + 1)) * (1 # 2).

(** One round of the trimming loop on [(min_avg_idx, max_avg_idx)]. *)
Definition trim_step (probes : list Q) (median : Q) (r : Z * Z) : Z * Z :=
  let (min_avg_idx, max_avg_idx) := r in
  if Qgtb (ABS (aget probes max_avg_idx - median)) (ABS (aget probes min_avg_idx - median))
  then (min_avg_idx, u8 (max_avg_idx - 1))
  else (u8 (min_avg_idx + 1), max_avg_idx).

Fixpoint trim_loop (probes : list Q) (median : Q) (n : nat) (r : Z * Z) : Z * Z :=
  match n with
  | O => r
  | S n' => trim_loop probes median n' (trim_step probes median r)
  end.

(** [for (uint8_t i = EXTRA_PROBING; i--;)] from [(0, TOTAL_PROBING - 1)]. *)
Definition trim_range (probes : list Q) : Z * Z :=
  trim_loop probes (median_of probes) (Z.to_nat (u8 cfg.(EXTRA_PROBING)))
    (0%Z, u8 (cfg.(TOTAL_PROBING) - 1)).

(** [LOOP_S_LE_N(i, lo, hi) sum += probes[i]]. *)
Fixpoint sum_items (probes : list Q) (i : Z) (n : nat) (sum : Q) : Q :=
  match n with
  | O => sum
  | S n' => sum_items probes (i + 1) n' (sum + aget probes i)
  end.

Definition sum_range (probes : list Q) (lo hi : Z) (sum : Q) : Q :=
  sum_items probes lo (Z.to_nat (hi - lo + 1)) sum.

(** [RECIPROCAL(x)]: [1.0f / x]. *)
Definition RECIPROCAL (n : Z) : Q := 1 / inject_Z n.

(** *** The sample loop *)

Record Samples : Type := mkSamples {
  probes : list Q;                     (* float probes[TOTAL_PROBING] *)
  probes_z_sum : Q
}.

Definition extra : bool := (0 <? cfg.(EXTRA_PROBING))%Z.
Definition multi : bool := (2 <? cfg.(TOTAL_PROBING))%Z.

(** The block of one slow probe; [inl v] is [return v]. *)
Definition slow_probe (low : Q) (sanity_check : bool) (p : Z) (s : Samples)
  : Cmd (float + Samples) :=
  (t <- TERN0_PROBE_TARE_tare ;;
   if t then ret (inl (FNum 1))                      (* return true; *)
   else
     (f <- try_to_probe low (MMM_TO_MMS cfg.(Z_PROBE_FEEDRATE_SLOW))
             sanity_check cfg.(Z_CLEARANCE_MULTI_PROBE) ;;
      if f then ret (inl FNaN)
      else
        (when cfg.(MEASURE_BACKLASH_WHEN_PROBING) (emit EvBacklash) ;;;
         m <- get ;;
         let zv := sampled_z m in
         let s' :=
           if extra then mkSamples (insert_probe s.(probes) zv p) s.(probes_z_sum)
           else if multi then mkSamples s.(probes) (s.(probes_z_sum) + zv)
           else s in
         when (multi && (if extra then (p <? cfg.(TOTAL_PROBING) - 1)%Z
                         else negb (p =? 0)%Z))
           (do_blocking_move_to_z (zv + cfg.(Z_CLEARANCE_MULTI_PROBE)) z_probe_fast_mm_s) ;;;
         ret (inr s'))))%cmd.

(** The counter of the sample loop is a [uint8_t].

    Without EXTRA_PROBING, [for (uint8_t p = TOTAL_PROBING; p--;)]: [p]
    starts at TOTAL_PROBING cut to 8 bits and runs down to 0.
    With EXTRA_PROBING, [for (uint8_t p = 0; p < TOTAL_PROBING; p++)]: [p]
    runs from 0 to TOTAL_PROBING - 1 when TOTAL_PROBING is at most 255; from
    256 on [p < TOTAL_PROBING] holds for every [p], the loop is left by a
    [return] only, and [loop_counter] is not used. *)
Definition endless : bool := extra && (255 <? cfg.(TOTAL_PROBING))%Z.

Definition loop_counter : list Z :=
  if extra then map Z.of_nat (seq 0 (Z.to_nat cfg.(TOTAL_PROBING)))
  else rev (map Z.of_nat (seq 0 (Z.to_nat (u8 cfg.(TOTAL_PROBING))))).

Fixpoint sample_loop (low : Q) (sanity_check : bool) (ps : list Z) (s : Samples)
  : Cmd (float + Samples) :=
  match ps with
  | [] => ret (inr s)
  | p :: ps' =>
      (r <- slow_probe low sanity_check p s ;;
       match r with
       | inl v => ret (inl v)
       | inr s' => sample_loop low sanity_check ps' s'
       end)%cmd
  end.

(** The loop that only a [return] leaves, followed for [fuel] rounds. *)
Fixpoint endless_loop (low : Q) (sanity_check : bool) (fuel : nat) (p : Z) (s : Samples)
  : Cmd (option float) :=
  match fuel with
  | O => ret None
  | S fuel' =>
      (r <- slow_probe low sanity_check p s ;;
       match r with
       | inl v => ret (Some v)
       | inr s' => endless_loop low sanity_check fuel' (u8 (p + 1)) s'
       end)%cmd
  end.

(** *** Before the slow probes *)

(** TOTAL_PROBING == 2: the fast probe; [inr first_probe_z] on success. *)
Definition fast_probe (low : Q) (sanity_check : bool) : Cmd (float + Q) :=
  (t <- TERN0_PROBE_TARE_tare ;;
   if t then ret (inl FNaN)
   else
     (f <- try_to_probe low z_probe_fast_mm_s sanity_check cfg.(Z_CLEARANCE_BETWEEN_PROBES) ;;
      if f then ret (inl FNaN)
      else
        (m <- get ;;
         let first_probe_z := sampled_z m in
         do_blocking_move_to_z (m.(current_position).(z) + cfg.(Z_CLEARANCE_MULTI_PROBE))
           z_probe_fast_mm_s ;;;
         ret (inr first_probe_z))))%cmd.

(** Z_PROBE_FEEDRATE_FAST != Z_PROBE_FEEDRATE_SLOW: move down quickly when
    well over the travel height. *)
Definition fast_approach : Cmd unit :=
  (m <- get ;;
   let zt := cfg.(Z_CLEARANCE_DEPLOY_PROBE) + 5
             + (if Qltb m.(offset).(z) 0 then - m.(offset).(z) else 0) in
   when (Qgtb m.(current_position).(z) zt)
     (nt <- probe_down_to_z zt z_probe_fast_mm_s ;;
      when (negb nt)
        (m1 <- get ;;
         do_blocking_move_to_z (m1.(current_position).(z) + cfg.(Z_CLEARANCE_BETWEEN_PROBES))
           z_probe_fast_mm_s)))%cmd.

(** *** The result *)

Definition measured_z (first_probe_z : Q) (s : Samples) (m : Machine) : Q :=
  if multi then
    let sum :=
      if extra then
        let (min_avg_idx, max_avg_idx) := trim_range s.(probes) in
        sum_range s.(probes) min_avg_idx max_avg_idx s.(probes_z_sum)
      else s.(probes_z_sum) in
    sum * RECIPROCAL cfg.(MULTIPLE_PROBING)
  else if (cfg.(TOTAL_PROBING) =? 2)%Z then
    let z2 := sampled_z m in
    (z2 * 3 + first_probe_z * 2) * (2 # 10)
  else m.(current_position).(z).

(** #if TOTAL_PROBING == 2 ... #elif Z_PROBE_FEEDRATE_FAST != Z_PROBE_FEEDRATE_SLOW. *)
Definition before_slow_probes (low : Q) (sanity_check : bool) : Cmd (float + Q) :=
  (if (cfg.(TOTAL_PROBING) =? 2)%Z then fast_probe low sanity_check
   else if negb (Qeq_bool cfg.(Z_PROBE_FEEDRATE_FAST) cfg.(Z_PROBE_FEEDRATE_SLOW))
        then (fast_approach ;;; ret (inr 0))
   else ret (inr 0))%cmd.

(** The initial [probes] and [probes_z_sum]. *)
Definition no_samples : Samples :=
  mkSamples (repeat 0 (Z.to_nat cfg.(TOTAL_PROBING))) 0.

Definition run_z_probe (sanity_check : bool) : Cmd (option float) :=
  (m0 <- get ;;
   let low := z_probe_low_point m0 in
   pre <- before_slow_probes low sanity_check ;;
   match pre with
   | inl v => ret (Some v)
   | inr first_probe_z =>
       if endless then endless_loop low sanity_check world.(loop_fuel) 0 no_samples
       else
         (r <- (if multi then sample_loop low sanity_check loop_counter no_samples
                else slow_probe low sanity_check 0 no_samples) ;;
          match r with
          | inl v => ret (Some v)
          | inr s => m <- get ;; ret (Some (FNum (measured_z first_probe_z s m)))
          end)
   end)%cmd.

End Probe.

(** * The rest of probe.cpp

    The functions around the ones above: the sensorless adjustment setter,
    the quiet-probing switch, the preheat and the probing cycle
    [probe_at_point]. *)

(** [_MIN(a, b)] of macros.h: [a < b ? a : b]. *)
Definition _MIN (a b : Q) : Q := if Qltb a b then a else b.

(** [_MAX] on integers. *)
Definition Z_MAX_of (a b : Z) : Z := if (b <? a)%Z then a else b.

(** [f + q] on a float that may be NAN. *)
Definition fadd (f : float) (q : Q) : float :=
  match f with
  | FNaN => FNaN
  | FNum v => FNum (v + q)
  end.

Definition isnan (f : float) : bool :=
  match f with
  | FNaN => true
  | FNum _ => false
  end.

(** ** Probe::set_offset_sensorless_adj *)

Record sense_bool_t : Type := mkSense { sense_x : bool; sense_y : bool; sense_z : bool }.

(** The new [offset_sensorless_adj]. *)
Definition set_offset_sensorless_adj (test_sensitivity : sense_bool_t) (sz : Q)
    (adj : abc_float_t) : abc_float_t :=
  let adj := if test_sensitivity.(sense_x) then mkABC sz adj.(b) adj.(c) else adj in
  let adj := if test_sensitivity.(sense_y) then mkABC adj.(a) sz adj.(c) else adj in
  let adj := if test_sensitivity.(sense_z) then mkABC adj.(a) adj.(b) sz else adj in
  adj.

(** ** Probe::set_probing_paused

    The heater, fan and stepper modules are outside this file: their calls
    are recorded; what [stepper.disable_axis] and [stepper.enable_axis] do
    to [axes_trusted] is given by [Steppers]. *)

Inductive QuietCall : Type :=
| PauseHeaters (on : bool)             (* thermalManager.pause_heaters *)
| PauseFans (on : bool)                (* thermalManager.set_fans_paused *)
| DisableESteppers                     (* stepper.disable_e_steppers *)
| DisableAxis (axis : Z)               (* stepper.disable_axis *)
| EnableAxis (axis : Z)                (* stepper.enable_axis *)
| SafeDelay (ms : Z).                  (* safe_delay *)

Record Steppers : Type := mkSteppers {
  after_disable_axis : Z -> Z -> Z;    (* axis, axes_trusted before *)
  after_enable_axis : Z -> Z -> Z
}.

Record Quiet : Type := mkQuiet {
  axes_trusted : Z;
  old_trusted : Z;                     (* static uint8_t old_trusted *)
  quiet_settings : probe_settings_t;   (* Probe::settings *)
  calls : list QuietCall
}.

Definition quiet_call (c : QuietCall) (q : Quiet) : Quiet :=
  mkQuiet q.(axes_trusted) q.(old_trusted) q.(quiet_settings) (q.(calls) ++ [c]).

Definition disable_axis (st : Steppers) (axis : Z) (q : Quiet) : Quiet :=
  mkQuiet (st.(after_disable_axis) axis q.(axes_trusted)) q.(old_trusted)
    q.(quiet_settings) (q.(calls) ++ [DisableAxis axis]).

Definition enable_axis (st : Steppers) (axis : Z) (q : Quiet) : Quiet :=
  mkQuiet (st.(after_enable_axis) axis q.(axes_trusted)) q.(old_trusted)
    q.(quiet_settings) (q.(calls) ++ [EnableAxis axis]).

Definition set_probing_paused (opt : Options) (st : Steppers) (dopause : bool)
    (q : Quiet) : Quiet :=
  let q :=
    if opt.(PROBING_HEATERS_OFF)
       && (if opt.(HAS_PROBE_SETTINGS) then q.(quiet_settings).(turn_heaters_off) else true)
    then quiet_call (PauseHeaters dopause) q else q in
  let q := if opt.(PROBING_FANS_OFF) then quiet_call (PauseFans dopause) q else q in
  let q := if opt.(PROBING_ESTEPPERS_OFF) && dopause
           then quiet_call DisableESteppers q else q in
  let q :=
    if opt.(PROBING_STEPPERS_OFF) && negb opt.(DELTA) then
      if dopause then
        let q := mkQuiet q.(axes_trusted) (u8 q.(axes_trusted)) q.(quiet_settings)
                   q.(calls) in
        let q := disable_axis st opt.(X_AXIS) q in
        disable_axis st opt.(Y_AXIS) q
      else
        let q := if TEST q.(old_trusted) opt.(X_AXIS)
                 then enable_axis st opt.(X_AXIS) q else q in
        let q := if TEST q.(old_trusted) opt.(Y_AXIS)
                 then enable_axis st opt.(Y_AXIS) q else q in
        mkQuiet q.(old_trusted) q.(old_trusted) q.(quiet_settings) q.(calls)
    else q in
  if dopause then quiet_call (SafeDelay (Z_MAX_of opt.(DELAY_BEFORE_PROBING) 25)) q
  else q.

(** ** Probe::preheat_for_probing

    What the thermal manager reports is [Thermal]; the function's calls into
    it are its result. *)

Inductive ThermalCall : Type :=
| LcdPreheating                        (* LCD_MESSAGE(MSG_PREHEATING) *)
| SetTargetHotend (celsius : Z)        (* thermalManager.setTargetHotend(t, 0) *)
| SetTargetBed (celsius : Z)           (* thermalManager.setTargetBed(t) *)
| WaitForHotend                        (* thermalManager.wait_for_hotend(0) *)
| WaitForBedHeating.                   (* thermalManager.wait_for_bed_heating() *)

Record Thermal : Type := mkThermal {
  degTargetHotend : Z;
  degTargetBed : Z;
  wholeDegHotend : Z;
  wholeDegBed : Z
}.

Definition WAIT_FOR_NOZZLE_HEAT (opt : Options) : bool :=
  opt.(HAS_HOTEND)
  && (negb (opt.(PROBING_NOZZLE_TEMP) =? 0)%Z || negb (opt.(LEVELING_NOZZLE_TEMP) =? 0)%Z).

Definition WAIT_FOR_BED_HEAT (opt : Options) : bool :=
  opt.(HAS_HEATED_BED)
  && (negb (opt.(PROBING_BED_TEMP) =? 0)%Z || negb (opt.(LEVELING_BED_TEMP) =? 0)%Z).

Definition preheat_for_probing (opt : Options) (th : Thermal)
    (hotend_temp bed_temp : Z) (early : bool) : list ThermalCall :=
  (if negb early then [LcdPreheating] else [])
  ++ (if WAIT_FOR_NOZZLE_HEAT opt then
        let hotendPreheat :=
          if (th.(degTargetHotend) <? hotend_temp)%Z then hotend_temp else 0%Z in
        if negb (hotendPreheat =? 0)%Z then [SetTargetHotend hotendPreheat] else []
      else [])
  ++ (if WAIT_FOR_BED_HEAT opt then
        let bedPreheat :=
          if (th.(degTargetBed) <? bed_temp)%Z then bed_temp else 0%Z in
        if negb (bedPreheat =? 0)%Z then [SetTargetBed bedPreheat] else []
      else [])
  ++ (if negb early then
        (if WAIT_FOR_NOZZLE_HEAT opt
            && (th.(wholeDegHotend) + opt.(TEMP_WINDOW) <? hotend_temp)%Z
         then [WaitForHotend] else [])
        ++ (if WAIT_FOR_BED_HEAT opt
               && (th.(wholeDegBed) + opt.(TEMP_BED_WINDOW) <? bed_temp)%Z
            then [WaitForBedHeating] else [])
      else []).

(** ** Probe::probe_at_point

    The cycle runs on the machine plus a list of notes for the calls that
    have no [Event]; each note carries the length of the machine's log when
    it was made, which places it among the events. *)

Inductive ProbePtRaise : Type :=
| PROBE_PT_NONE | PROBE_PT_STOW | PROBE_PT_LAST_STOW | PROBE_PT_RAISE | PROBE_PT_BIG_RAISE.

Inductive Note : Type :=
| NoteBltouchReset                     (* bltouch._reset() *)
| NoteMoveTo (p : xyz_pos_t) (fr_mm_s : Q)  (* do_blocking_move_to(npos, fr) *)
| NoteBedReport (rx ry : Q) (zv : float)    (* "Bed X: ... Y: ... Z: ..." *)
| NoteLcdMessage (msg : string).       (* LCD_MESSAGE *)

(** What the other modules answer during one cycle. *)
Record Bench : Type := mkBench {
  can_reach : xyz_pos_t -> bool -> bool;
  bltouch_triggered : bool;            (* bltouch.triggered() *)
  delta_clip_start_height : Q;
  bdl_read : Q;                        (* bdl.read() *)
  ptc_apply_compensation : float -> float;
  xatc_compensation : Q -> Q -> Q
}.

Record Cycle : Type := mkCycle {
  machine : Machine;
  notes : list (nat * Note)
}.

Definition Op (A : Type) : Type := Cycle -> A * Cycle.

Definition op_ret {A} (v : A) : Op A := fun c => (v, c).
Definition op_bind {A B} (o : Op A) (k : A -> Op B) : Op B :=
  fun c => let (v, c1) := o c in k v c1.

Declare Scope op_scope.
Delimit Scope op_scope with op.
Notation "v <- o ;; k" := (op_bind o (fun v => k))
  (at level 100, o at next level, right associativity) : op_scope.
Notation "o ;;; k" := (op_bind o (fun _ => k))
  (at level 100, right associativity) : op_scope.

(** A command of the machine as a step of the cycle. *)
Definition lift {A} (cmd : Cmd A) : Op A :=
  fun c => let (v, m) := cmd c.(machine) in (v, mkCycle m c.(notes)).

Definition note (n : Note) : Op unit :=
  fun c => (tt, mkCycle c.(machine) (c.(notes) ++ [(length (log c.(machine)), n)])).

Definition op_when (cond : bool) (o : Op unit) : Op unit :=
  if cond then o else op_ret tt.

Definition set_current_position (p : xyz_pos_t) (m : Machine) : Machine :=
  mkMachine p m.(offset) m.(z_probe_enabled) m.(z_trusted)
    m.(needs_homing) m.(running) m.(bltouch_high_speed_mode)
    m.(offset_sensorless_adj) m.(largest_sensorless_adj)
    m.(heatup)
    m.(pin_reads) m.(switch_reads) m.(bltouch_cmds) m.(descents) m.(log).

(** [do_blocking_move_to(npos, fr)]: the logical position is [npos] when it
    returns. *)
Definition do_blocking_move_to (p : xyz_pos_t) (fr : Q) : Op unit :=
  (note (NoteMoveTo p fr) ;;;
   lift (fun m => (tt, set_current_position p m)))%op.

(** [offset_xy]: the X and Y of [offset], or zero without HAS_PROBE_XY_OFFSET. *)
Definition offset_xy (opt : Options) (m : Machine) : Q * Q :=
  if opt.(HAS_PROBE_XY_OFFSET) then (m.(offset).(x), m.(offset).(y)) else (0, 0).

Section Cycle.

Variable cfg : Config.
Variable bench : Bench.
Variable world : World.

(** What follows a step that may not return. *)
Definition op_and_then {A B} (o : Op (option A)) (k : A -> Op (option B))
  : Op (option B) :=
  (r <- o ;;
   match r with
   | Some v => k v
   | None => op_ret None
   end)%op.

(** [measured_z = run_z_probe(sanity_check) + offset.z] and the
    compensations; [npos] is the nozzle position of the move. *)
Definition measure (npos : xyz_pos_t) (sanity_check : bool) : Op (option float) :=
  op_and_then (lift (run_z_probe cfg world sanity_check)) (fun r =>
   (m <- lift get ;;
    let measured := fadd r m.(offset).(z) in
    let measured :=
      if cfg.(options).(HAS_PTC) then bench.(ptc_apply_compensation) measured
      else measured in
    let measured :=
      if cfg.(options).(X_AXIS_TWIST_COMPENSATION)
      then fadd measured
             (bench.(xatc_compensation)
                (npos.(x) + fst (offset_xy cfg.(options) m))
                (npos.(y) + snd (offset_xy cfg.(options) m)))
      else measured in
    op_ret (Some measured))%op).

(** [if (!isnan(measured_z)) { ... }]; the new [measured_z]. *)
Definition after_measure (rx ry : Q) (raise_after : ProbePtRaise) (verbose_level : Z)
    (measured : float) : Op (option float) :=
  (if isnan measured then op_ret (Some measured)
   else
     op_and_then
       (match raise_after with
        | PROBE_PT_BIG_RAISE | PROBE_PT_RAISE =>
            (m <- lift get ;;
             lift (do_blocking_move_to_z
                     (m.(current_position).(z)
                      + (match raise_after with
                         | PROBE_PT_BIG_RAISE => 25
                         | _ => cfg.(Z_CLEARANCE_BETWEEN_PROBES)
                         end))
                     (z_probe_fast_mm_s cfg)) ;;;
             op_ret (Some measured))
        | PROBE_PT_STOW | PROBE_PT_LAST_STOW =>
            op_and_then (lift (stow cfg world)) (fun failed =>
              op_ret (Some (if failed then FNaN else measured)))
        | PROBE_PT_NONE => op_ret (Some measured)
        end)
       (fun measured =>
          (op_when (2 <? verbose_level)%Z (note (NoteBedReport rx ry measured)) ;;;
           op_ret (Some measured))))%op.

(** [if (isnan(measured_z)) { ... }]. *)
Definition on_failure (measured : float) : Op (option unit) :=
  (if isnan measured then
     op_and_then (lift (stow cfg world)) (fun _ =>
       (note (NoteLcdMessage "MSG_LCD_PROBING_FAILED") ;;;
        op_when (negb cfg.(options).(G29_RETRY_AND_RECOVER))
          (lift (emit (EvSerial "STR_ERR_PROBING_FAILED"))) ;;;
        op_ret (Some tt)))
   else op_ret (Some tt))%op.

Definition probe_at_point (rx ry : Q) (raise_after : ProbePtRaise) (verbose_level : Z)
    (probe_relative sanity_check : bool) : Op (option float) :=
  (m0 <- lift get ;;
   op_when (cfg.(BLTOUCH) && (m0.(bltouch_high_speed_mode) && bench.(bltouch_triggered)))
     (note NoteBltouchReset) ;;;
   let zn := if cfg.(options).(DELTA)
             then _MIN bench.(delta_clip_start_height) m0.(current_position).(z)
             else m0.(current_position).(z) in
   let npos := mkXYZ rx ry zn in
   if negb (bench.(can_reach) npos probe_relative) then op_ret (Some FNaN)
   else
     (let npos :=
        if probe_relative
        then mkXYZ (rx - fst (offset_xy cfg.(options) m0))
               (ry - snd (offset_xy cfg.(options) m0)) zn
        else npos in
      do_blocking_move_to npos cfg.(options).(XY_PROBE_FEEDRATE_MM_S) ;;;
      if cfg.(options).(BD_SENSOR) then
        (m <- lift get ;;
         op_ret (Some (FNum (m.(current_position).(z) - bench.(bdl_read)))))
      else
        op_and_then (lift (deploy cfg world)) (fun failed =>
        op_and_then (if failed then op_ret (Some FNaN) else measure npos sanity_check)
          (fun measured =>
        op_and_then (after_measure rx ry raise_after verbose_level measured)
          (fun measured =>
        op_and_then (on_failure measured) (fun _ =>
        op_ret (Some measured)))))))%op.

End Cycle.

(** * Vocabulary of the statements *)

(** ** Commands and what they leave unchanged *)

(** [preserves R cmd]: the machine after [cmd] is related by [R] to the one
    before.  For a preorder [R] this goes through sequencing and tests. *)
Definition preserves {A} (R : Machine -> Machine -> Prop) (cmd : Cmd A) : Prop :=
  forall m, R m (snd (cmd m)).

(** The log only grows, by events that satisfy [P]. *)
Definition log_grows (P : Event -> Prop) (m m' : Machine) : Prop :=
  exists evs, Forall P evs /\ log m' = log m ++ evs.

(** A component of the machine is left as it was. *)
Definition keeps {X} (f : Machine -> X) (m m' : Machine) : Prop := f m' = f m.

(** Any event but a call of [do_z_clearance]. *)
Definition not_clearance (e : Event) : Prop := forall d, e <> EvZClearance d.

(** Any event but those of a failed deploy/stow check. *)
Definition not_failure (e : Event) : Prop :=
  e <> EvStop /\ e <> EvSerial "Z-Probe failed" /\ e <> EvLcdAlert "Err: ZPROBE".

(** ** Deploy and stow *)

(** A stow request of a PROBE_TRIGGERED_WHEN_STOWED_TEST build that passes
    the homing test and finds the pin not triggered switches the Z-probe
    endstop off before it actuates. *)
Definition switched_off_early (cfg : Config) (world : World) (m : Machine) : bool :=
  PROBE_TRIGGERED_WHEN_STOWED_TEST cfg
  && negb ((Z_PROBE_SLED cfg || Z_PROBE_ALLEN_KEY cfg) && needs_homing m)
  && negb (PROBE_TRIGGERED world (pin_reads m)).

(** ** Probing moves *)

(** What the waits at the top of [probe_down_to_z] put in the log. *)
Definition heater_events (cfg : Config) (m : Machine) : list Event :=
  (if HAS_HEATED_BED (options cfg) && WAIT_FOR_BED_HEATER (options cfg)
   then [EvWaitForBedHeating] else [])
  ++ (if HAS_TEMP_HOTEND (options cfg) && WAIT_FOR_HOTEND (options cfg)
      then [EvWaitForHotendHeating] else [])
  ++ (if PROBING_HEATERS_OFF (options cfg) && heat_up_again cfg m
      then [EvSerial "Waiting to heat-up again before continueing";
            EvLcdStatus "Waiting for heat-up..."; EvWaitForHotend]
           ++ (if WAIT_ONLY_FOR_HOTEND (options cfg) then [] else [EvWaitForBedHeating])
      else []).

(** The events that switch quiet probing and the sensorless setup. *)
Definition is_mode (e : Event) : bool :=
  match e with
  | EvSensorless _ | EvProbingPaused _ => true
  | _ => false
  end.

Definition modes_on (cfg : Config) : list Event :=
  (if SENSORLESS_PROBING cfg then [EvSensorless true] else [])
  ++ (if HAS_QUIET_PROBING cfg then [EvProbingPaused true] else []).

Definition modes_off (cfg : Config) : list Event :=
  (if HAS_QUIET_PROBING cfg then [EvProbingPaused false] else [])
  ++ (if SENSORLESS_PROBING cfg then [EvSensorless false] else []).

(** ** Samples of a world *)

(** The Z that is sampled after the [n]-th descent to [low] when it
    triggers: the stepper Z, less the sensorless adjustment on a delta. *)
Definition sample_of (cfg : Config) (world : World) (low : Q) (adj : abc_float_t)
    (n : nat) : Q :=
  let d := descent world n low in
  if HAS_DELTA_SENSORLESS_PROBING cfg
  then stepper_z d - refresh_adj cfg adj (live_state d)
  else stepper_z d.

(** The samples of [count] descents from the [n]-th on. *)
Definition samples_from (cfg : Config) (world : World) (low : Q) (adj : abc_float_t)
    (n count : nat) : list Q :=
  map (sample_of cfg world low adj) (seq n count).

(** ** Quiet probing *)

(** The calls of [set_probing_paused] to the heaters, the fans and the
    extruder steppers: those that leave the X and Y steppers alone and do
    not wait. *)
Definition is_thermal_or_e (c : QuietCall) : bool :=
  match c with
  | PauseHeaters _ | PauseFans _ | DisableESteppers => true
  | DisableAxis _ | EnableAxis _ | SafeDelay _ => false
  end.

(** ** What a probing run does *)

(** The events of a probing run: the waits for the heaters with their
    serial line and status line, Z moves, writes to the BLTouch and to the
    tare pin, the sensorless and quiet modes, serial output,
    [hit_on_purpose], [sync_plan_position] and the backlash measurement.
    Not among them: [stop], an XY move, a Z clearance, a switch of the
    Z-probe endstop, the manual deploy/stow with its idling, a preheat, an
    LCD alert, and any actuator but the BLTouch. *)
Definition probing_only (e : Event) : Prop :=
  match e with
  | EvZClearance _ | EvMoveXY _ _ | EvUserPause _ | EvIdle | EvUserConfirm _
  | EvPreheat | EvLcdAlert _ | EvStop | EvEnableZProbe _ => False
  | EvActuate act _ => act = BLTouchPin
  | EvMoveZ _ _ | EvSerial _ | EvLcdStatus _ | EvWaitForBedHeating
  | EvWaitForHotendHeating | EvWaitForHotend | EvHitOnPurpose | EvTarePin _
  | EvSensorless _ | EvProbingPaused _ | EvSyncPlan | EvBacklash => True
  end.


(** ** The probing cycle *)

(** Once stopped, the machine is not started again. *)
Definition stays_stopped (m m' : Machine) : Prop :=
  running m = false -> running m' = false.

(** Where [probe_at_point] wants the probe, as given to [can_reach]. *)
Definition probe_start (opt : Options) (bench : Bench) (m : Machine) (rx ry : Q)
  : xyz_pos_t :=
  mkXYZ rx ry
    (if DELTA opt then _MIN (delta_clip_start_height bench) (z (current_position m))
     else z (current_position m)).

(** Where it moves the nozzle to. *)
Definition nozzle_start (opt : Options) (bench : Bench) (m : Machine) (rx ry : Q)
    (probe_relative : bool) : xyz_pos_t :=
  if probe_relative
  then mkXYZ (rx - fst (offset_xy opt m)) (ry - snd (offset_xy opt m))
         (z (probe_start opt bench m rx ry))
  else probe_start opt bench m rx ry.

(** The state of the cycle after that move. *)
Definition at_start (cfg : Config) (bench : Bench) (rx ry : Q)
    (probe_relative : bool) (c : Cycle) : Cycle :=
  let m := machine c in
  let npos := nozzle_start (options cfg) bench m rx ry probe_relative in
  mkCycle (set_current_position npos m)
    ((notes c
      ++ (if BLTOUCH cfg && (bltouch_high_speed_mode m && bltouch_triggered bench)
          then [(length (log m), NoteBltouchReset)] else []))
     ++ [(length (log m), NoteMoveTo npos (XY_PROBE_FEEDRATE_MM_S (options cfg)))]).

(** The steps of the cycle that follow a deploy that returned [failed],
    from the cycle [c3] it left: the measurement, what follows a valid
    measurement, and what follows a failure; a step that does not return
    ends them. *)
Definition after_deploy (cfg : Config) (bench : Bench) (world : World) (rx ry : Q)
    (raise_after : ProbePtRaise) (verbose_level : Z) (sanity_check : bool)
    (npos : xyz_pos_t) (c3 : Cycle) (failed : bool) : option float * Cycle :=
  let measured := if failed then (Some FNaN, c3)
                  else measure cfg bench world npos sanity_check c3 in
  match fst measured with
  | None => (None, snd measured)
  | Some mz =>
      let after := after_measure cfg world rx ry raise_after verbose_level mz
                     (snd measured) in
      match fst after with
      | None => (None, snd after)
      | Some mz' =>
          let closing := on_failure cfg world mz' (snd after) in
          match fst closing with
          | None => (None, snd closing)
          | Some _ => (Some mz', snd closing)
          end
      end
  end.

(** The cycle has returned, and what it returned is NAN. *)
Definition returned_nan (r : option float) : bool :=
  match r with
  | Some v => isnan v
  | None => false
  end.

(** The failure message on the LCD. *)
Definition is_lcd_message (n : nat * Note) : bool :=
  match snd n with
  | NoteLcdMessage _ => true
  | _ => false
  end.

(** ** Worlds *)

(** Nothing under the probe: no descent sets an endstop bit and the steppers
    stop where they were sent; the activation switch is inactive and the
    BLTouch obeys. *)
Definition nothing_to_hit (world : World) : Prop :=
  (forall n z_to, descent world n z_to = mkDescent 0 0 z_to)
  /\ (forall n, probe_switch_activated world n = false)
  /\ (forall n, bltouch_fails world n = false).

(** ** Samples *)

(** Insertion in a sorted list, the list view of the insertion loop. *)
Fixpoint ins (zv : Q) (l : list Q) : list Q :=
  match l with
  | [] => [zv]
  | h :: t => if Qgtb h zv then zv :: h :: t else h :: ins zv t
  end.

(** The array, read by index, is ascending. *)
Definition sorted_array (ps : list Q) : Prop :=
  forall i j : Z, (0 <= i <= j)%Z -> (j < Z.of_nat (length ps))%Z ->
                  aget ps i <= aget ps j.

(** [p] samples are in place, in ascending order. *)
Definition filled_sorted (cfg : Config) (p : nat) (s : Samples) : Prop :=
  exists filled rest,
    probes s = filled ++ rest
    /\ length filled = p
    /\ StronglySorted Qle filled
    /\ length (probes s) = Z.to_nat (TOTAL_PROBING cfg)
    /\ probes_z_sum s = 0.

(** Distance of the sample at index [i] from the median. *)
Definition distance (ps : list Q) (median : Q) (i : Z) : Q :=
  Qabs (aget ps i - median).

(** The mean of the samples kept, as the spec words the result. *)
Definition Qsum (l : list Q) : Q := fold_right Qplus 0 l.
Definition mean (l : list Q) : Q := Qsum l / inject_Z (Z.of_nat (length l)).
Definition kept_range (ps : list Q) (lo hi : Z) : list Q :=
  firstn (Z.to_nat (hi - lo + 1)) (skipn (Z.to_nat lo) ps).

(** * Scenarios

    Builds, machines and worlds on which the model is run below. *)

Module Scenario.

(** A Cartesian machine with quiet probing that parks its X and Y steppers
    and preheats nozzle and bed; no wait for a heater before a probing
    move; [bd] is BD_SENSOR. *)
Definition switches (bd : bool) : Options :=
  {| DELTA := false;
     BD_SENSOR := bd;
     HAS_PTC := false;
     X_AXIS_TWIST_COMPENSATION := false;
     HAS_PROBE_XY_OFFSET := true;
     G29_RETRY_AND_RECOVER := false;
     XY_PROBE_FEEDRATE_MM_S := 133;
     PROBING_HEATERS_OFF := true;
     HAS_PROBE_SETTINGS := true;
     PROBING_FANS_OFF := true;
     PROBING_ESTEPPERS_OFF := false;
     PROBING_STEPPERS_OFF := true;
     DELAY_BEFORE_PROBING := 200;
     X_AXIS := 0;
     Y_AXIS := 1;
     HAS_HOTEND := true;
     HAS_HEATED_BED := true;
     PROBING_NOZZLE_TEMP := 120;
     LEVELING_NOZZLE_TEMP := 0;
     PROBING_BED_TEMP := 50;
     LEVELING_BED_TEMP := 0;
     TEMP_WINDOW := 1;
     TEMP_BED_WINDOW := 1;
     WAIT_FOR_BED_HEATER := false;
     HAS_TEMP_HOTEND := true;
     WAIT_FOR_HOTEND := false;
     WAIT_ONLY_FOR_HOTEND := false |}.

(** A build from the switches that matter below; heights 10 / 5 / 2 mm, low
    point -2 mm, feedrates 240 and 120 mm/min. *)
Definition build (fix_mounted servo stowed_test tare_switch delta : bool)
    (multiple extra total : Z) : Config :=
  {| FIX_MOUNTED_PROBE := fix_mounted;
     NOZZLE_AS_PROBE := false;
     PAUSE_BEFORE_DEPLOY_STOW := false;
     PAUSE_PROBE_DEPLOY_WHEN_TRIGGERED := false;
     HAS_RESUME_CONTINUE := false;
     SOLENOID_PROBE := false;
     MAGLEV4 := false;
     Z_PROBE_SLED := false;
     BLTOUCH := false;
     HAS_Z_SERVO_PROBE := servo;
     TOUCH_MI_PROBE := false;
     Z_PROBE_ALLEN_KEY := false;
     MAG_MOUNTED_PROBE := false;
     RACK_AND_PINION_PROBE := false;
     PROBE_TRIGGERED_WHEN_STOWED_TEST := stowed_test;
     PREHEAT_BEFORE_PROBING := false;
     SENSORLESS_PROBING := delta;
     HAS_DELTA_SENSORLESS_PROBING := delta;
     HAS_QUIET_PROBING := false;
     PROBE_TARE := tare_switch;
     PROBE_ACTIVATION_SWITCH := tare_switch;
     PROBE_TARE_ONLY_WHILE_INACTIVE := tare_switch;
     MEASURE_BACKLASH_WHEN_PROBING := false;
     Z_CLEARANCE_DEPLOY_PROBE := 10;
     Z_CLEARANCE_BETWEEN_PROBES := 5;
     Z_CLEARANCE_MULTI_PROBE := 2;
     Z_PROBE_LOW_POINT := - (2);
     Z_PROBE_FEEDRATE_FAST := 240;
     Z_PROBE_FEEDRATE_SLOW := 120;
     MULTIPLE_PROBING := multiple;
     EXTRA_PROBING := extra;
     TOTAL_PROBING := total;
     X_MAX := 1;
     Y_MAX := 3;
     Z_MAX := 5;
     Z_MIN_PROBE := 6;
     options := switches false |}.

Definition fixed_mount : Config := build true false false false false 1 0 1.
Definition servo_probe : Config := build false true false false false 1 0 1.
Definition servo_tested : Config := build false true true false false 1 0 1.
(** One slow probe, strain gauge with PROBE_TARE_ONLY_WHILE_INACTIVE. *)
Definition tared_single : Config := build true false false true false 1 0 1.
(** Fast then slow probe. *)
Definition double_probe : Config := build true false false false false 2 0 2.
(** Five probes of which one is dropped, and three of which one is. *)
Definition five_drop_one : Config := build true false false false false 4 1 5.
Definition three_drop_one : Config := build true false false false false 2 1 3.
(** Delta with sensorless probing, one probe. *)
Definition delta_sensorless : Config := build true false false false true 1 0 1.

(** A homed, running machine at Z = 10 with the probe 1.5 mm below the
    nozzle and no job under way; [enabled] is [endstops.z_probe_enabled]. *)
Definition machine (enabled is_running : bool) : Machine :=
  {| current_position := mkXYZ 100 100 10;
     offset := mkXYZ 0 0 (- (15 # 10));
     z_probe_enabled := enabled;
     z_trusted := true;
     needs_homing := false;
     running := is_running;
     bltouch_high_speed_mode := false;
     offset_sensorless_adj := mkABC (1 # 10) (2 # 10) (- (5 # 100));
     largest_sensorless_adj := 0;
     heatup := mkHeatup true (mkSettings true true) false false false;
     pin_reads := 0;
     switch_reads := 0;
     bltouch_cmds := 0;
     descents := 0;
     log := [] |}.

(** A world whose descents stop at the heights of [zs] in turn (then at 0),
    having latched the endstop bits [latched] and with the bits [live] set
    when the move is over; the probe pin and the activation switch always
    read [pin]. *)
Definition world_with (pin : bool) (latched live : Z) (zs : list Q) : World :=
  {| PROBE_TRIGGERED := fun _ => pin;
     wait_for_user := fun _ => true;
     probe_switch_activated := fun _ => pin;
     bltouch_fails := fun _ => false;
     descent := fun n _ => mkDescent latched live (nth n zs 0);
     loop_fuel := 16 |}.

(** The same, with the bits [bits] both latched and still set. *)
Definition world_of (pin : bool) (bits : Z) (zs : list Q) : World :=
  world_with pin bits bits zs.

(** The bed is missing. *)
Definition no_bed : World :=
  {| PROBE_TRIGGERED := fun _ => false;
     wait_for_user := fun _ => true;
     probe_switch_activated := fun _ => false;
     bltouch_fails := fun _ => false;
     descent := fun _ z_to => mkDescent 0 0 z_to;
     loop_fuel := 16 |}.

End Scenario.

(** Further builds, machines and surroundings, for the rest of the file. *)
Module Rig.

(** A build by its probe: a sled, a BLTouch, or else a servo; [paused] is
    a manual deploy that waits for the probe (PAUSE_BEFORE_DEPLOY_STOW with
    PAUSE_PROBE_DEPLOY_WHEN_TRIGGERED) and is tested afterwards
    (PROBE_TRIGGERED_WHEN_STOWED_TEST).  The heights, low point and
    feedrates of [Scenario.build]. *)
Definition build (sled bltouch paused : bool) : Config :=
  {| FIX_MOUNTED_PROBE := false;
     NOZZLE_AS_PROBE := false;
     PAUSE_BEFORE_DEPLOY_STOW := paused;
     PAUSE_PROBE_DEPLOY_WHEN_TRIGGERED := paused;
     HAS_RESUME_CONTINUE := false;
     SOLENOID_PROBE := false;
     MAGLEV4 := false;
     Z_PROBE_SLED := sled;
     BLTOUCH := bltouch;
     HAS_Z_SERVO_PROBE := negb (sled || bltouch);
     TOUCH_MI_PROBE := false;
     Z_PROBE_ALLEN_KEY := false;
     MAG_MOUNTED_PROBE := false;
     RACK_AND_PINION_PROBE := false;
     PROBE_TRIGGERED_WHEN_STOWED_TEST := paused;
     PREHEAT_BEFORE_PROBING := false;
     SENSORLESS_PROBING := false;
     HAS_DELTA_SENSORLESS_PROBING := false;
     HAS_QUIET_PROBING := false;
     PROBE_TARE := false;
     PROBE_ACTIVATION_SWITCH := false;
     PROBE_TARE_ONLY_WHILE_INACTIVE := false;
     MEASURE_BACKLASH_WHEN_PROBING := false;
     Z_CLEARANCE_DEPLOY_PROBE := 10;
     Z_CLEARANCE_BETWEEN_PROBES := 5;
     Z_CLEARANCE_MULTI_PROBE := 2;
     Z_PROBE_LOW_POINT := - (2);
     Z_PROBE_FEEDRATE_FAST := 240;
     Z_PROBE_FEEDRATE_SLOW := 120;
     MULTIPLE_PROBING := 1;
     EXTRA_PROBING := 0;
     TOTAL_PROBING := 1;
     X_MAX := 1;
     Y_MAX := 3;
     Z_MAX := 5;
     Z_MIN_PROBE := 6;
     options := Scenario.switches false |}.

Definition sled_probe : Config := build true false false.
Definition bltouch_probe : Config := build false true false.
Definition manual_probe : Config := build false false true.
(** Three probes, all of them kept; and 256 of them, which the 8-bit
    counter of the loop takes for none. *)
Definition three_probes : Config := Scenario.build true false false false false 3 0 3.
Definition wrapped_probes : Config := Scenario.build true false false false false 256 0 256.
(** 256 probes of which one is dropped: the counter never reaches 256. *)
Definition endless_probes : Config := Scenario.build true false false false false 255 1 256.

(** [Scenario.machine] at another height, homed or not, the probe stowed. *)
Definition machine_at (height : Q) (homed : bool) : Machine :=
  {| current_position := mkXYZ 100 100 height;
     offset := mkXYZ 0 0 (- (15 # 10));
     z_probe_enabled := false;
     z_trusted := homed;
     needs_homing := negb homed;
     running := true;
     bltouch_high_speed_mode := false;
     offset_sensorless_adj := mkABC (1 # 10) (2 # 10) (- (5 # 100));
     largest_sensorless_adj := 0;
     heatup := mkHeatup true (mkSettings true true) false false false;
     pin_reads := 0;
     switch_reads := 0;
     bltouch_cmds := 0;
     descents := 0;
     log := [] |}.

(** A BLTouch that does not answer its commands, over a missing bed. *)
Definition stuck_bltouch : World :=
  {| PROBE_TRIGGERED := fun _ => false;
     wait_for_user := fun _ => true;
     probe_switch_activated := fun _ => false;
     bltouch_fails := fun _ => true;
     descent := fun _ z_to => mkDescent 0 0 z_to;
     loop_fuel := 16 |}.

(** A world whose probe pin reads [pins] in turn (then not triggered), over
    a missing bed. *)
Definition pin_reading (pins : list bool) : World :=
  {| PROBE_TRIGGERED := fun n => nth n pins false;
     wait_for_user := fun _ => true;
     probe_switch_activated := fun _ => false;
     bltouch_fails := fun _ => false;
     descent := fun _ z_to => mkDescent 0 0 z_to;
     loop_fuel := 16 |}.

(** Steppers that lose the trust of an axis when it is disabled. *)
Definition steppers : Steppers :=
  {| after_disable_axis := fun axis trusted => Z.clearbit trusted axis;
     after_enable_axis := fun _ trusted => trusted |}.

(** X, Y and Z trusted. *)
Definition quiet : Quiet :=
  {| axes_trusted := 7; old_trusted := 0; quiet_settings := mkSettings true true;
     calls := [] |}.

(** Nozzle and bed at 25 degrees, the bed aiming at 60. *)
Definition thermal : Thermal :=
  {| degTargetHotend := 0; degTargetBed := 60; wholeDegHotend := 25; wholeDegBed := 25 |}.

(** Every point is [reachable] or none is; the BD sensor reads 0.3. *)
Definition bench (reachable : bool) : Bench :=
  {| can_reach := fun _ _ => reachable;
     bltouch_triggered := false;
     delta_clip_start_height := 100;
     bdl_read := 3 # 10;
     ptc_apply_compensation := fun f => f;
     xatc_compensation := fun _ _ => 0 |}.

(** The start of a cycle on [Scenario.machine] with the probe stowed. *)
Definition cycle : Cycle :=
  {| machine := Scenario.machine false true; notes := [] |}.

End Rig.

(** * Properties *)

(** ** Comparisons *)

Lemma Qgtb_true_iff (p q : Q) : Qgtb p q = true <-> q < p.
Proof.
  unfold Qgtb. rewrite negb_true_iff, <- not_true_iff_false, Qle_bool_iff.
  split; [apply Qnot_le_lt | apply Qlt_not_le].
Qed.

Lemma Qgtb_false_iff (p q : Q) : Qgtb p q = false <-> p <= q.
Proof.
  unfold Qgtb. rewrite negb_false_iff. apply Qle_bool_iff.
Qed.

Lemma Qltb_true_iff (p q : Q) : Qltb p q = true <-> p < q.
Proof. apply (Qgtb_true_iff q p). Qed.

Lemma Qltb_false_iff (p q : Q) : Qltb p q = false <-> q <= p.
Proof. apply (Qgtb_false_iff q p). Qed.

Lemma _MAX_is_max (p q : Q) : _MAX p q == Qmax p q.
Proof.
  unfold _MAX. destruct (Qgtb p q) eqn:E.
  - apply Qgtb_true_iff in E. symmetry. apply Q.max_l. now apply Qlt_le_weak.
  - apply Qgtb_false_iff in E. symmetry. now apply Q.max_r.
Qed.

Lemma NOLESS_is_max (v n : Q) : NOLESS v n == Qmax v n.
Proof.
  unfold NOLESS. destruct (Qltb v n) eqn:E.
  - apply Qltb_true_iff in E. symmetry. apply Q.max_r. now apply Qlt_le_weak.
  - apply Qltb_false_iff in E. symmetry. now apply Q.max_l.
Qed.

Lemma ABS_is_Qabs (q : Q) : ABS q == Qabs q.
Proof.
  unfold ABS. destruct (Qltb q 0) eqn:E.
  - apply Qltb_true_iff in E. symmetry. apply Qabs_neg. now apply Qlt_le_weak.
  - apply Qltb_false_iff in E. symmetry. now apply Qabs_pos.
Qed.

(** ** Running a sequence *)

Lemma bind_run {A B} (cmd : Cmd A) (k : A -> Cmd B) (m : Machine) :
  bind cmd k m = k (fst (cmd m)) (snd (cmd m)).
Proof. unfold bind. now destruct (cmd m). Qed.


Lemma returns_run {A} (cmd : Cmd A) (m : Machine) :
  returns cmd m = (Some (fst (cmd m)), snd (cmd m)).
Proof. unfold returns. now rewrite bind_run. Qed.

Lemma and_then_run {A B} (cmd : Cmd (option A)) (k : A -> Cmd (option B)) (m : Machine) :
  and_then cmd k m
  = match fst (cmd m) with
    | Some v => k v (snd (cmd m))
    | None => (None, snd (cmd m))
    end.
Proof. unfold and_then. rewrite bind_run. now destruct (fst (cmd m)). Qed.

(** ** do_z_raise *)

Section DoZRaise.

Variable z_raise : Q.
Variable m : Machine.

(** C10. [do_z_raise(z_raise)] makes exactly one call, [do_z_clearance], and
    does nothing else; its destination is [z_raise - offset.z] when
    [offset.z] is strictly negative and exactly [z_raise] when
    [offset.z >= 0]. *)
Theorem do_z_raise_destination :
  exists z_dest,
    do_z_raise z_raise m = do_z_clearance z_dest m
    /\ log (snd (do_z_raise z_raise m)) = log m ++ [EvZClearance z_dest]
    /\ (z (offset m) < 0 -> z_dest = z_raise - z (offset m))
    /\ (0 <= z (offset m) -> z_dest = z_raise).
Proof.
  exists (z_raise_dest (z (offset m)) z_raise).
  split; [reflexivity|]. split; [reflexivity|]. unfold z_raise_dest.
  split; intros H.
  - apply Qltb_true_iff in H. now rewrite H.
  - apply Qltb_false_iff in H. now rewrite H.
Qed.

End DoZRaise.

(** ** One probing move *)

Ltac run_cmd :=
  unfold bind, ret, get, when, emit, do_blocking_move_to_z, bltouch_cmd,
    refresh_largest_sensorless_adj, set_current_from_steppers_for_axis_Z,
    probing_move; cbn.

(** Case analysis on the tests of a command, in program order. *)
Ltac split_ifs :=
  repeat (cbn; match goal with
               | |- context [if ?t then _ else _] => destruct t eqn:?
               end).

Lemma set_log_same (m : Machine) : set_log (log m) m = m.
Proof. now destruct m. Qed.

Lemma emit_set_log (e : Event) (l : list Event) (m : Machine) :
  emit e (set_log l m) = (tt, set_log (l ++ [e]) m).
Proof. reflexivity. Qed.

Lemma when_emit_set_log (t : bool) (e : Event) (l : list Event) (m : Machine) :
  when t (emit e) (set_log l m) = (tt, set_log (l ++ (if t then [e] else [])) m).
Proof. destruct t; [reflexivity|]. cbn [when]. unfold ret. now rewrite app_nil_r. Qed.

Lemma wait_for_heaters_from (cfg : Config) (l : list Event) (m : Machine) :
  wait_for_heaters cfg (set_log l m) = (tt, set_log (l ++ heater_events cfg m) m).
Proof.
  unfold wait_for_heaters, heater_events.
  rewrite bind_run, when_emit_set_log. cbn [fst snd].
  rewrite bind_run, when_emit_set_log. cbn [fst snd].
  rewrite bind_run. cbn [get fst snd].
  change (heat_up_again cfg (set_log _ m)) with (heat_up_again cfg m).
  destruct (PROBING_HEATERS_OFF (options cfg) && heat_up_again cfg m); cbn [when].
  - rewrite bind_run, emit_set_log. cbn [fst snd].
    rewrite bind_run, emit_set_log. cbn [fst snd].
    rewrite bind_run, emit_set_log. cbn [fst snd].
    rewrite when_emit_set_log.
    destruct (WAIT_ONLY_FOR_HOTEND (options cfg)); cbn [negb];
      rewrite <- ?app_assoc; reflexivity.
  - unfold ret. now rewrite <- ?app_assoc, ?app_nil_r.
Qed.

(** The waits for the heaters only write to the log. *)
Lemma wait_for_heaters_run (cfg : Config) (m : Machine) :
  wait_for_heaters cfg m = (tt, set_log (log m ++ heater_events cfg m) m).
Proof.
  rewrite <- (wait_for_heaters_from cfg (log m) m). now rewrite set_log_same.
Qed.

(** [probe_down_to_z] is the move after the waits. *)
Lemma probe_down_to_z_run (cfg : Config) (world : World) (z_to fr : Q) (m : Machine) :
  probe_down_to_z cfg world z_to fr m
  = probe_down cfg world z_to fr (set_log (log m ++ heater_events cfg m) m).
Proof. unfold probe_down_to_z. now rewrite bind_run, wait_for_heaters_run. Qed.

(** What a probing move that reports a trigger leaves behind. *)
Lemma probe_down_triggered (cfg : Config) (world : World) (z_to fr : Q) (m : Machine) :
  fst (probe_down cfg world z_to fr m) = false ->
  let d := descent world (descents m) z_to in
  let m' := snd (probe_down cfg world z_to fr m) in
  probe_triggered_of cfg d = true
  /\ z (current_position m') = stepper_z d
  /\ offset m' = offset m
  /\ descents m' = S (descents m)
  /\ largest_sensorless_adj m' =
       (if HAS_DELTA_SENSORLESS_PROBING cfg
        then refresh_adj cfg (offset_sensorless_adj m) (live_state d)
        else largest_sensorless_adj m).
Proof.
  unfold probe_down. run_cmd.
  destruct (HAS_DELTA_SENSORLESS_PROBING cfg);
    destruct (probe_triggered_of cfg (descent world (descents m) z_to)) eqn:Ht;
    split_ifs; cbn; try rewrite Ht; cbn; try discriminate;
    intros _; repeat split.
Qed.

Lemma probe_down_to_z_triggered (cfg : Config) (world : World) (z_to fr : Q) (m : Machine) :
  fst (probe_down_to_z cfg world z_to fr m) = false ->
  let d := descent world (descents m) z_to in
  let m' := snd (probe_down_to_z cfg world z_to fr m) in
  probe_triggered_of cfg d = true
  /\ z (current_position m') = stepper_z d
  /\ offset m' = offset m
  /\ descents m' = S (descents m)
  /\ largest_sensorless_adj m' =
       (if HAS_DELTA_SENSORLESS_PROBING cfg
        then refresh_adj cfg (offset_sensorless_adj m) (live_state d)
        else largest_sensorless_adj m).
Proof.
  rewrite probe_down_to_z_run. intros H.
  exact (probe_down_triggered cfg world z_to fr _ H).
Qed.

Lemma refresh_stage (t : bool) (cur cur' n : Q) :
  cur == cur' -> - (3) <= cur' ->
  (if t then NOLESS cur n else cur) == Qmax cur' (if t then n else - (3))
  /\ - (3) <= Qmax cur' (if t then n else - (3)).
Proof.
  intros Heq Hle. split.
  - destruct t.
    + eapply Qeq_trans; [apply NOLESS_is_max|]. now apply Q.max_compat.
    + eapply Qeq_trans; [exact Heq|]. symmetry. now apply Q.max_l.
  - eapply Qle_trans; [exact Hle | apply Q.le_max_l].
Qed.

Lemma refresh_adj_max (cfg : Config) (adj : abc_float_t) (state : Z) :
  let pick (bit : Z) (v : Q) := if TEST state bit then v else - (3) in
  refresh_adj cfg adj state ==
  Qmax (Qmax (Qmax (- (3)) (pick (X_MAX cfg) (a adj))) (pick (Y_MAX cfg) (b adj)))
       (pick (Z_MAX cfg) (c adj)).
Proof.
  cbv zeta. unfold refresh_adj.
  destruct (refresh_stage (TEST state (X_MAX cfg)) (- (3)) (- (3)) (a adj))
    as [Hx Hx']; [reflexivity | apply Qle_refl |].
  destruct (refresh_stage (TEST state (Y_MAX cfg)) _ _ (b adj) Hx Hx') as [Hy Hy'].
  destruct (refresh_stage (TEST state (Z_MAX cfg)) _ _ (c adj) Hy Hy') as [Hz _].
  exact Hz.
Qed.


(** ** try_to_probe *)

(** C5. With the sanity check on, [try_to_probe] reports failure when the
    tare fails, and otherwise exactly when [probe_down_to_z] reported a
    failure (no trigger) or the position it left is strictly above
    [-offset.z + clearance]. *)
Theorem try_to_probe_sanity
    (cfg : Config) (world : World) (low fr clearance : Q) (m : Machine) :
  let result := fst (try_to_probe cfg world low fr true clearance m) in
  let tare_failed := fst (TERN0_PROBE_TARE_tare cfg world m) in
  let m1 := snd (TERN0_PROBE_TARE_tare cfg world m) in
  let probe_fail := fst (probe_down_to_z cfg world low fr m1) in
  let m2 := snd (probe_down_to_z cfg world low fr m1) in
  (tare_failed = true -> result = true)
  /\ (tare_failed = false ->
      (result = true <->
       probe_fail = true \/ - z (offset m2) + clearance < z (current_position m2)))
  /\ (probe_triggered_of cfg (descent world (descents m1) low) = false ->
      fst (probe_down_to_z cfg world low fr m1) = true).
Proof.
  cbv zeta. unfold try_to_probe, bind, get, ret.
  destruct (TERN0_PROBE_TARE_tare cfg world m) as [t m1]. cbn [fst snd].
  split; [intros ->; reflexivity|].
  split.
  - intros ->.
    destruct (probe_down_to_z cfg world low fr m1) as [pf m2]. cbn [fst snd].
    rewrite orb_true_iff, andb_true_l, Qgtb_true_iff. reflexivity.
  - intros Hnt.
    destruct (fst (probe_down_to_z cfg world low fr m1)) eqn:E; [reflexivity|].
    apply probe_down_to_z_triggered in E. destruct E as [E _]. congruence.
Qed.

(** ** The descent floor *)

(** A TOTAL_PROBING that fits the [uint8_t] counter: the loops end, and the
    counter takes the values the loop headers name. *)
Lemma endless_small (cfg : Config) :
  (TOTAL_PROBING cfg <= 255)%Z -> endless cfg = false.
Proof.
  intros H. unfold endless. destruct (Z.ltb_spec 255 (TOTAL_PROBING cfg)); [lia|].
  apply andb_false_r.
Qed.

Lemma loop_counter_small (cfg : Config) :
  (0 <= TOTAL_PROBING cfg <= 255)%Z ->
  loop_counter cfg =
  if extra cfg then map Z.of_nat (seq 0 (Z.to_nat (TOTAL_PROBING cfg)))
  else rev (map Z.of_nat (seq 0 (Z.to_nat (TOTAL_PROBING cfg)))).
Proof.
  intros H. unfold loop_counter, u8. now rewrite Z.mod_small by lia.
Qed.

Section NothingToHit.

Variable cfg : Config.
Variable world : World.
Hypothesis nothing : nothing_to_hit world.

Lemma tare_passes (m : Machine) :
  fst (TERN0_PROBE_TARE_tare cfg world m) = false
  /\ current_position (snd (TERN0_PROBE_TARE_tare cfg world m)) = current_position m.
Proof.
  destruct nothing as (_ & Hswitch & _).
  unfold TERN0_PROBE_TARE_tare, tare, read_probe_switch_activated. run_cmd.
  destruct (PROBE_TARE cfg),
    (PROBE_ACTIVATION_SWITCH cfg && PROBE_TARE_ONLY_WHILE_INACTIVE cfg);
    cbn; rewrite ?Hswitch; split; reflexivity.
Qed.

Lemma probe_down_to_z_misses (z_to fr : Q) (m : Machine) :
  fst (probe_down_to_z cfg world z_to fr m) = true
  /\ z (current_position (snd (probe_down_to_z cfg world z_to fr m))) = z_to.
Proof.
  destruct nothing as (Hdescent & _ & Hbltouch).
  assert (Hmiss : probe_triggered_of cfg (mkDescent 0 0 z_to) = false).
  { unfold probe_triggered_of, TEST. cbn [trigger_state].
    rewrite Z.land_0_l, Z.testbit_0_l. now destruct (HAS_DELTA_SENSORLESS_PROBING cfg). }
  rewrite probe_down_to_z_run. set (m0 := set_log _ m).
  assert (Hmode : bltouch_high_speed_mode m0 = bltouch_high_speed_mode m) by reflexivity.
  assert (Hdesc : descents m0 = descents m) by reflexivity.
  clearbody m0. unfold probe_down. run_cmd.
  destruct (BLTOUCH cfg && negb (bltouch_high_speed_mode m0)); cbn;
    rewrite ?Hbltouch; cbn;
    destruct (SENSORLESS_PROBING cfg), (HAS_QUIET_PROBING cfg); cbn;
    rewrite Hdescent, Hmiss, !andb_false_r; cbn;
    destruct (SENSORLESS_PROBING cfg), (HAS_QUIET_PROBING cfg); cbn;
    split; reflexivity.
Qed.

Lemma try_to_probe_misses (z_to fr : Q) (sc : bool) (clearance : Q) (m : Machine) :
  fst (try_to_probe cfg world z_to fr sc clearance m) = true
  /\ z (current_position (snd (try_to_probe cfg world z_to fr sc clearance m))) = z_to.
Proof.
  unfold try_to_probe. rewrite bind_run.
  rewrite (proj1 (tare_passes m)), !bind_run. cbn [get ret fst snd].
  destruct (probe_down_to_z_misses z_to fr (snd (TERN0_PROBE_TARE_tare cfg world m)))
    as [Hfail Hz].
  rewrite Hfail. split; [reflexivity | exact Hz].
Qed.

Lemma fast_probe_misses (low : Q) (sc : bool) (m : Machine) :
  fst (fast_probe cfg world low sc m) = inl FNaN
  /\ z (current_position (snd (fast_probe cfg world low sc m))) = low.
Proof.
  unfold fast_probe. rewrite bind_run, (proj1 (tare_passes m)), bind_run.
  destruct (try_to_probe_misses low (z_probe_fast_mm_s cfg) sc
              (Z_CLEARANCE_BETWEEN_PROBES cfg) (snd (TERN0_PROBE_TARE_tare cfg world m)))
    as [Hfail Hz].
  rewrite Hfail. split; [reflexivity | exact Hz].
Qed.

Lemma slow_probe_misses (low : Q) (sc : bool) (p : Z) (s : Samples) (m : Machine) :
  fst (slow_probe cfg world low sc p s m) = inl FNaN
  /\ z (current_position (snd (slow_probe cfg world low sc p s m))) = low.
Proof.
  unfold slow_probe. rewrite bind_run, (proj1 (tare_passes m)), bind_run.
  destruct (try_to_probe_misses low (MMM_TO_MMS (Z_PROBE_FEEDRATE_SLOW cfg)) sc
              (Z_CLEARANCE_MULTI_PROBE cfg) (snd (TERN0_PROBE_TARE_tare cfg world m)))
    as [Hfail Hz].
  rewrite Hfail. split; [reflexivity | exact Hz].
Qed.

Lemma run_z_probe_misses (sc : bool) (m : Machine) :
  (TOTAL_PROBING cfg <= 255)%Z ->
  fst (run_z_probe cfg world sc m) = Some FNaN
  /\ z (current_position (snd (run_z_probe cfg world sc m))) = z_probe_low_point cfg m.
Proof.
  intros Hfits.
  unfold run_z_probe. rewrite bind_run. cbn [get fst snd].
  set (low := z_probe_low_point cfg m).
  rewrite bind_run. unfold before_slow_probes.
  destruct (TOTAL_PROBING cfg =? 2)%Z eqn:Htwo.
  - destruct (fast_probe_misses low sc m) as [Hfail Hz].
    rewrite Hfail. split; [reflexivity | exact Hz].
  - rewrite (endless_small cfg Hfits).
    assert (Hslow : forall m1,
               fst ((if multi cfg
                     then sample_loop cfg world low sc (loop_counter cfg) (no_samples cfg)
                     else slow_probe cfg world low sc 0 (no_samples cfg)) m1) = inl FNaN
               /\ z (current_position
                       (snd ((if multi cfg
                              then sample_loop cfg world low sc (loop_counter cfg)
                                     (no_samples cfg)
                              else slow_probe cfg world low sc 0 (no_samples cfg)) m1)))
                  = low).
    { intros m1. unfold multi.
      destruct (Z.ltb_spec 2 (TOTAL_PROBING cfg)) as [Hmulti|_];
        [|apply slow_probe_misses].
      rewrite loop_counter_small by lia.
      destruct (Z.to_nat (TOTAL_PROBING cfg)) as [|n] eqn:Hn; [lia|].
      assert (Hfirst : exists p ps,
                 (if extra cfg then map Z.of_nat (seq 0 (S n))
                  else rev (map Z.of_nat (seq 0 (S n)))) = p :: ps).
      { destruct (extra cfg); [cbn; eauto|].
        rewrite seq_S, map_app, rev_app_distr. cbn. eauto. }
      destruct Hfirst as (p & ps & ->). cbn [sample_loop]. rewrite bind_run.
      destruct (slow_probe_misses low sc p (no_samples cfg) m1) as [Hfail Hz].
      rewrite Hfail. split; [reflexivity | exact Hz]. }
    destruct (negb (Qeq_bool (Z_PROBE_FEEDRATE_FAST cfg) (Z_PROBE_FEEDRATE_SLOW cfg)));
      [rewrite bind_run|]; cbn [ret fst snd]; rewrite bind_run;
      match goal with
      | |- context [(if multi cfg then _ else _) ?m1] =>
          destruct (Hslow m1) as [Hfail Hz]
      end;
      rewrite Hfail; (split; [reflexivity | exact Hz]).
Qed.

End NothingToHit.

(** C6.  The floor of the descent is [-offset.z + Z_PROBE_LOW_POINT] when the
    Z axis is trusted and exactly -10 when it is not; with nothing to hit
    and a TOTAL_PROBING that the [uint8_t] loop counter holds, [run_z_probe]
    returns NAN and leaves the nozzle at that floor. *)
Theorem z_probe_low_point_value (cfg : Config) (world : World) (sc : bool) (m : Machine) :
  (z_trusted m = true ->
   z_probe_low_point cfg m = - z (offset m) + Z_PROBE_LOW_POINT cfg)
  /\ (z_trusted m = false -> z_probe_low_point cfg m = - (10))
  /\ (nothing_to_hit world -> (TOTAL_PROBING cfg <= 255)%Z ->
      fst (run_z_probe cfg world sc m) = Some FNaN
      /\ z (current_position (snd (run_z_probe cfg world sc m)))
         = (if z_trusted m then - z (offset m) + Z_PROBE_LOW_POINT cfg else - (10))).
Proof.
  split; [|split].
  - unfold z_probe_low_point. now intros ->.
  - unfold z_probe_low_point. now intros ->.
  - intros Hnothing Hfits. now apply run_z_probe_misses.
Qed.

(** ** Running commands *)

Section Preserves.

Variable R : Machine -> Machine -> Prop.
Context {R_preorder : PreOrder R}.

Lemma preserves_ret {A} (v : A) : preserves R (ret v).
Proof. intros m. cbn. reflexivity. Qed.

Lemma preserves_bind {A B} (cmd : Cmd A) (k : A -> Cmd B) :
  preserves R cmd -> (forall v, preserves R (k v)) -> preserves R (bind cmd k).
Proof.
  intros Hc Hk m. rewrite bind_run.
  transitivity (snd (cmd m)); [apply Hc | apply Hk].
Qed.

Lemma preserves_if {A} (t : bool) (c1 c2 : Cmd A) :
  preserves R c1 -> preserves R c2 -> preserves R (if t then c1 else c2).
Proof. now destruct t. Qed.

Lemma preserves_when (t : bool) (cmd : Cmd unit) :
  preserves R cmd -> preserves R (when t cmd).
Proof. intros H. unfold when. apply preserves_if; [exact H | apply preserves_ret]. Qed.

Lemma preserves_read {A} (f : Machine -> A) : preserves R (fun m => (f m, m)).
Proof. intros m. cbn. reflexivity. Qed.

Lemma preserves_returns {A} (cmd : Cmd A) : preserves R cmd -> preserves R (returns cmd).
Proof. intros H m. rewrite returns_run. apply H. Qed.

Lemma preserves_and_then {A B} (cmd : Cmd (option A)) (k : A -> Cmd (option B)) :
  preserves R cmd -> (forall v, preserves R (k v)) -> preserves R (and_then cmd k).
Proof.
  intros Hc Hk m. rewrite and_then_run.
  destruct (fst (cmd m)); [|apply Hc].
  transitivity (snd (cmd m)); [apply Hc | apply Hk].
Qed.

End Preserves.

#[export] Instance log_grows_preorder (P : Event -> Prop) : PreOrder (log_grows P).
Proof.
  split.
  - intros m. exists []. split; [constructor | now rewrite app_nil_r].
  - intros m1 m2 m3 (e1 & H1 & E1) (e2 & H2 & E2).
    exists (e1 ++ e2). split; [now apply Forall_app|].
    now rewrite E2, E1, app_assoc.
Qed.

#[export] Instance keeps_preorder {X} (f : Machine -> X) : PreOrder (keeps f).
Proof.
  split; [intros m; reflexivity|].
  intros m1 m2 m3 H1 H2. unfold keeps in *. congruence.
Qed.

Lemma log_grows_emit (P : Event -> Prop) (e : Event) :
  P e -> preserves (log_grows P) (emit e).
Proof. intros He m. exists [e]. split; [now repeat constructor | reflexivity]. Qed.

Lemma log_grows_same (P : Event -> Prop) (m m' : Machine) :
  log m' = log m -> log_grows P m m'.
Proof. intros H. exists []. split; [constructor | now rewrite app_nil_r]. Qed.

(** Sequencing, tests and reads are taken apart; what is left is a call. *)
Ltac preorder_goal :=
  match goal with
  | |- PreOrder _ => typeclasses eauto
  | |- _ => idtac
  end.

Ltac preserve_step :=
  lazymatch goal with
  | |- preserves _ (ret _) => apply preserves_ret
  | |- preserves _ (when _ _) => apply preserves_when
  | |- preserves _ (if _ then _ else _) => apply preserves_if
  | |- preserves _ (returns _) => apply preserves_returns
  | |- preserves _ (and_then _ _) => apply preserves_and_then; [| | intros ?]
  | |- preserves _ (bind _ _) => apply preserves_bind; [| | intros ?]
  | |- preserves _ (fun m => (_, m)) => apply preserves_read
  end.

Ltac preserve_steps :=
  repeat (first [ assumption | preserve_step ]; preorder_goal).

Ltac log_leaf :=
  first
    [ apply log_grows_emit
    | intros ?; cbn; first
        [ apply log_grows_same; reflexivity
        | eexists [_]; split; [repeat constructor | reflexivity] ] ].

Ltac keeps_leaf := intros ?; reflexivity.


(** ** Deploy and stow *)

(** The wait for the probe to be attached or detached, whatever the number
    of rounds. *)
Lemma wait_for_probe_preserves (R : Machine -> Machine -> Prop) {HR : PreOrder R}
    (cfg : Config) (world : World) (deploy : bool) :
  preserves R (read_PROBE_TRIGGERED world) -> preserves R (emit EvIdle) ->
  forall fuel, preserves R (wait_for_probe cfg world fuel deploy).
Proof.
  intros Hread Hidle fuel. induction fuel as [|fuel IH]; cbn [wait_for_probe].
  - preserve_steps.
  - unfold get. preserve_steps; assumption.
Qed.

Lemma probe_specific_action_steady (cfg : Config) (world : World) (deploy : bool) :
  preserves (keeps running) (probe_specific_action cfg world deploy)
  /\ preserves (keeps z_probe_enabled) (probe_specific_action cfg world deploy)
  /\ preserves (log_grows (fun e => not_failure e /\ not_clearance e))
       (probe_specific_action cfg world deploy).
Proof.
  unfold probe_specific_action, pause_before, actuate, bltouch_cmd, get.
  repeat split; preserve_steps;
    try (apply wait_for_probe_preserves; preorder_goal);
    try keeps_leaf; log_leaf; repeat split; discriminate.
Qed.

Lemma z_raise_steady (t : bool) (r : Q) :
  preserves (keeps pin_reads) (when t (do_z_raise r))
  /\ preserves (keeps running) (when t (do_z_raise r))
  /\ preserves (keeps needs_homing) (when t (do_z_raise r))
  /\ preserves (log_grows (fun _ => True)) (when t (do_z_raise r)).
Proof.
  unfold do_z_raise, do_z_clearance, get, emit.
  repeat split; preserve_steps; try keeps_leaf; log_leaf; exact I.
Qed.

Lemma set_deployed_finish_run (cfg : Config) (deploy : bool) (old_xy : xyz_pos_t)
    (m : Machine) :
  fst (set_deployed_finish cfg deploy old_xy m) = false
  /\ z_probe_enabled (snd (set_deployed_finish cfg deploy old_xy m)) = deploy.
Proof.
  unfold set_deployed_finish. run_cmd.
  destruct (PREHEAT_BEFORE_PROBING cfg && deploy); cbn; split; reflexivity.
Qed.

Lemma deploy_failed_run (m : Machine) :
  deploy_failed m =
  (true,
   set_running false
     (set_log
        (log m
         ++ (if running m then [EvSerial "Z-Probe failed"; EvLcdAlert "Err: ZPROBE"] else [])
         ++ [EvStop]) m)).
Proof.
  unfold deploy_failed, IsRunning, stop. run_cmd.
  destruct (running m); cbn; unfold set_running, set_log; cbn;
    rewrite <- ?app_assoc; reflexivity.
Qed.

(** A successful [set_deployed] leaves [z_probe_enabled] equal to the
    request. *)
Lemma set_deployed_actuate_done (cfg : Config) (world : World) (deploy : bool)
    (m : Machine) :
  fst (set_deployed_actuate cfg world deploy m) = Some false ->
  z_probe_enabled (snd (set_deployed_actuate cfg world deploy m)) = deploy.
Proof.
  unfold set_deployed_actuate. rewrite bind_run. cbn [get fst snd].
  destruct (PROBE_TRIGGERED_WHEN_STOWED_TEST cfg).
  - rewrite bind_run, and_then_run.
    match goal with |- context [match ?t with Some _ => _ | None => _ end] =>
      destruct t end; [|discriminate].
    rewrite bind_run.
    match goal with |- context [if ?t then _ else _] => destruct t end;
      rewrite returns_run.
    + rewrite deploy_failed_run. discriminate.
    + intros _. apply set_deployed_finish_run.
  - rewrite and_then_run.
    match goal with |- context [match ?t with Some _ => _ | None => _ end] =>
      destruct t end; [|discriminate].
    rewrite returns_run. intros _. apply set_deployed_finish_run.
Qed.

Lemma set_deployed_done (cfg : Config) (world : World) (deploy : bool) (m : Machine) :
  fst (set_deployed cfg world deploy m) = Some false ->
  z_probe_enabled (snd (set_deployed cfg world deploy m)) = deploy.
Proof.
  unfold set_deployed. rewrite bind_run. cbn [get fst snd].
  destruct (Bool.eqb (z_probe_enabled m) deploy) eqn:E.
  - intros _. now apply eqb_prop.
  - rewrite bind_run. unfold set_deployed_homed.
    destruct (Z_PROBE_SLED cfg || Z_PROBE_ALLEN_KEY cfg).
    + rewrite bind_run.
      match goal with |- context [if ?t then _ else _] => destruct t end.
      * rewrite bind_run. discriminate.
      * apply set_deployed_actuate_done.
    + apply set_deployed_actuate_done.
Qed.

(** C8, as amended.  A [set_deployed] whose request equals
    [z_probe_enabled] returns success at once and leaves the machine, log
    included, as it was; hence, after a [set_deployed] that succeeded, the
    same request again is such a call: the pair behaves as the first call
    alone. *)
Theorem set_deployed_idempotent (cfg : Config) (world : World) (deploy : bool)
    (m : Machine) :
  (z_probe_enabled m = deploy -> set_deployed cfg world deploy m = (Some false, m))
  /\ (fst (set_deployed cfg world deploy m) = Some false ->
      bind (set_deployed cfg world deploy) (fun _ => set_deployed cfg world deploy) m
      = set_deployed cfg world deploy m).
Proof.
  assert (Hnoop : forall m0, z_probe_enabled m0 = deploy ->
                             set_deployed cfg world deploy m0 = (Some false, m0)).
  { intros m0 H. unfold set_deployed. rewrite bind_run. cbn [get fst snd].
    now rewrite H, eqb_reflx. }
  split; [apply Hnoop|].
  intros Hok. rewrite bind_run, Hnoop by now apply set_deployed_done.
  rewrite <- Hok. now destruct (set_deployed cfg world deploy m).
Qed.

(** C8, as the spec words it.  The pin of a tested servo probe stays
    triggered: [deploy()] fails without switching [z_probe_enabled] on, and
    the second [deploy()] is not a no-op: it raises, actuates and stops
    again. *)
Lemma deploy_twice_counterexample :
  let m := Scenario.machine false true in
  let world := Scenario.world_of true 0 [] in
  let once := deploy Scenario.servo_tested world m in
  let twice := bind (deploy Scenario.servo_tested world)
                    (fun _ => deploy Scenario.servo_tested world) m in
  log (snd once) =
    [EvZClearance (10 - - (15 # 10)); EvActuate Servo true;
     EvSerial "Z-Probe failed"; EvLcdAlert "Err: ZPROBE"; EvStop]
  /\ log (snd twice) =
    log (snd once) ++ [EvZClearance (10 - - (15 # 10)); EvActuate Servo true; EvStop]
  /\ twice <> once.
Proof.
  cbv zeta. split; [reflexivity|]. split; [reflexivity|].
  intros H. apply (f_equal (fun r => List.length (log (snd r)))) in H.
  vm_compute in H. discriminate.
Qed.

(** ** The Z raise of set_deployed *)

Lemma set_deployed_homed_log (cfg : Config) (world : World) (deploy : bool) :
  preserves (log_grows not_clearance) (set_deployed_homed cfg world deploy).
Proof.
  destruct (probe_specific_action_steady cfg world deploy) as (_ & _ & Hact).
  assert (Haction : preserves (log_grows not_clearance)
                      (probe_specific_action cfg world deploy)).
  { intros m. destruct (Hact m) as (evs & Hevs & E). exists evs.
    split; [|exact E]. eapply Forall_impl; [|exact Hevs]. now intros e [_ H]. }
  unfold set_deployed_homed, homing_needed_error, probe_error_stop, stop,
    set_deployed_actuate, read_PROBE_TRIGGERED, deploy_if_needed, enable_z_probe,
    deploy_failed, IsRunning, set_deployed_finish, do_blocking_move_to_xy, get.
  clear Hact. preserve_steps; cbv zeta; preserve_steps;
    log_leaf; intros d; discriminate.
Qed.

(** C4, as amended.  A [set_deployed] that is not a no-op first calls
    [do_z_raise(max(Z_CLEARANCE_BETWEEN_PROBES, Z_CLEARANCE_DEPLOY_PROBE))],
    before anything else it does and only once, except on a stow request of
    a fix-mounted or nozzle probe built without PAUSE_BEFORE_DEPLOY_STOW,
    which makes no such call. *)
Theorem set_deployed_z_raise (cfg : Config) (world : World) (deploy : bool)
    (m : Machine) :
  z_probe_enabled m = negb deploy ->
  let height := _MAX (Z_CLEARANCE_BETWEEN_PROBES cfg) (Z_CLEARANCE_DEPLOY_PROBE cfg) in
  let raise := EvZClearance (z_raise_dest (z (offset m)) height) in
  height == Qmax (Z_CLEARANCE_BETWEEN_PROBES cfg) (Z_CLEARANCE_DEPLOY_PROBE cfg)
  /\ (z_raise_wanted cfg deploy = false <->
      FIX_MOUNTED_PROBE cfg || NOZZLE_AS_PROBE cfg = true
      /\ PAUSE_BEFORE_DEPLOY_STOW cfg = false /\ deploy = false)
  /\ exists rest,
       Forall not_clearance rest
       /\ log (snd (set_deployed cfg world deploy m)) =
          log m ++ (if z_raise_wanted cfg deploy then [raise] else []) ++ rest.
Proof.
  intros Hreq height raise.
  split; [apply _MAX_is_max|]. split.
  - unfold z_raise_wanted.
    destruct (FIX_MOUNTED_PROBE cfg), (NOZZLE_AS_PROBE cfg),
      (PAUSE_BEFORE_DEPLOY_STOW cfg), deploy; cbn; intuition congruence.
  - unfold set_deployed. rewrite bind_run. cbn [get fst snd].
    rewrite Hreq, eqb_negb1, bind_run.
    match goal with
    | |- context [set_deployed_homed cfg world deploy ?m1] =>
        destruct (set_deployed_homed_log cfg world deploy m1) as (rest & Hrest & E)
    end.
    exists rest. split; [exact Hrest|]. rewrite E.
    destruct (z_raise_wanted cfg deploy); cbn; [|reflexivity].
    now rewrite <- app_assoc.
Qed.

(** C4, as the spec words it: on a fix-mounted probe without the operator
    pause the raise is made for a deploy request and skipped for a stow
    request. *)
Lemma z_raise_request_counterexample :
  let world := Scenario.world_of false 0 [] in
  FIX_MOUNTED_PROBE Scenario.fixed_mount = true
  /\ PAUSE_BEFORE_DEPLOY_STOW Scenario.fixed_mount = false
  /\ log (snd (set_deployed Scenario.fixed_mount world true (Scenario.machine false true)))
     = [EvZClearance (10 - - (15 # 10)); EvMoveXY 100 100; EvEnableZProbe true]
  /\ log (snd (set_deployed Scenario.fixed_mount world false (Scenario.machine true true)))
     = [EvMoveXY 100 100; EvEnableZProbe false].
Proof. cbv zeta. repeat split. Qed.


(** ** The check after deploy/stow *)

Lemma set_deployed_homed_ok (cfg : Config) (world : World) (deploy : bool) (m : Machine) :
  (Z_PROBE_SLED cfg || Z_PROBE_ALLEN_KEY cfg = true -> needs_homing m = false) ->
  set_deployed_homed cfg world deploy m = set_deployed_actuate cfg world deploy m.
Proof.
  intros H. unfold set_deployed_homed.
  destruct (Z_PROBE_SLED cfg || Z_PROBE_ALLEN_KEY cfg); [|reflexivity].
  rewrite bind_run. cbn. now rewrite H.
Qed.

Lemma set_deployed_finish_steady (cfg : Config) (deploy : bool) (old_xy : xyz_pos_t) :
  preserves (keeps pin_reads) (set_deployed_finish cfg deploy old_xy)
  /\ preserves (keeps running) (set_deployed_finish cfg deploy old_xy)
  /\ preserves (log_grows not_failure) (set_deployed_finish cfg deploy old_xy).
Proof.
  unfold set_deployed_finish, enable_z_probe, do_blocking_move_to_xy, get, emit.
  repeat split; preserve_steps; try keeps_leaf; log_leaf; repeat split; discriminate.
Qed.

Lemma deploy_if_needed_steady (cfg : Config) (world : World) (deploy t1 : bool) :
  preserves (keeps running) (deploy_if_needed cfg world deploy t1)
  /\ preserves (log_grows (fun _ => True)) (deploy_if_needed cfg world deploy t1).
Proof.
  destruct (probe_specific_action_steady cfg world deploy) as (Hrun & _ & Hact).
  assert (Hlog : preserves (log_grows (fun _ => True))
                   (probe_specific_action cfg world deploy)).
  { intros m. destruct (Hact m) as (evs & Hevs & E). exists evs.
    split; [|exact E]. eapply Forall_impl; [|exact Hevs]. now intros e _. }
  clear Hact. unfold deploy_if_needed, enable_z_probe, emit.
  split; preserve_steps; try keeps_leaf; log_leaf; exact I.
Qed.

(** When [probe_specific_action] returns, the last thing it did is the
    actuation; a build without the operator pause does nothing before it. *)
Lemma probe_specific_action_returns (cfg : Config) (world : World) (deploy : bool)
    (m : Machine) :
  fst (probe_specific_action cfg world deploy m) = Some tt ->
  exists paused,
    (PAUSE_BEFORE_DEPLOY_STOW cfg = false -> paused = m)
    /\ snd (probe_specific_action cfg world deploy m)
       = snd (actuate cfg world deploy paused).
Proof.
  unfold probe_specific_action. rewrite bind_run.
  destruct (PAUSE_BEFORE_DEPLOY_STOW cfg).
  - destruct (fst (pause_before cfg world deploy m)); [|discriminate].
    rewrite returns_run. intros _.
    exists (snd (pause_before cfg world deploy m)). split; [discriminate | reflexivity].
  - cbn [ret fst snd]. rewrite returns_run. intros _.
    exists m. split; reflexivity.
Qed.

(** C7, as amended.  For a [set_deployed] that is not a no-op and passes the
    homing test, with [raised] the machine after the Z raise:
    - built with PROBE_TRIGGERED_WHEN_STOWED_TEST, the call does not return
      while the deploy/stow action has not returned; once the action has
      returned, leaving the machine [m3], the probe pin is read once more,
      and that read is the one that follows every read of the action; when
      it equals the request the call stops the machine and returns failure,
      and it reports "Z-Probe failed" with the LCD alert just before, when
      the machine was running; when it differs from the request the call
      succeeds;
    - built without it, [probe_specific_action(deploy)] is run whatever the
      pin reads, which ends with the actuation of the probe; once it has
      returned the pin is not read again, nothing is reported or stopped,
      and the call succeeds. *)
Theorem set_deployed_recheck (cfg : Config) (world : World) (deploy : bool)
    (m : Machine) :
  z_probe_enabled m = negb deploy ->
  (Z_PROBE_SLED cfg || Z_PROBE_ALLEN_KEY cfg = true -> needs_homing m = false) ->
  let raised :=
    snd (when (z_raise_wanted cfg deploy)
           (do_z_raise (_MAX (Z_CLEARANCE_BETWEEN_PROBES cfg)
                             (Z_CLEARANCE_DEPLOY_PROBE cfg))) m) in
  let r := set_deployed cfg world deploy m in
  (PROBE_TRIGGERED_WHEN_STOWED_TEST cfg = true ->
   let first := read_PROBE_TRIGGERED world raised in
   let action := deploy_if_needed cfg world deploy (fst first) (snd first) in
   let m3 := snd action in
   let t2 := PROBE_TRIGGERED world (pin_reads m3) in
   (fst action = None -> r = (None, m3))
   /\ (fst action = Some tt ->
       pin_reads (snd r) = S (pin_reads m3)
       /\ (t2 = deploy ->
           fst r = Some true
           /\ running (snd r) = false
           /\ log (snd r) =
              log m3
              ++ (if running m
                  then [EvSerial "Z-Probe failed"; EvLcdAlert "Err: ZPROBE"] else [])
              ++ [EvStop])
       /\ (t2 = negb deploy -> fst r = Some false)))
  /\ (PROBE_TRIGGERED_WHEN_STOWED_TEST cfg = false ->
      let action := probe_specific_action cfg world deploy raised in
      (fst action = None -> r = (None, snd action))
      /\ (fst action = Some tt ->
          (exists paused,
              (PAUSE_BEFORE_DEPLOY_STOW cfg = false -> paused = raised)
              /\ snd action = snd (actuate cfg world deploy paused))
          /\ fst r = Some false
          /\ pin_reads (snd r) = pin_reads (snd action)
          /\ running (snd r) = running m
          /\ exists evs, Forall not_failure evs /\ log (snd r) = log m ++ evs)).
Proof.
  intros Hreq Hhomed raised r. subst r.
  unfold set_deployed. rewrite bind_run. cbn [get fst snd].
  rewrite Hreq, eqb_negb1, bind_run.
  destruct (z_raise_steady (z_raise_wanted cfg deploy)
              (_MAX (Z_CLEARANCE_BETWEEN_PROBES cfg) (Z_CLEARANCE_DEPLOY_PROBE cfg)))
    as (_ & Kr & Kh & Kl).
  specialize (Kr m). specialize (Kh m). specialize (Kl m).
  unfold keeps in Kr, Kh. fold raised in Kr, Kh, Kl |- *.
  rewrite set_deployed_homed_ok by (intros H; rewrite Kh; auto).
  unfold set_deployed_actuate. rewrite bind_run. cbn [get fst snd].
  split.
  - intros Hyes. rewrite Hyes. rewrite bind_run, and_then_run.
    set (first := read_PROBE_TRIGGERED world raised).
    set (action := deploy_if_needed cfg world deploy (fst first) (snd first)).
    set (m3 := snd action).
    set (t2 := PROBE_TRIGGERED world (pin_reads m3)).
    split; [intros ->; reflexivity|].
    intros Hsome. rewrite Hsome, bind_run.
    change (fst (read_PROBE_TRIGGERED world m3)) with t2.
    destruct (deploy_if_needed_steady cfg world deploy (fst first)) as (Br & _).
    specialize (Br (snd first)). unfold keeps in Br. fold action in Br. fold m3 in Br.
    assert (Hrun : running m3 = running m) by (rewrite Br; exact Kr).
    destruct (set_deployed_finish_steady cfg deploy (current_position raised))
      as (Fp & _ & _).
    specialize (Fp (snd (read_PROBE_TRIGGERED world m3))). unfold keeps in Fp.
    pose proof (set_deployed_finish_run cfg deploy (current_position raised)
                  (snd (read_PROBE_TRIGGERED world m3))) as [Ff _].
    split.
    + destruct (Bool.eqb t2 deploy); rewrite returns_run; cbn [fst snd].
      * rewrite deploy_failed_run. reflexivity.
      * rewrite Fp. reflexivity.
    + split.
      * intros ->. rewrite eqb_reflx, returns_run, deploy_failed_run. cbn [fst snd].
        split; [reflexivity|]. split; [reflexivity|].
        cbn. now rewrite Hrun.
      * intros ->. rewrite eqb_negb1, returns_run. cbn [fst snd]. now rewrite Ff.
  - intros Hno. rewrite Hno, and_then_run.
    set (action := probe_specific_action cfg world deploy raised).
    split; [intros ->; reflexivity|].
    intros Hsome. rewrite Hsome, returns_run. cbn [fst snd].
    split; [now apply probe_specific_action_returns|].
    destruct (probe_specific_action_steady cfg world deploy) as (Ar & _ & Al).
    specialize (Ar raised). specialize (Al raised). unfold keeps in Ar.
    fold action in Ar, Al.
    destruct (set_deployed_finish_steady cfg deploy (current_position raised))
      as (Fp & Fr & Fl).
    specialize (Fp (snd action)). specialize (Fr (snd action)).
    specialize (Fl (snd action)). unfold keeps in Fp, Fr.
    pose proof (set_deployed_finish_run cfg deploy (current_position raised)
                  (snd action)) as [Ff _].
    split; [now rewrite Ff|]. split; [exact Fp|]. split; [congruence|].
    destruct Kl as (e1 & _ & E1). destruct Al as (e2 & H2 & E2).
    destruct Fl as (e3 & H3 & E3).
    assert (H1 : Forall not_failure e1).
    { subst raised. revert E1. unfold when, do_z_raise, do_z_clearance.
      destruct (z_raise_wanted cfg deploy); cbn; intros E1.
      - apply app_inv_head in E1. subst e1.
        repeat constructor; discriminate.
      - rewrite <- (app_nil_r (log m)) in E1 at 1. apply app_inv_head in E1.
        subst e1. constructor. }
    exists (e1 ++ e2 ++ e3). split.
    + apply Forall_app. split; [exact H1|]. apply Forall_app. split; [|exact H3].
      eapply Forall_impl; [|exact H2]. now intros e [H _].
    + now rewrite E3, E2, E1, <- !app_assoc.
Qed.


(** C7, as the spec words it.  Without PROBE_TRIGGERED_WHEN_STOWED_TEST the
    servo is moved, the pin still reads the request afterwards, and the call
    succeeds without any report or stop; with it but on a stopped machine
    the call fails and stops without report or alert. *)
Lemma recheck_counterexample :
  let world := Scenario.world_of true 0 [] in
  let plain := set_deployed Scenario.servo_probe world true (Scenario.machine false true) in
  let halted := set_deployed Scenario.servo_tested world true (Scenario.machine false false) in
  (log (snd plain) =
     [EvZClearance (10 - - (15 # 10)); EvActuate Servo true;
      EvMoveXY 100 100; EvEnableZProbe true]
   /\ PROBE_TRIGGERED world (pin_reads (snd plain)) = true
   /\ fst plain = Some false
   /\ running (snd plain) = true)
  /\ (log (snd halted) =
        [EvZClearance (10 - - (15 # 10)); EvActuate Servo true; EvStop]
      /\ fst halted = Some true).
Proof. cbv zeta. repeat split. Qed.

(** ** Tare failure in the slow probe *)

Lemma slow_probe_tare_failed (cfg : Config) (world : World) (low : Q) (sc : bool)
    (p : Z) (s : Samples) (m : Machine) :
  fst (TERN0_PROBE_TARE_tare cfg world m) = true ->
  fst (slow_probe cfg world low sc p s m) = inl (FNum 1).
Proof.
  intros H. unfold slow_probe. rewrite bind_run, H. reflexivity.
Qed.

(** C3.  One slow probe with PROBE_TARE while the activation switch reads
    active: [tare()] refuses, and [run_z_probe] returns 1 (the [true] of
    [return true;]), not NAN. *)
Theorem tare_failure_returns_one :
  let world := Scenario.world_of true 64 [0] in
  let r := run_z_probe Scenario.tared_single world true (Scenario.machine true true) in
  fst r = Some (FNum 1)
  /\ fst r <> Some FNaN
  /\ log (snd r) = [EvSerial "Cannot tare an active probe"].
Proof. cbv zeta. repeat split. discriminate. Qed.

(** ** Two probes *)

(** C2.  With TOTAL_PROBING == 2, when the tares and both probes succeed,
    [run_z_probe] returns [(z2 * 3 + first_probe_z * 2) * 0.2], that is
    [(slow * 3 + fast * 2) / 5], where [fast] is the Z sampled after the
    fast probe and [slow] the Z sampled after the slow one. *)
Theorem double_probe_weighting (cfg : Config) (world : World) (sc : bool) (m : Machine) :
  TOTAL_PROBING cfg = 2%Z ->
  let low := z_probe_low_point cfg m in
  let tare0 := TERN0_PROBE_TARE_tare cfg world m in
  let fast := try_to_probe cfg world low (z_probe_fast_mm_s cfg) sc
                (Z_CLEARANCE_BETWEEN_PROBES cfg) (snd tare0) in
  let fast_z := sampled_z cfg (snd fast) in
  let raised :=
    snd (do_blocking_move_to_z
           (z (current_position (snd fast)) + Z_CLEARANCE_MULTI_PROBE cfg)
           (z_probe_fast_mm_s cfg) (snd fast)) in
  let tare1 := TERN0_PROBE_TARE_tare cfg world raised in
  let slow := try_to_probe cfg world low (MMM_TO_MMS (Z_PROBE_FEEDRATE_SLOW cfg)) sc
                (Z_CLEARANCE_MULTI_PROBE cfg) (snd tare1) in
  let slow_z := sampled_z cfg (snd slow) in
  fst tare0 = false -> fst fast = false -> fst tare1 = false -> fst slow = false ->
  exists v,
    fst (run_z_probe cfg world sc m) = Some (FNum v)
    /\ v == (slow_z * 3 + fast_z * 2) / 5.
Proof.
  intros Htotal low tare0 fast fast_z raised tare1 slow slow_z Ht0 Hf Ht1 Hs.
  exists ((slow_z * 3 + fast_z * 2) * (2 # 10)).
  split; [| field].
  unfold run_z_probe. rewrite bind_run. cbn [get fst snd].
  rewrite bind_run. unfold before_slow_probes.
  rewrite Htotal. cbn [Z.eqb Pos.eqb].
  assert (Hfast : fast_probe cfg world low sc m = (inr fast_z, raised)).
  { unfold fast_probe. rewrite bind_run. fold tare0. rewrite Ht0.
    rewrite bind_run. fold fast. rewrite Hf.
    rewrite !bind_run. reflexivity. }
  fold low. rewrite Hfast. cbn [fst snd].
  rewrite endless_small by (rewrite Htotal; lia).
  unfold multi. rewrite Htotal. cbn [Z.ltb Z.compare Pos.compare Pos.compare_cont].
  rewrite bind_run.
  assert (Hslow : exists s' m',
             slow_probe cfg world low sc 0 (no_samples cfg) raised
             = (inr s', m')
             /\ sampled_z cfg m' = slow_z).
  { unfold slow_probe. rewrite bind_run. fold tare1. rewrite Ht1.
    rewrite bind_run. fold slow. rewrite Hs.
    rewrite !bind_run. cbn [get fst snd].
    unfold multi. rewrite Htotal.
    cbn [Z.ltb Z.compare Pos.compare Pos.compare_cont andb when ret fst snd].
    eexists. eexists. split; [reflexivity|].
    destruct (MEASURE_BACKLASH_WHEN_PROBING cfg); reflexivity. }
  destruct Hslow as (s' & m' & Hslow & Hz).
  rewrite Hslow. cbn [fst snd]. rewrite bind_run. cbn [get ret fst snd].
  unfold measured_z, multi. rewrite Htotal, Hz. reflexivity.
Qed.

(** ** The sorted array of samples *)

Lemma aget_at (l1 l2 : list Q) (v : Q) :
  aget (l1 ++ v :: l2) (Z.of_nat (length l1)) = v.
Proof.
  unfold aget. destruct (Z.ltb_spec (Z.of_nat (length l1)) 0); [lia|].
  rewrite Nat2Z.id, app_nth2, Nat.sub_diag by lia. reflexivity.
Qed.

Lemma set_nth_at (l1 l2 : list Q) (old v : Q) :
  set_nth (l1 ++ old :: l2) (length l1) v = l1 ++ v :: l2.
Proof. induction l1 as [|h t IH]; cbn; [reflexivity | now rewrite IH]. Qed.

Lemma aset_at (l1 l2 : list Q) (old v : Q) :
  aset (l1 ++ old :: l2) (Z.of_nat (length l1)) v = l1 ++ v :: l2.
Proof.
  unfold aset. destruct (Z.ltb_spec (Z.of_nat (length l1)) 0); [lia|].
  rewrite Nat2Z.id. apply set_nth_at.
Qed.

(** Shifting the items [seg] one place up duplicates the first of them. *)
Lemma shift_items_at (seg : list Q) :
  forall (pre post : list Q) (old : Q),
    shift_items (pre ++ seg ++ old :: post) (Z.of_nat (length pre)) (length seg)
    = pre ++ hd old seg :: seg ++ post.
Proof.
  induction seg as [|y seg' IH] using rev_ind; intros pre post old.
  - reflexivity.
  - rewrite length_app, Nat.add_1_r. cbn [shift_items].
    replace (pre ++ (seg' ++ [y]) ++ old :: post)
      with ((pre ++ seg') ++ y :: old :: post)
      by (now rewrite <- !app_assoc).
    replace (Z.of_nat (length pre) + Z.of_nat (length seg'))%Z
      with (Z.of_nat (length (pre ++ seg')))
      by (rewrite length_app; lia).
    rewrite aget_at.
    replace (Z.of_nat (length (pre ++ seg')) + 1)%Z
      with (Z.of_nat (length ((pre ++ seg') ++ [y])))
      by (rewrite (length_app _ [y]); cbn; lia).
    replace ((pre ++ seg') ++ y :: old :: post)
      with (((pre ++ seg') ++ [y]) ++ old :: post)
      by (now rewrite <- !app_assoc).
    rewrite aset_at.
    replace (((pre ++ seg') ++ [y]) ++ y :: post)
      with (pre ++ seg' ++ y :: (y :: post))
      by (now rewrite <- !app_assoc).
    rewrite IH. f_equal.
    destruct seg'; cbn; [reflexivity|].
    now rewrite <- !app_assoc.
Qed.

Lemma i8_small (v : Z) : (0 <= v <= 127)%Z -> i8 v = v.
Proof. intros H. unfold i8. rewrite Z.mod_small; lia. Qed.

Lemma u8_small (v : Z) : (0 <= v <= 255)%Z -> u8 v = v.
Proof. intros H. unfold u8. apply Z.mod_small. lia. Qed.

(** The scan from [i], past the items [done] that are not above [zv]. *)
Lemma insert_scan_at (zv : Q) (rest : list Q) :
  forall (done post : list Q) (old : Q) (rounds : nat),
    (Z.of_nat (length done + length rest) <= 127)%Z ->
    (length rest < rounds)%nat ->
    insert_scan (done ++ rest ++ old :: post) zv
      (Z.of_nat (length done + length rest)) (Z.of_nat (length done)) rounds
    = done ++ ins zv rest ++ post.
Proof.
  induction rest as [|y r IH]; intros done post old rounds Hfit Hrounds;
    (destruct rounds as [|rounds]; [cbn in Hrounds; lia|]); cbn [insert_scan ins].
  - cbn [length] in *. rewrite Nat.add_0_r, Z.eqb_refl. cbn [orb].
    unfold shift_down. rewrite i8_small, Z.sub_diag by lia.
    cbn [Z.to_nat shift_items app]. apply aset_at.
  - cbn [length] in *.
    destruct (Z.eqb_spec (Z.of_nat (length done))
                (Z.of_nat (length done + S (length r)))) as [E|_]; [lia|].
    cbn [orb].
    change ((y :: r) ++ old :: post) with (y :: (r ++ old :: post)) at 1.
    rewrite aget_at.
    destruct (Qgtb y zv).
    + unfold shift_down. rewrite i8_small by lia.
      replace (Z.to_nat (Z.of_nat (length done + S (length r)) - Z.of_nat (length done)))
        with (length (y :: r)) by (cbn [length]; lia).
      rewrite shift_items_at. cbn [hd].
      rewrite aset_at. reflexivity.
    + rewrite u8_small by lia.
      replace (done ++ (y :: r) ++ old :: post)
        with ((done ++ [y]) ++ r ++ old :: post)
        by (now rewrite <- app_assoc).
      replace (Z.of_nat (length done + S (length r)))
        with (Z.of_nat (length (done ++ [y]) + length r))
        by (rewrite length_app; cbn [length]; lia).
      replace (Z.of_nat (length done) + 1)%Z
        with (Z.of_nat (length (done ++ [y])))
        by (rewrite length_app; cbn [length]; lia).
      rewrite IH.
      * now rewrite <- app_assoc.
      * rewrite length_app. cbn [length]. lia.
      * cbn in Hrounds. lia.
Qed.

(** [insert_probe] on an array that holds [p] sorted samples followed by
    unused places. *)
Lemma insert_probe_at (zv old : Q) (filled post : list Q) :
  (Z.of_nat (length filled) <= 127)%Z ->
  insert_probe (filled ++ old :: post) zv (Z.of_nat (length filled))
  = ins zv filled ++ post.
Proof.
  intros Hfit. unfold insert_probe.
  apply (insert_scan_at zv filled [] post old).
  - cbn [length]. lia.
  - rewrite Nat2Z.id. lia.
Qed.

Lemma ins_length (zv : Q) (l : list Q) : length (ins zv l) = S (length l).
Proof.
  induction l as [|h t IH]; cbn; [reflexivity|].
  destruct (Qgtb h zv); cbn; [reflexivity | now rewrite IH].
Qed.

Lemma ins_Forall (P : Q -> Prop) (zv : Q) (l : list Q) :
  P zv -> Forall P l -> Forall P (ins zv l).
Proof.
  intros Hz Hl. induction Hl as [|h t Hh Ht IH]; cbn.
  - now repeat constructor.
  - destruct (Qgtb h zv); repeat constructor; assumption.
Qed.

Lemma ins_sorted (zv : Q) (l : list Q) :
  StronglySorted Qle l -> StronglySorted Qle (ins zv l).
Proof.
  intros Hl. induction Hl as [|h t Ht IH Hh]; cbn.
  - repeat constructor.
  - destruct (Qgtb h zv) eqn:E.
    + apply Qgtb_true_iff in E.
      constructor; [now constructor|].
      constructor; [now apply Qlt_le_weak|].
      eapply Forall_impl; [|exact Hh].
      intros q Hq. eapply Qle_trans; [apply Qlt_le_weak; exact E | exact Hq].
    + apply Qgtb_false_iff in E.
      constructor; [exact IH|]. now apply ins_Forall.
Qed.

Lemma ins_perm (zv : Q) (l : list Q) : Permutation (ins zv l) (zv :: l).
Proof.
  induction l as [|h t IH]; cbn; [reflexivity|].
  destruct (Qgtb h zv); [reflexivity|].
  rewrite IH. apply perm_swap.
Qed.

Lemma sorted_nth (l : list Q) :
  StronglySorted Qle l ->
  forall i j : nat, (i <= j < length l)%nat -> nth i l 0 <= nth j l 0.
Proof.
  intros Hl. induction Hl as [|h t Ht IH Hh]; intros i j Hij; cbn in Hij; [lia|].
  destruct j as [|j'].
  - replace i with O by lia. apply Qle_refl.
  - destruct i as [|i']; cbn [nth].
    + rewrite Forall_forall in Hh. apply Hh. apply nth_In. lia.
    + apply IH. lia.
Qed.

Lemma sorted_array_of (l : list Q) : StronglySorted Qle l -> sorted_array l.
Proof.
  intros Hl i j Hij Hj. unfold aget.
  destruct (Z.ltb_spec i 0), (Z.ltb_spec j 0); try lia.
  apply sorted_nth; [exact Hl | lia].
Qed.

(** *** The sample loop keeps the array sorted *)

Section SampleLoop.

Variable cfg : Config.
Variable world : World.
Variables (low : Q) (sanity_check : bool).

Hypothesis extra_samples : (0 < EXTRA_PROBING cfg)%Z.
Hypothesis total_fits : (TOTAL_PROBING cfg <= 128)%Z.

Lemma slow_probe_inserts (p : Z) (s s' : Samples) (m : Machine) :
  fst (slow_probe cfg world low sanity_check p s m) = inr s' ->
  exists zv, s' = mkSamples (insert_probe (probes s) zv p) (probes_z_sum s).
Proof.
  unfold slow_probe. rewrite bind_run.
  destruct (fst (TERN0_PROBE_TARE_tare cfg world m)); [discriminate|].
  rewrite bind_run.
  match goal with |- context [if fst ?t then _ else _] => destruct (fst t) end;
    [discriminate|].
  rewrite !bind_run. cbn [get ret fst snd]. unfold extra.
  destruct (Z.ltb_spec 0 (EXTRA_PROBING cfg)) as [_|]; [|lia].
  intros [= <-]. eexists. reflexivity.
Qed.

Lemma sample_loop_sorted (k : nat) :
  forall (p : nat) (s s' : Samples) (m : Machine),
    (p + k)%nat = Z.to_nat (TOTAL_PROBING cfg) ->
    filled_sorted cfg p s ->
    fst (sample_loop cfg world low sanity_check (map Z.of_nat (seq p k)) s m) = inr s' ->
    filled_sorted cfg (p + k) s'.
Proof.
  induction k as [|k IH]; intros p s s' m Hpk Hs; cbn [seq map sample_loop].
  - cbn. intros [= <-]. now rewrite Nat.add_0_r.
  - rewrite bind_run.
    destruct (fst (slow_probe cfg world low sanity_check (Z.of_nat p) s m)) as [v|s1] eqn:E;
      [discriminate|].
    apply slow_probe_inserts in E. destruct E as [zv ->].
    intros Hrun. replace (p + S k)%nat with (S p + k)%nat by lia.
    eapply IH; [lia | | exact Hrun].
    destruct Hs as (filled & rest & Hp & Hlen & Hsorted & Htotal & Hsum).
    destruct rest as [|old post].
    { rewrite Hp, app_nil_r in Htotal. lia. }
    exists (ins zv filled), post. cbn [probes probes_z_sum].
    rewrite Hp, <- Hlen, insert_probe_at by lia.
    repeat split.
    + apply ins_length.
    + now apply ins_sorted.
    + rewrite <- Htotal, Hp, !length_app, ins_length. cbn [length]. lia.
    + exact Hsum.
Qed.

Lemma sample_loop_result (s : Samples) (m : Machine) :
  fst (sample_loop cfg world low sanity_check (loop_counter cfg) (no_samples cfg) m) = inr s ->
  sorted_array (probes s)
  /\ Z.of_nat (length (probes s)) = Z.max 0 (TOTAL_PROBING cfg)
  /\ probes_z_sum s = 0.
Proof.
  unfold loop_counter, extra.
  destruct (Z.ltb_spec 0 (EXTRA_PROBING cfg)) as [_|]; [|lia].
  intros Hrun.
  apply (sample_loop_sorted (Z.to_nat (TOTAL_PROBING cfg)) 0) in Hrun;
    [| reflexivity |].
  - destruct Hrun as (filled & rest & Hp & Hlen & Hsorted & Htotal & Hsum).
    cbn [Nat.add] in Hlen.
    assert (rest = []) as ->.
    { apply length_zero_iff_nil. rewrite Hp, length_app in Htotal. lia. }
    rewrite app_nil_r in Hp. rewrite Hp.
    split; [now apply sorted_array_of|]. split; [lia | exact Hsum].
  - exists [], (repeat 0 (Z.to_nat (TOTAL_PROBING cfg))).
    cbn [no_samples probes probes_z_sum app length].
    repeat split; [constructor | apply repeat_length].
Qed.

End SampleLoop.

(** *** Median and trimming of a sorted array *)

Lemma between_abs (lo v hi med r : Q) :
  lo <= v -> v <= hi ->
  Qabs (lo - med) <= r -> Qabs (hi - med) <= r -> Qabs (v - med) <= r.
Proof.
  intros Hlo Hhi Hl Hh.
  apply Qabs_Qle_condition in Hl. apply Qabs_Qle_condition in Hh.
  apply Qabs_Qle_condition. lra.
Qed.

Lemma skipn_aget (ps : list Q) (i : nat) :
  (i < length ps)%nat ->
  skipn i ps = aget ps (Z.of_nat i) :: skipn (S i) ps.
Proof.
  unfold aget. destruct (Z.ltb_spec (Z.of_nat i) 0) as [|_]; [lia|]. rewrite Nat2Z.id.
  revert i. induction ps as [|h t IH]; intros i Hi; cbn in Hi; [lia|].
  destruct i as [|i']; [reflexivity|].
  cbn [skipn nth]. apply IH. lia.
Qed.

Lemma sum_items_kept (ps : list Q) (n : nat) :
  forall (i : nat) (sum : Q),
    (i + n <= length ps)%nat ->
    sum_items ps (Z.of_nat i) n sum == sum + Qsum (firstn n (skipn i ps)).
Proof.
  induction n as [|n IH]; intros i sum Hin; cbn [sum_items firstn].
  - cbn. ring.
  - replace (Z.of_nat i + 1)%Z with (Z.of_nat (S i)) by lia.
    rewrite IH by lia. rewrite (skipn_aget ps i) by lia.
    unfold Qsum. cbn [firstn fold_right]. ring.
Qed.

Section Trimming.

Variable cfg : Config.
Variable ps : list Q.

Hypothesis three_or_more : (2 < TOTAL_PROBING cfg)%Z.
Hypothesis extra_samples : (0 < EXTRA_PROBING cfg)%Z.
Hypothesis kept_samples : (0 < MULTIPLE_PROBING cfg)%Z.
Hypothesis total_is_sum :
  TOTAL_PROBING cfg = (MULTIPLE_PROBING cfg + EXTRA_PROBING cfg)%Z.
Hypothesis total_fits : (TOTAL_PROBING cfg <= 128)%Z.
Hypothesis array_length : Z.of_nat (length ps) = TOTAL_PROBING cfg.
Hypothesis array_sorted : sorted_array ps.

Lemma trim_loop_succ (med : Q) (k : nat) (r : Z * Z) :
  trim_loop ps med (S k) r = trim_step ps med (trim_loop ps med k r).
Proof.
  revert r. induction k as [|k IH]; intros r; [reflexivity|].
  change (trim_loop ps med (S (S k)) r)
    with (trim_loop ps med (S k) (trim_step ps med r)).
  rewrite IH. reflexivity.
Qed.

(** A round on a range of at least two samples drops the endpoint that is
    farther from the median, the upper one only when strictly farther; no
    sample of the range is farther than the one dropped. *)
Lemma trim_step_drops (med : Q) (lo hi : Z) :
  (0 <= lo)%Z -> (lo < hi)%Z -> (hi < TOTAL_PROBING cfg)%Z ->
  (distance ps med lo < distance ps med hi ->
   trim_step ps med (lo, hi) = (lo, (hi - 1)%Z)
   /\ forall j, (lo <= j <= hi)%Z -> distance ps med j <= distance ps med hi)
  /\ (distance ps med hi <= distance ps med lo ->
      trim_step ps med (lo, hi) = ((lo + 1)%Z, hi)
      /\ forall j, (lo <= j <= hi)%Z -> distance ps med j <= distance ps med lo).
Proof.
  intros Hlo Hlt Hhi. unfold distance, trim_step.
  assert (Hin : forall j, (lo <= j <= hi)%Z ->
                          aget ps lo <= aget ps j /\ aget ps j <= aget ps hi).
  { intros j Hj. split; apply array_sorted; lia. }
  split; intros Hfar.
  - assert (E : Qgtb (ABS (aget ps hi - med)) (ABS (aget ps lo - med)) = true).
    { apply Qgtb_true_iff. now rewrite !ABS_is_Qabs. }
    rewrite E, u8_small by lia. split; [reflexivity|].
    intros j Hj. destruct (Hin j Hj) as [H1 H2].
    eapply between_abs; [exact H1 | exact H2 | | apply Qle_refl].
    now apply Qlt_le_weak.
  - assert (E : Qgtb (ABS (aget ps hi - med)) (ABS (aget ps lo - med)) = false).
    { apply Qgtb_false_iff. now rewrite !ABS_is_Qabs. }
    rewrite E, u8_small by lia. split; [reflexivity|].
    intros j Hj. destruct (Hin j Hj) as [H1 H2].
    eapply between_abs; [exact H1 | exact H2 | apply Qle_refl | exact Hfar].
Qed.

(** After [k] rounds the range still lies in the array and has lost
    exactly [k] samples. *)
Lemma trim_loop_range (med : Q) (k : nat) :
  (Z.of_nat k <= EXTRA_PROBING cfg)%Z ->
  let r := trim_loop ps med k (0%Z, (TOTAL_PROBING cfg - 1)%Z) in
  (0 <= fst r)%Z /\ (snd r < TOTAL_PROBING cfg)%Z
  /\ (snd r - fst r + 1 = TOTAL_PROBING cfg - Z.of_nat k)%Z.
Proof.
  induction k as [|k IH]; intros Hk.
  - cbn. lia.
  - rewrite trim_loop_succ.
    destruct IH as (H0 & Hn & Hsize); [lia|].
    destruct (trim_loop ps med k (0%Z, (TOTAL_PROBING cfg - 1)%Z)) as [lo hi].
    cbn [fst snd] in *.
    destruct (trim_step_drops med lo hi) as [Hup Hdown]; try lia.
    destruct (Qlt_le_dec (distance ps med lo) (distance ps med hi)) as [Hfar|Hfar].
    + destruct (Hup Hfar) as [-> _]. cbn [fst snd]. lia.
    + destruct (Hdown Hfar) as [-> _]. cbn [fst snd]. lia.
Qed.

Lemma median_of_middle :
  let n := TOTAL_PROBING cfg in
  (Z.odd n = true -> median_of cfg ps = aget ps ((n - 1) / 2))
  /\ (Z.even n = true ->
      median_of cfg ps == (aget ps (n / 2 - 1) + aget ps (n / 2)) / 2).
Proof.
  cbv zeta. unfold median_of, PHALF.
  rewrite Z.quot_div_nonneg by lia.
  assert (Hbit : (Z.land (TOTAL_PROBING cfg) 1 =? 0)%Z = negb (Z.odd (TOTAL_PROBING cfg))).
  { change 1%Z with (Z.ones 1). rewrite Z.land_ones by lia.
    change (2 ^ 1)%Z with 2%Z. rewrite Zmod_odd.
    now destruct (Z.odd (TOTAL_PROBING cfg)). }
  rewrite Hbit, negb_involutive, <- Z.negb_odd.
  split; intros Hodd.
  - now rewrite Hodd.
  - apply negb_true_iff in Hodd. rewrite Hodd.
    assert (Hn : (TOTAL_PROBING cfg = 2 * (TOTAL_PROBING cfg / 2))%Z).
    { pose proof (Z.div_mod (TOTAL_PROBING cfg) 2) as D.
      rewrite Zmod_odd, Hodd in D. lia. }
    replace ((TOTAL_PROBING cfg - 1) / 2)%Z with (TOTAL_PROBING cfg / 2 - 1)%Z.
    + replace (TOTAL_PROBING cfg / 2 - 1 + 1)%Z with (TOTAL_PROBING cfg / 2)%Z by lia.
      field.
    + apply Z.div_unique with (r := 1%Z); lia.
Qed.

(** The result of the aggregation is the mean of the kept range. *)
Lemma measured_z_mean (first_probe_z : Q) (m : Machine) :
  let lo := fst (trim_range cfg ps) in
  let hi := snd (trim_range cfg ps) in
  (0 <= lo)%Z /\ (lo <= hi)%Z /\ (hi < TOTAL_PROBING cfg)%Z
  /\ (hi - lo + 1 = TOTAL_PROBING cfg - EXTRA_PROBING cfg)%Z
  /\ measured_z cfg first_probe_z (mkSamples ps 0) m == mean (kept_range ps lo hi).
Proof.
  cbv zeta.
  destruct (trim_loop_range (median_of cfg ps) (Z.to_nat (EXTRA_PROBING cfg)))
    as (H0 & Hn & Hsize); [lia|].
  rewrite Z2Nat.id in Hsize by lia.
  unfold measured_z, multi, extra, trim_range.
  destruct (Z.ltb_spec 2 (TOTAL_PROBING cfg)) as [_|]; [|lia].
  destruct (Z.ltb_spec 0 (EXTRA_PROBING cfg)) as [_|]; [|lia].
  cbn [probes probes_z_sum].
  rewrite !u8_small by lia.
  destruct (trim_loop ps (median_of cfg ps) (Z.to_nat (EXTRA_PROBING cfg))
              (0%Z, (TOTAL_PROBING cfg - 1)%Z)) as [lo hi].
  cbn [fst snd probes probes_z_sum] in *.
  repeat split; try lia.
  unfold sum_range, mean, kept_range, RECIPROCAL.
  assert (Hlen : length (firstn (Z.to_nat (hi - lo + 1)) (skipn (Z.to_nat lo) ps))
                 = Z.to_nat (hi - lo + 1)).
  { rewrite firstn_length_le; [reflexivity|]. rewrite length_skipn. lia. }
  rewrite Hlen, Z2Nat.id by lia.
  pose proof (sum_items_kept ps (Z.to_nat (hi - lo + 1)) (Z.to_nat lo) 0) as Hsum.
  rewrite Z2Nat.id in Hsum by lia. rewrite Hsum by lia.
  replace (hi - lo + 1)%Z with (MULTIPLE_PROBING cfg) by lia.
  assert (Hnz : ~ inject_Z (MULTIPLE_PROBING cfg) == 0).
  { intros H. apply (Qlt_irrefl 0). rewrite <- H at 2.
    rewrite Zlt_Qlt in kept_samples. exact kept_samples. }
  field. exact Hnz.
Qed.

End Trimming.

(** ** Median trimming in run_z_probe *)

(** Discharge the leading premises of [H] that are among the hypotheses. *)
Ltac use_facts H :=
  cbv zeta in H;
  repeat match type of H with
         | ?A -> _ =>
             let fact := fresh in
             assert (fact : A) by assumption; specialize (H fact); clear fact
         end.

Lemma before_slow_probes_multi (cfg : Config) (world : World) (low : Q) (sc : bool)
    (m : Machine) :
  (2 < TOTAL_PROBING cfg)%Z ->
  fst (before_slow_probes cfg world low sc m) = inr 0.
Proof.
  intros H. unfold before_slow_probes.
  destruct (Z.eqb_spec (TOTAL_PROBING cfg) 2); [lia|].
  destruct (negb _); [rewrite bind_run|]; reflexivity.
Qed.

(** C1, as amended.  With more than two samples of which some are extra (and
    as many as the 8-bit counters hold), when every slow probe succeeds:
    the array is sorted; the median is its centre element for an odd count
    and the mean of the two centre elements for an even count; each of the
    EXTRA_PROBING rounds drops one endpoint of the kept range, the upper one
    when it is strictly farther from that median and otherwise (also on a
    tie) the lower one, and no kept sample is farther from the median than
    the one dropped; the result is the mean of the kept range. *)
Theorem median_trimming (cfg : Config) (world : World) (sc : bool) (m : Machine) :
  (2 < TOTAL_PROBING cfg)%Z ->
  (0 < EXTRA_PROBING cfg)%Z ->
  (0 < MULTIPLE_PROBING cfg)%Z ->
  TOTAL_PROBING cfg = (MULTIPLE_PROBING cfg + EXTRA_PROBING cfg)%Z ->
  (TOTAL_PROBING cfg <= 128)%Z ->
  let low := z_probe_low_point cfg m in
  let m1 := snd (before_slow_probes cfg world low sc m) in
  forall s : Samples,
    fst (sample_loop cfg world low sc (loop_counter cfg) (no_samples cfg) m1) = inr s ->
    let n := TOTAL_PROBING cfg in
    let ps := probes s in
    let median := median_of cfg ps in
    let far := distance ps median in
    let range (k : nat) := trim_loop ps median k (0%Z, (n - 1)%Z) in
    sorted_array ps
    /\ Z.of_nat (length ps) = n
    /\ (Z.odd n = true -> median = aget ps ((n - 1) / 2))
    /\ (Z.even n = true -> median == (aget ps (n / 2 - 1) + aget ps (n / 2)) / 2)
    /\ (forall k : nat,
          (Z.of_nat k < EXTRA_PROBING cfg)%Z ->
          let lo := fst (range k) in
          let hi := snd (range k) in
          (0 <= lo)%Z /\ (lo < hi)%Z /\ (hi < n)%Z
          /\ (hi - lo + 1 = n - Z.of_nat k)%Z
          /\ (far lo < far hi ->
              range (S k) = (lo, (hi - 1)%Z)
              /\ forall j, (lo <= j <= hi)%Z -> far j <= far hi)
          /\ (far hi <= far lo ->
              range (S k) = ((lo + 1)%Z, hi)
              /\ forall j, (lo <= j <= hi)%Z -> far j <= far lo))
    /\ trim_range cfg ps = range (Z.to_nat (EXTRA_PROBING cfg))
    /\ (snd (trim_range cfg ps) - fst (trim_range cfg ps) + 1 = n - EXTRA_PROBING cfg)%Z
    /\ exists v,
         fst (run_z_probe cfg world sc m) = Some (FNum v)
         /\ v == mean (kept_range ps (fst (trim_range cfg ps)) (snd (trim_range cfg ps))).
Proof.
  intros Hthree Hextra Hkept Hsum Hfits low m1 s Hloop n ps median far range.
  pose proof (sample_loop_result cfg world low sc) as Hres. use_facts Hres.
  destruct (Hres s m1 Hloop) as (Hsorted & Hlen & Hzero). clear Hres.
  rewrite Z.max_r in Hlen by lia.
  split; [exact Hsorted|]. split; [exact Hlen|].
  pose proof (median_of_middle cfg ps) as Hmid. use_facts Hmid.
  destruct Hmid as [Hodd Heven].
  split; [exact Hodd|]. split; [exact Heven|].
  split.
  { intros k Hk lo hi.
    pose proof (trim_loop_range cfg ps) as Hr. use_facts Hr.
    destruct (Hr median k) as (H0 & Hn & Hsize); [lia|]. clear Hr.
    pose proof (trim_step_drops cfg ps) as Hd. use_facts Hd.
    specialize (Hd median).
    subst lo hi range far n. cbv beta.
    rewrite !(trim_loop_succ ps).
    destruct (trim_loop ps median k (0%Z, (TOTAL_PROBING cfg - 1)%Z)) as [lo hi].
    cbn [fst snd] in *.
    assert (Hlt : (lo < hi)%Z) by lia.
    repeat (split; [assumption|]).
    apply (Hd lo hi H0 Hlt Hn). }
  assert (Hrange : trim_range cfg ps = range (Z.to_nat (EXTRA_PROBING cfg))).
  { unfold trim_range, range. now rewrite !u8_small by lia. }
  split; [exact Hrange|].
  pose proof (measured_z_mean cfg ps) as Hm. use_facts Hm.
  destruct (Hm 0 (snd (sample_loop cfg world low sc (loop_counter cfg) (no_samples cfg) m1)))
    as (_ & _ & _ & Hsize & Hmean). clear Hm.
  split; [exact Hsize|].
  eexists. split; [|exact Hmean].
  unfold run_z_probe. rewrite bind_run. cbn [get fst snd]. fold low.
  rewrite bind_run, before_slow_probes_multi by exact Hthree.
  fold m1. rewrite endless_small by lia. unfold multi.
  destruct (Z.ltb_spec 2 (TOTAL_PROBING cfg)) as [_|]; [|lia].
  rewrite bind_run, Hloop, bind_run. cbn [get ret fst snd].
  destruct s as [ps0 sum0]. cbn [probes probes_z_sum] in *. subst sum0.
  reflexivity.
Qed.

(** C1, as the spec words it.  Samples 0, 1, 2 with one to drop: the median
    is 1, both endpoints are at distance 1, and the round drops index 0, the
    lower one; the result is the mean 3/2 of the samples at indices 1 and 2,
    not the mean 1/2 that dropping the higher index would leave. *)
Lemma tie_break_counterexample :
  let world := Scenario.world_of false 64 [0; 1; 2] in
  let r := run_z_probe Scenario.three_drop_one world true (Scenario.machine true true) in
  let ps := [0; 1; 2] in
  median_of Scenario.three_drop_one ps = 1
  /\ Qabs (aget ps 2 - 1) == Qabs (aget ps 0 - 1)
  /\ trim_range Scenario.three_drop_one ps = (1%Z, 2%Z)
  /\ fst r = Some (FNum (3 # 2))
  /\ ~ 3 # 2 == mean [0; 1].
Proof.
  cbv zeta. repeat split. intros H. vm_compute in H. discriminate.
Qed.


(** * The theorems at work on the scenarios *)

(** C10 on a probe 1.5 mm below the nozzle: a raise of 10 clears to 11.5. *)
Lemma do_z_raise_destination_witness :
  exists z_dest,
    do_z_raise 10 (Scenario.machine false true)
    = do_z_clearance z_dest (Scenario.machine false true)
    /\ log (snd (do_z_raise 10 (Scenario.machine false true))) = [EvZClearance z_dest]
    /\ z_dest = 10 - - (15 # 10).
Proof.
  destruct (do_z_raise_destination 10 (Scenario.machine false true))
    as (d & Hrun & Hlog & Hneg & _).
  exists d. split; [exact Hrun|]. split; [exact Hlog | apply Hneg; reflexivity].
Defined.

(** C6, scenario S4: the bed is missing and the Z axis trusted. *)
Lemma z_probe_low_point_value_witness :
  let r := run_z_probe Scenario.fixed_mount Scenario.no_bed true (Scenario.machine true true) in
  z_probe_low_point Scenario.fixed_mount (Scenario.machine true true) = - - (15 # 10) + - (2)
  /\ fst r = Some FNaN
  /\ z (current_position (snd r)) = - - (15 # 10) + - (2).
Proof.
  cbv zeta.
  destruct (z_probe_low_point_value Scenario.fixed_mount Scenario.no_bed true
              (Scenario.machine true true))
    as (Htrusted & _ & Hmiss).
  split; [apply Htrusted; reflexivity|].
  apply Hmiss; [repeat split | discriminate].
Defined.


(** C5, scenario S5: a trigger 0.5 mm above [-offset.z + clearance]. *)
Lemma try_to_probe_sanity_witness :
  fst (try_to_probe Scenario.fixed_mount (Scenario.world_of false 64 [4])
         (- (1 # 2)) 2 true 2 (Scenario.machine true true)) = true.
Proof.
  apply (proj1 (proj2 (try_to_probe_sanity Scenario.fixed_mount
                         (Scenario.world_of false 64 [4])
                         (- (1 # 2)) 2 2 (Scenario.machine true true))));
    [reflexivity | right; reflexivity].
Defined.

(** C8: deploying a deployed probe. *)
Lemma set_deployed_idempotent_witness :
  set_deployed Scenario.servo_tested (Scenario.world_of true 0 []) true
    (Scenario.machine true true)
  = (Some false, Scenario.machine true true).
Proof.
  apply (proj1 (set_deployed_idempotent Scenario.servo_tested
                  (Scenario.world_of true 0 []) true (Scenario.machine true true))).
  reflexivity.
Defined.

(** C4: deploying a stowed fix-mounted probe starts with the raise. *)
Lemma set_deployed_z_raise_witness :
  exists rest,
    Forall not_clearance rest
    /\ log (snd (set_deployed Scenario.fixed_mount (Scenario.world_of false 0 []) true
                   (Scenario.machine false true)))
       = EvZClearance (10 - - (15 # 10)) :: rest.
Proof.
  destruct (set_deployed_z_raise Scenario.fixed_mount (Scenario.world_of false 0 [])
              true (Scenario.machine false true) eq_refl)
    as (_ & _ & rest & Hrest & Hlog).
  exists rest. split; [exact Hrest | exact Hlog].
Defined.

(** C7: a probe put on by hand.  The pin reads triggered when the call
    starts and once more while the firmware waits; the third read finds the
    probe attached, the wait ends, and the fourth read, the check, differs
    from the request: the deploy succeeds. *)
Lemma set_deployed_recheck_witness :
  let world := Rig.pin_reading [true; true; false; false] in
  let r := set_deployed Rig.manual_probe world true (Scenario.machine false true) in
  fst r = Some false
  /\ pin_reads (snd r) = 4%nat
  /\ log (snd r) =
     [EvZClearance (10 - - (15 # 10)); EvUserPause true; EvIdle; EvUserConfirm true;
      EvActuate Servo true; EvMoveXY 100 100; EvEnableZProbe true].
Proof.
  cbv zeta.
  destruct (set_deployed_recheck Rig.manual_probe
              (Rig.pin_reading [true; true; false; false])
              true (Scenario.machine false true) eq_refl (fun _ => eq_refl))
    as [Htested _].
  destruct (Htested eq_refl) as [_ Hreturned].
  destruct (Hreturned eq_refl) as (Hreads & _ & Hok).
  split; [exact (Hok eq_refl)|]. split; [exact Hreads | reflexivity].
Defined.

(** C2, scenario S2: fast sample 0.30, slow sample 0.10, result 0.18. *)
Lemma double_probe_weighting_witness :
  exists v,
    fst (run_z_probe Scenario.double_probe
           (Scenario.world_of false 64 [30 # 100; 10 # 100]) true
           (Scenario.machine true true)) = Some (FNum v)
    /\ v == 18 # 100.
Proof.
  destruct (double_probe_weighting Scenario.double_probe
              (Scenario.world_of false 64 [30 # 100; 10 # 100]) true
              (Scenario.machine true true) eq_refl eq_refl eq_refl eq_refl eq_refl)
    as (v & Hv & Hq).
  exists v. split; [exact Hv|].
  apply (Qeq_trans _ _ _ Hq). reflexivity.
Defined.

(** C1, scenario S3: samples 0.05, 0.09, 0.10, 0.11, 0.40 taken in another
    order, one dropped: the result is 0.0875. *)
Lemma median_trimming_witness :
  exists v,
    fst (run_z_probe Scenario.five_drop_one
           (Scenario.world_of false 64 [10 # 100; 40 # 100; 5 # 100; 11 # 100; 9 # 100])
           true (Scenario.machine true true)) = Some (FNum v)
    /\ v == 875 # 10000.
Proof.
  assert (Hfits : (TOTAL_PROBING Scenario.five_drop_one <= 128)%Z) by (cbn; lia).
  destruct (median_trimming Scenario.five_drop_one
              (Scenario.world_of false 64 [10 # 100; 40 # 100; 5 # 100; 11 # 100; 9 # 100])
              true (Scenario.machine true true)
              eq_refl eq_refl eq_refl eq_refl Hfits
              (mkSamples [5 # 100; 9 # 100; 10 # 100; 11 # 100; 40 # 100] 0) eq_refl)
    as (_ & _ & _ & _ & _ & _ & _ & v & Hv & Hmean).
  exists v. split; [exact Hv|].
  apply (Qeq_trans _ _ _ Hmean). reflexivity.
Defined.




(** * More properties of probe.cpp *)

(** ** set_deployed: what a call leaves behind *)

Lemma probe_error_stop_run (cfg : Config) (m : Machine) :
  exists evs,
    probe_error_stop cfg m
    = (tt, set_running false (set_log (log m ++ evs ++ [EvStop]) m))
    /\ Forall (fun e => exists msg, e = EvSerial msg) evs.
Proof.
  unfold probe_error_stop, stop. run_cmd.
  destruct (Z_PROBE_SLED cfg || Z_PROBE_ALLEN_KEY cfg); [|destruct (BLTOUCH cfg)];
    cbn; unfold set_running, set_log; cbn; rewrite <- ?app_assoc; cbn;
    [ exists [EvSerial "STR_STOP_PRE"; EvSerial "STR_STOP_UNHOMED"; EvSerial "STR_STOP_POST"]
    | exists [EvSerial "STR_STOP_PRE"; EvSerial "STR_STOP_BLTOUCH"; EvSerial "STR_STOP_POST"]
    | exists [EvSerial "STR_STOP_PRE"; EvSerial "STR_STOP_POST"] ];
    (split; [reflexivity|]); repeat constructor; eexists; reflexivity.
Qed.


Lemma z_raise_frame (t : bool) (r : Q) :
  preserves (keeps (fun m => x (current_position m))) (when t (do_z_raise r))
  /\ preserves (keeps (fun m => y (current_position m))) (when t (do_z_raise r))
  /\ preserves (keeps z_probe_enabled) (when t (do_z_raise r))
  /\ preserves (keeps bltouch_cmds) (when t (do_z_raise r)).
Proof.
  unfold do_z_raise, do_z_clearance, get, emit.
  repeat split; preserve_steps; keeps_leaf.
Qed.

Lemma set_deployed_finish_log (cfg : Config) (deploy : bool) (old_xy : xyz_pos_t)
    (m : Machine) :
  exists before,
    log (snd (set_deployed_finish cfg deploy old_xy m))
    = log m ++ before ++ [EvMoveXY (x old_xy) (y old_xy); EvEnableZProbe deploy]
    /\ running (snd (set_deployed_finish cfg deploy old_xy m)) = running m.
Proof.
  unfold set_deployed_finish, do_blocking_move_to_xy, enable_z_probe. run_cmd.
  destruct (PREHEAT_BEFORE_PROBING cfg && deploy); cbn.
  - exists [EvPreheat]. now rewrite <- !app_assoc.
  - exists []. now rewrite <- !app_assoc.
Qed.

Lemma probe_specific_action_frame (cfg : Config) (world : World) (deploy : bool) :
  preserves (keeps running) (probe_specific_action cfg world deploy)
  /\ preserves (keeps z_probe_enabled) (probe_specific_action cfg world deploy)
  /\ preserves (log_grows (fun _ => True)) (probe_specific_action cfg world deploy).
Proof.
  destruct (probe_specific_action_steady cfg world deploy) as (Hr & He & Hl).
  split; [exact Hr|]. split; [exact He|].
  intros m. destruct (Hl m) as (evs & Hevs & E). exists evs.
  split; [|exact E]. eapply Forall_impl; [|exact Hevs]. now intros e _.
Qed.

(** Where a successful call ends: the tail of the function ran at the
    machine [m1] that [set_deployed_actuate] started from. *)
Lemma set_deployed_actuate_success (cfg : Config) (world : World) (deploy : bool)
    (m : Machine) :
  fst (set_deployed_actuate cfg world deploy m) = Some false ->
  z_probe_enabled (snd (set_deployed_actuate cfg world deploy m)) = deploy
  /\ running (snd (set_deployed_actuate cfg world deploy m)) = running m
  /\ exists before,
       log (snd (set_deployed_actuate cfg world deploy m))
       = log m ++ before
         ++ [EvMoveXY (x (current_position m)) (y (current_position m));
             EvEnableZProbe deploy].
Proof.
  intros Hok. split; [now apply set_deployed_actuate_done|]. revert Hok.
  unfold set_deployed_actuate. rewrite bind_run. cbn [get fst snd].
  destruct (PROBE_TRIGGERED_WHEN_STOWED_TEST cfg).
  - rewrite bind_run, and_then_run.
    set (t1 := fst (read_PROBE_TRIGGERED world m)).
    set (m2 := snd (read_PROBE_TRIGGERED world m)).
    destruct (deploy_if_needed_steady cfg world deploy t1) as (Br & Bl).
    specialize (Br m2). specialize (Bl m2). unfold keeps in Br.
    destruct (fst (deploy_if_needed cfg world deploy t1 m2)); [|discriminate].
    set (m3 := snd (deploy_if_needed cfg world deploy t1 m2)) in *.
    rewrite bind_run.
    set (m4 := snd (read_PROBE_TRIGGERED world m3)).
    match goal with |- context [if ?t then _ else _] => destruct t end;
      rewrite returns_run.
    + rewrite deploy_failed_run. discriminate.
    + intros _. cbn [fst snd].
      destruct (set_deployed_finish_log cfg deploy (current_position m) m4)
        as (before & Hlog & Hrun).
      split; [rewrite Hrun; exact Br|].
      destruct Bl as (evs & _ & E).
      exists (evs ++ before). rewrite Hlog. subst m4. cbn [read_PROBE_TRIGGERED snd].
      cbn. rewrite E. subst m2. cbn. now rewrite <- !app_assoc.
  - rewrite and_then_run.
    destruct (probe_specific_action_frame cfg world deploy) as (Pr & _ & Pl).
    specialize (Pr m). specialize (Pl m). unfold keeps in Pr.
    destruct (fst (probe_specific_action cfg world deploy m)); [|discriminate].
    set (m2 := snd (probe_specific_action cfg world deploy m)) in *.
    rewrite returns_run. intros _. cbn [fst snd].
    destruct (set_deployed_finish_log cfg deploy (current_position m) m2)
      as (before & Hlog & Hrun).
    split; [rewrite Hrun; exact Pr|].
    destruct Pl as (evs & _ & E).
    exists (evs ++ before). rewrite Hlog, E. now rewrite <- !app_assoc.
Qed.

(** X1.  A [set_deployed] that does something and succeeds ends by moving
    back to the XY position it started from and then switching the Z-probe
    endstop to the request; it leaves [z_probe_enabled] equal to the request
    and does not stop the machine. *)
Theorem set_deployed_success (cfg : Config) (world : World) (deploy : bool)
    (m : Machine) :
  z_probe_enabled m = negb deploy ->
  fst (set_deployed cfg world deploy m) = Some false ->
  let m' := snd (set_deployed cfg world deploy m) in
  z_probe_enabled m' = deploy
  /\ running m' = running m
  /\ exists before,
       log m' = log m ++ before
                ++ [EvMoveXY (x (current_position m)) (y (current_position m));
                    EvEnableZProbe deploy].
Proof.
  intros Hreq. unfold set_deployed. rewrite bind_run. cbn [get fst snd].
  rewrite Hreq, eqb_negb1, bind_run.
  set (raise := when _ _).
  destruct (z_raise_steady (z_raise_wanted cfg deploy)
              (_MAX (Z_CLEARANCE_BETWEEN_PROBES cfg) (Z_CLEARANCE_DEPLOY_PROBE cfg)))
    as (_ & Kr & _ & Kl).
  destruct (z_raise_frame (z_raise_wanted cfg deploy)
              (_MAX (Z_CLEARANCE_BETWEEN_PROBES cfg) (Z_CLEARANCE_DEPLOY_PROBE cfg)))
    as (Kx & Ky & _ & _).
  fold raise in Kr, Kl, Kx, Ky.
  specialize (Kr m). specialize (Kl m). specialize (Kx m). specialize (Ky m).
  unfold keeps in Kr, Kx, Ky.
  set (m1 := snd (raise m)) in *.
  unfold set_deployed_homed.
  assert (Hact : fst (set_deployed_actuate cfg world deploy m1) = Some false ->
                 let m' := snd (set_deployed_actuate cfg world deploy m1) in
                 z_probe_enabled m' = deploy /\ running m' = running m
                 /\ exists before,
                      log m' = log m ++ before
                               ++ [EvMoveXY (x (current_position m)) (y (current_position m));
                                   EvEnableZProbe deploy]).
  { intros Hok. destruct (set_deployed_actuate_success cfg world deploy m1 Hok)
      as (He & Hr & before & Hlog).
    cbv zeta. split; [exact He|]. split; [congruence|].
    destruct Kl as (evs & _ & E). exists (evs ++ before).
    rewrite Hlog, E, Kx, Ky. now rewrite <- !app_assoc. }
  destruct (Z_PROBE_SLED cfg || Z_PROBE_ALLEN_KEY cfg); [|exact Hact].
  rewrite bind_run.
  match goal with |- context [if ?t then _ else _] => destruct t end.
  - rewrite bind_run. discriminate.
  - exact Hact.
Qed.

Lemma set_deployed_noop (cfg : Config) (world : World) (deploy : bool) (m : Machine) :
  z_probe_enabled m = deploy -> set_deployed cfg world deploy m = (Some false, m).
Proof.
  intros H. unfold set_deployed. rewrite bind_run. cbn [get fst snd].
  now rewrite H, eqb_reflx.
Qed.


Lemma deploy_if_needed_enabled (cfg : Config) (world : World) (deploy t1 : bool)
    (m : Machine) :
  z_probe_enabled (snd (deploy_if_needed cfg world deploy t1 m))
  = if Bool.eqb t1 deploy && negb deploy then false else z_probe_enabled m.
Proof.
  destruct (probe_specific_action_frame cfg world deploy) as (_ & Pe & _).
  unfold deploy_if_needed, when.
  destruct (Bool.eqb t1 deploy); [|reflexivity].
  rewrite bind_run. rewrite (Pe _).
  destruct deploy; reflexivity.
Qed.

Lemma set_deployed_fails (cfg : Config) (world : World) (deploy : bool)
    (m : Machine) :
  fst (set_deployed cfg world deploy m) = Some true ->
  let m' := snd (set_deployed cfg world deploy m) in
  running m' = false
  /\ (exists before, log m' = log m ++ before ++ [EvStop])
  /\ z_probe_enabled m' = (if deploy then false else negb (switched_off_early cfg world m)).
Proof.
  unfold set_deployed. rewrite bind_run. cbn [get fst snd].
  destruct (Bool.eqb (z_probe_enabled m) deploy) eqn:Hreq; [discriminate|].
  apply eqb_false_iff in Hreq.
  assert (He : z_probe_enabled m = negb deploy)
    by (destruct (z_probe_enabled m) eqn:E, deploy; cbn; congruence).
  clear Hreq. rewrite bind_run.
  set (raise := when _ _).
  destruct (z_raise_steady (z_raise_wanted cfg deploy)
              (_MAX (Z_CLEARANCE_BETWEEN_PROBES cfg) (Z_CLEARANCE_DEPLOY_PROBE cfg)))
    as (Kp & Kr & Kh & Kl).
  destruct (z_raise_frame (z_raise_wanted cfg deploy)
              (_MAX (Z_CLEARANCE_BETWEEN_PROBES cfg) (Z_CLEARANCE_DEPLOY_PROBE cfg)))
    as (_ & _ & Ke & _).
  fold raise in Kp, Kr, Kh, Kl, Ke.
  specialize (Kp m). specialize (Kr m). specialize (Kh m). specialize (Kl m).
  specialize (Ke m). unfold keeps in Kp, Kr, Kh, Ke.
  set (m1 := snd (raise m)) in *.
  destruct Kl as (e1 & _ & E1).
  unfold switched_off_early.
  (* the homing test *)
  assert (Hact : fst (set_deployed_actuate cfg world deploy m1) = Some true ->
                 let m' := snd (set_deployed_actuate cfg world deploy m1) in
                 running m' = false
                 /\ (exists before, log m' = log m ++ before ++ [EvStop])
                 /\ z_probe_enabled m'
                    = (if deploy then false
                       else negb (PROBE_TRIGGERED_WHEN_STOWED_TEST cfg
                                  && negb (PROBE_TRIGGERED world (pin_reads m))))).
  { unfold set_deployed_actuate. rewrite bind_run. cbn [get fst snd].
    destruct (PROBE_TRIGGERED_WHEN_STOWED_TEST cfg) eqn:Htest.
    - rewrite bind_run, and_then_run.
      assert (Ht1 : fst (read_PROBE_TRIGGERED world m1)
                    = PROBE_TRIGGERED world (pin_reads m))
        by (cbn; now rewrite Kp).
      rewrite Ht1.
      set (t1 := PROBE_TRIGGERED world (pin_reads m)).
      set (m2 := snd (read_PROBE_TRIGGERED world m1)).
      destruct (deploy_if_needed_steady cfg world deploy t1) as (Br & Bl).
      specialize (Br m2). specialize (Bl m2). unfold keeps in Br.
      pose proof (deploy_if_needed_enabled cfg world deploy t1 m2) as Be.
      destruct (fst (deploy_if_needed cfg world deploy t1 m2)); [|discriminate].
      set (m3 := snd (deploy_if_needed cfg world deploy t1 m2)) in *.
      rewrite bind_run.
      match goal with |- context [if ?t then _ else _] => destruct t end;
        rewrite returns_run.
      + rewrite deploy_failed_run. cbn. intros _.
        split; [reflexivity|]. split.
        * destruct Bl as (e2 & _ & E2).
          exists (e1 ++ e2
                  ++ (if running m3
                      then [EvSerial "Z-Probe failed"; EvLcdAlert "Err: ZPROBE"]
                      else [])).
          rewrite E2. subst m2. cbn [read_PROBE_TRIGGERED snd set_counters log].
          rewrite E1. now rewrite <- !app_assoc.
        * rewrite Be. subst m2. cbn [read_PROBE_TRIGGERED snd set_counters z_probe_enabled].
          rewrite Ke, He.
          destruct t1, deploy; reflexivity.
      + intros H. pose proof (set_deployed_finish_run cfg deploy (current_position m1)
                                (snd (read_PROBE_TRIGGERED world m3))) as [Hf _].
        cbn [fst] in H. congruence.
    - rewrite and_then_run.
      destruct (fst (probe_specific_action cfg world deploy m1)); [|discriminate].
      rewrite returns_run. intros H.
      pose proof (set_deployed_finish_run cfg deploy (current_position m1)
                    (snd (probe_specific_action cfg world deploy m1))) as [Hf _].
      cbn [fst] in H. congruence. }
  unfold set_deployed_homed.
  destruct (Z_PROBE_SLED cfg || Z_PROBE_ALLEN_KEY cfg).
  - rewrite bind_run. cbn [homing_needed_error fst snd]. rewrite Kh.
    destruct (needs_homing m).
    + rewrite bind_run. intros _.
      destruct (probe_error_stop_run cfg m1) as (evs & Hrun & _).
      rewrite Hrun. cbn.
      split; [reflexivity|]. split.
      * exists (e1 ++ evs). rewrite E1. now rewrite <- !app_assoc.
      * rewrite Ke, He, andb_false_r. now destruct deploy.
    + cbn [andb negb]. rewrite andb_true_r. exact Hact.
  - cbn [andb negb]. rewrite andb_true_r. exact Hact.
Qed.

(** X2.  A [set_deployed] that fails has stopped the machine, [stop()]
    being the last thing it did.  A failed deploy leaves [z_probe_enabled]
    off; a failed stow leaves it on, except when the endstop was switched
    off before the actuation. *)
Theorem set_deployed_failure (cfg : Config) (world : World) (deploy : bool)
    (m : Machine) :
  fst (set_deployed cfg world deploy m) = Some true ->
  let m' := snd (set_deployed cfg world deploy m) in
  running m' = false
  /\ (exists before, log m' = log m ++ before ++ [EvStop])
  /\ z_probe_enabled m' = (if deploy then false else negb (switched_off_early cfg world m)).
Proof. apply set_deployed_fails. Qed.

(** X3.  When such an early switch-off is followed by a failed stow, the
    next stow request finds [z_probe_enabled] already off: it returns
    success at once and does nothing. *)
Theorem stow_after_failed_stow (cfg : Config) (world : World) (m : Machine) :
  fst (stow cfg world m) = Some true ->
  switched_off_early cfg world m = true ->
  stow cfg world (snd (stow cfg world m)) = (Some false, snd (stow cfg world m)).
Proof.
  unfold stow. intros Hfail Hearly. apply set_deployed_noop.
  destruct (set_deployed_fails cfg world false m Hfail) as (_ & _ & He).
  rewrite He, Hearly. reflexivity.
Qed.


(** X4.  A sled or Allen-key probe that needs homing is never actuated: the
    call raises Z (when a raise is wanted), reports, stops and fails; no pin
    is read, no BLTouch command sent, and [z_probe_enabled] and the logical
    X and Y stay as they were. *)
Theorem set_deployed_unhomed (cfg : Config) (world : World) (deploy : bool)
    (m : Machine) :
  z_probe_enabled m = negb deploy ->
  Z_PROBE_SLED cfg || Z_PROBE_ALLEN_KEY cfg = true ->
  needs_homing m = true ->
  let r := set_deployed cfg world deploy m in
  let z_dest :=
    z_raise_dest (z (offset m))
      (_MAX (Z_CLEARANCE_BETWEEN_PROBES cfg) (Z_CLEARANCE_DEPLOY_PROBE cfg)) in
  let raise := if z_raise_wanted cfg deploy then [EvZClearance z_dest] else [] in
  let raised :=
    if z_raise_wanted cfg deploy
    then set_current_z (NOLESS (z (current_position m)) z_dest) m
    else m in
  fst r = Some true
  /\ snd r = set_running false
               (set_log (log m ++ raise
                         ++ [EvSerial "STR_STOP_PRE"; EvSerial "STR_STOP_UNHOMED";
                             EvSerial "STR_STOP_POST"; EvStop]) raised)
  /\ pin_reads (snd r) = pin_reads m
  /\ bltouch_cmds (snd r) = bltouch_cmds m
  /\ z_probe_enabled (snd r) = z_probe_enabled m
  /\ x (current_position (snd r)) = x (current_position m)
  /\ y (current_position (snd r)) = y (current_position m).
Proof.
  intros Hreq Hkind Hhome. cbv zeta.
  assert (Hstop : forall m1,
             probe_error_stop cfg m1
             = (tt, set_running false
                      (set_log (log m1 ++ [EvSerial "STR_STOP_PRE"; EvSerial "STR_STOP_UNHOMED";
                                           EvSerial "STR_STOP_POST"; EvStop]) m1))).
  { intros m1. unfold probe_error_stop, stop. rewrite Hkind. run_cmd.
    unfold set_running, set_log. cbn. now rewrite <- !app_assoc. }
  unfold set_deployed. rewrite bind_run. cbn [get fst snd].
  rewrite Hreq, eqb_negb1, bind_run.
  unfold set_deployed_homed. rewrite Hkind, bind_run.
  set (height := _MAX _ _).
  set (z_dest := z_raise_dest (z (offset m)) height).
  assert (Hraise : snd (when (z_raise_wanted cfg deploy) (do_z_raise height) m)
                   = set_log (log m ++ (if z_raise_wanted cfg deploy
                                        then [EvZClearance z_dest] else []))
                       (if z_raise_wanted cfg deploy
                        then set_current_z (NOLESS (z (current_position m)) z_dest) m
                        else m)).
  { destruct (z_raise_wanted cfg deploy); cbn.
    - reflexivity.
    - rewrite app_nil_r. now destruct m. }
  rewrite Hraise. cbn [homing_needed_error fst snd].
  assert (Hneeds : needs_homing
                     (set_log (log m ++ (if z_raise_wanted cfg deploy
                                         then [EvZClearance z_dest] else []))
                        (if z_raise_wanted cfg deploy
                         then set_current_z (NOLESS (z (current_position m)) z_dest) m
                         else m)) = true).
  { destruct (z_raise_wanted cfg deploy); exact Hhome. }
  rewrite Hneeds, bind_run, Hstop. cbn [fst snd ret].
  split; [reflexivity|]. split.
  - destruct (z_raise_wanted cfg deploy);
      unfold set_running, set_log, set_current_z; cbn; now rewrite <- !app_assoc.
  - destruct (z_raise_wanted cfg deploy); repeat split; exact Hreq.
Qed.

(** ** probe_down_to_z: every way out *)

Lemma heater_events_quiet (cfg : Config) (m : Machine) :
  Forall (fun e => is_mode e = false /\ forall zv f, e <> EvMoveZ zv f)
    (heater_events cfg m).
Proof.
  unfold heater_events.
  repeat match goal with
         | |- context [if ?t then _ else _] => destruct t
         end;
    cbn [app]; repeat constructor; discriminate.
Qed.

Lemma probe_down_restores (cfg : Config) (world : World) (z_to fr : Q)
    (m : Machine) :
  let m' := snd (probe_down cfg world z_to fr m) in
  (exists before,
     log m' = log m ++ before
     /\ Forall (fun e => is_mode e = false /\ forall zv f, e <> EvMoveZ zv f) before)
  \/ (exists before after,
        log m' = log m ++ before ++ modes_on cfg ++ [EvMoveZ z_to fr]
                 ++ modes_off cfg ++ after
        /\ Forall (fun e => is_mode e = false) (before ++ after)).
Proof.
  cbv zeta. unfold modes_on, modes_off, probe_down. run_cmd.
  destruct (BLTOUCH cfg && negb (bltouch_high_speed_mode m)); cbn.
  - destruct (bltouch_fails world (bltouch_cmds m)); cbn.
    + left. exists [EvActuate BLTouchPin true].
      split; [reflexivity|]. repeat constructor. discriminate.
    + right. exists [EvActuate BLTouchPin true].
      destruct (SENSORLESS_PROBING cfg), (HAS_QUIET_PROBING cfg); cbn;
        destruct (HAS_DELTA_SENSORLESS_PROBING cfg
                  && probe_triggered_of cfg (descent world (descents m) z_to)); cbn;
        destruct (BLTOUCH cfg && probe_triggered_of cfg (descent world (descents m) z_to)
                  && negb (bltouch_high_speed_mode m)); cbn;
        try destruct (bltouch_fails world (S (bltouch_cmds m))); cbn;
        rewrite <- ?app_assoc; cbn;
        first [ exists [EvActuate BLTouchPin false]; split; [reflexivity|]; now repeat constructor
              | exists [EvActuate BLTouchPin false; EvHitOnPurpose; EvSyncPlan];
                split; [reflexivity|]; now repeat constructor
              | exists [EvHitOnPurpose; EvSyncPlan];
                split; [reflexivity|]; now repeat constructor ].
  - right. exists [].
    destruct (SENSORLESS_PROBING cfg), (HAS_QUIET_PROBING cfg); cbn;
      destruct (HAS_DELTA_SENSORLESS_PROBING cfg
                && probe_triggered_of cfg (descent world (descents m) z_to)); cbn;
      destruct (BLTOUCH cfg && probe_triggered_of cfg (descent world (descents m) z_to)
                && negb (bltouch_high_speed_mode m)); cbn;
      try destruct (bltouch_fails world (bltouch_cmds m)); cbn;
      rewrite <- ?app_assoc; cbn;
      first [ exists [EvActuate BLTouchPin false]; split; [reflexivity|]; now repeat constructor
            | exists [EvActuate BLTouchPin false; EvHitOnPurpose; EvSyncPlan];
              split; [reflexivity|]; now repeat constructor
            | exists [EvHitOnPurpose; EvSyncPlan];
              split; [reflexivity|]; now repeat constructor ].
Qed.

(** X5.  Whatever way [probe_down_to_z] returns, quiet probing and the
    sensorless setup are off again: either it made no move and switched
    nothing, or it switched them on just before the one move down and off
    just after it. *)
Theorem probe_down_to_z_restores (cfg : Config) (world : World) (z_to fr : Q)
    (m : Machine) :
  let m' := snd (probe_down_to_z cfg world z_to fr m) in
  (exists before,
     log m' = log m ++ before
     /\ Forall (fun e => is_mode e = false /\ forall zv f, e <> EvMoveZ zv f) before)
  \/ (exists before after,
        log m' = log m ++ before ++ modes_on cfg ++ [EvMoveZ z_to fr]
                 ++ modes_off cfg ++ after
        /\ Forall (fun e => is_mode e = false) (before ++ after)).
Proof.
  cbv zeta. rewrite probe_down_to_z_run.
  pose proof (heater_events_quiet cfg m) as Hq.
  destruct (probe_down_restores cfg world z_to fr
              (set_log (log m ++ heater_events cfg m) m))
    as [(before & Hlog & Hb) | (before & after & Hlog & Hb)].
  - left. exists (heater_events cfg m ++ before).
    split; [rewrite Hlog; cbn [set_log log]; now rewrite <- app_assoc|].
    apply Forall_app. split; assumption.
  - right. exists (heater_events cfg m ++ before), after.
    split; [rewrite Hlog; cbn [set_log log]; now rewrite <- !app_assoc|].
    rewrite <- app_assoc. apply Forall_app. split; [|exact Hb].
    eapply Forall_impl; [|exact Hq]. now intros e [H _].
Qed.

(** X6.  [largest_sensorless_adj] is written only by a move that triggered,
    in a delta-sensorless build: a move that did not trigger, or did not
    take place, reports failure and leaves it as it was. *)
Theorem probe_down_to_z_no_trigger (cfg : Config) (world : World) (z_to fr : Q)
    (m : Machine) :
  HAS_DELTA_SENSORLESS_PROBING cfg = false
  \/ probe_triggered_of cfg (descent world (descents m) z_to) = false ->
  largest_sensorless_adj (snd (probe_down_to_z cfg world z_to fr m))
  = largest_sensorless_adj m
  /\ (probe_triggered_of cfg (descent world (descents m) z_to) = false ->
      fst (probe_down_to_z cfg world z_to fr m) = true).
Proof.
  intros Hnot.
  assert (Hwhen : HAS_DELTA_SENSORLESS_PROBING cfg
                  && probe_triggered_of cfg (descent world (descents m) z_to) = false).
  { destruct Hnot as [-> | ->]; [reflexivity | apply andb_false_r]. }
  rewrite probe_down_to_z_run.
  change (descents m) with (descents (set_log (log m ++ heater_events cfg m) m)) in *.
  change (largest_sensorless_adj m)
    with (largest_sensorless_adj (set_log (log m ++ heater_events cfg m) m)).
  generalize dependent (set_log (log m ++ heater_events cfg m) m). clear m.
  intros m Hnot Hwhen.
  unfold probe_down. run_cmd.
  destruct (BLTOUCH cfg && negb (bltouch_high_speed_mode m)); cbn;
    try destruct (bltouch_fails world (bltouch_cmds m)); cbn;
    try (split; reflexivity);
    destruct (SENSORLESS_PROBING cfg), (HAS_QUIET_PROBING cfg); cbn;
    rewrite Hwhen; cbn;
    destruct (probe_triggered_of cfg (descent world (descents m) z_to)); cbn;
    rewrite ?andb_false_r; cbn;
    split_ifs; cbn; split; try reflexivity; discriminate.
Qed.

(** X7.  A BLTouch in low-speed mode that fails to deploy stops the probing
    move before it starts: after the waits for the heaters, failure is
    reported, nothing moves, no answer of the world is used up and the
    logical position stays. *)
Theorem probe_down_to_z_bltouch_stuck (cfg : Config) (world : World) (z_to fr : Q)
    (m : Machine) :
  BLTOUCH cfg = true ->
  bltouch_high_speed_mode m = false ->
  bltouch_fails world (bltouch_cmds m) = true ->
  probe_down_to_z cfg world z_to fr m
  = (true,
     set_counters (pin_reads m) (switch_reads m) (S (bltouch_cmds m)) (descents m)
       (set_log (log m ++ heater_events cfg m ++ [EvActuate BLTouchPin true]) m)).
Proof.
  intros Hbl Hhs Hfail. rewrite probe_down_to_z_run.
  unfold probe_down. rewrite bind_run. cbn [get fst snd set_log bltouch_high_speed_mode].
  rewrite Hbl, Hhs. cbn [negb andb]. rewrite bind_run.
  cbn [bltouch_cmd fst snd set_log bltouch_cmds]. rewrite Hfail.
  unfold ret, set_counters, set_log. cbn. now rewrite <- app_assoc.
Qed.

(** X8.  A tare refused because the probe is active keeps [try_to_probe]
    from probing: it reports failure after the one message, without pulsing
    the tare pin and without any move. *)
Theorem try_to_probe_tare_refused (cfg : Config) (world : World)
    (low fr : Q) (sc : bool) (clearance : Q) (m : Machine) :
  PROBE_TARE cfg = true ->
  PROBE_ACTIVATION_SWITCH cfg && PROBE_TARE_ONLY_WHILE_INACTIVE cfg = true ->
  probe_switch_activated world (switch_reads m) = true ->
  try_to_probe cfg world low fr sc clearance m
  = (true,
     set_counters (pin_reads m) (S (switch_reads m)) (bltouch_cmds m) (descents m)
       (set_log (log m ++ [EvSerial "Cannot tare an active probe"]) m)).
Proof.
  intros Htare Hswitch Hactive.
  unfold try_to_probe, TERN0_PROBE_TARE_tare, tare, read_probe_switch_activated.
  run_cmd. rewrite Htare, Hswitch. cbn. rewrite Hactive. reflexivity.
Qed.


(** ** Probes that hit the bed *)

Section Hits.

Variable cfg : Config.
Variable world : World.
Variable low : Q.
Variable sc : bool.
Variable oz : Q.

(** The activation switch is inactive, the BLTouch obeys, every descent to
    [low] triggers, and no lower than the sanity check allows. *)
Hypothesis switch_inactive : forall n, probe_switch_activated world n = false.
Hypothesis bltouch_obeys : forall n, bltouch_fails world n = false.
Hypothesis hits : forall n, probe_triggered_of cfg (descent world n low) = true.
Hypothesis sane :
  sc = true ->
  forall n, stepper_z (descent world n low) <= - oz + Z_CLEARANCE_MULTI_PROBE cfg
            /\ stepper_z (descent world n low) <= - oz + Z_CLEARANCE_BETWEEN_PROBES cfg.

(** The tare passes; it uses up switch reads and writes the log. *)
Lemma tare_calm (m : Machine) :
  exists reads evs,
    TERN0_PROBE_TARE_tare cfg world m
    = (false, set_counters (pin_reads m) reads (bltouch_cmds m) (descents m)
                (set_log (log m ++ evs) m)).
Proof.
  unfold TERN0_PROBE_TARE_tare, tare, read_probe_switch_activated. run_cmd.
  destruct (PROBE_TARE cfg); cbn.
  - destruct (PROBE_ACTIVATION_SWITCH cfg && PROBE_TARE_ONLY_WHILE_INACTIVE cfg); cbn;
      rewrite ?switch_inactive; cbn; unfold set_counters, set_log; cbn;
      rewrite <- ?app_assoc; eexists; eexists; reflexivity.
  - exists (switch_reads m), []. rewrite app_nil_r. now destruct m.
Qed.

Lemma probe_down_to_z_hits (fr : Q) (m : Machine) :
  fst (probe_down_to_z cfg world low fr m) = false
  /\ offset_sensorless_adj (snd (probe_down_to_z cfg world low fr m))
     = offset_sensorless_adj m.
Proof.
  rewrite probe_down_to_z_run.
  change (offset_sensorless_adj m)
    with (offset_sensorless_adj (set_log (log m ++ heater_events cfg m) m)).
  generalize (set_log (log m ++ heater_events cfg m) m). clear m. intros m.
  unfold probe_down. run_cmd.
  destruct (BLTOUCH cfg && negb (bltouch_high_speed_mode m)); cbn;
    rewrite ?bltouch_obeys; cbn;
    destruct (SENSORLESS_PROBING cfg), (HAS_QUIET_PROBING cfg); cbn;
    rewrite hits; cbn;
    destruct (HAS_DELTA_SENSORLESS_PROBING cfg); cbn;
    destruct (BLTOUCH cfg && negb (bltouch_high_speed_mode m)); cbn;
    rewrite ?andb_true_r; cbn;
    try (destruct (BLTOUCH cfg && negb (bltouch_high_speed_mode m)); cbn);
    rewrite ?bltouch_obeys; cbn; split; reflexivity.
Qed.

(** A probe that hits: what [try_to_probe] returns and leaves. *)
Lemma try_to_probe_hits (fr clearance : Q) (m : Machine) :
  z (offset m) = oz ->
  clearance = Z_CLEARANCE_MULTI_PROBE cfg \/ clearance = Z_CLEARANCE_BETWEEN_PROBES cfg ->
  let r := try_to_probe cfg world low fr sc clearance m in
  let d := descent world (descents m) low in
  fst r = false
  /\ z (current_position (snd r)) = stepper_z d
  /\ offset (snd r) = offset m
  /\ offset_sensorless_adj (snd r) = offset_sensorless_adj m
  /\ descents (snd r) = S (descents m)
  /\ sampled_z cfg (snd r) = sample_of cfg world low (offset_sensorless_adj m) (descents m).
Proof.
  intros Hoz Hclear. cbv zeta.
  destruct (tare_calm m) as (reads & evs & Htare).
  unfold try_to_probe. rewrite bind_run, Htare. cbn [fst snd].
  set (m1 := set_counters _ _ _ _ _).
  rewrite !bind_run. cbn [get ret fst snd].
  destruct (probe_down_to_z_hits fr m1) as [Hhit Hadj].
  pose proof (probe_down_to_z_triggered cfg world low fr m1 Hhit)
    as (_ & Hz & Hoff & Hdesc & Hlargest).
  cbv zeta in Hz, Hoff, Hdesc, Hlargest.
  set (m2 := snd (probe_down_to_z cfg world low fr m1)) in *.
  change (descents m1) with (descents m) in *.
  change (offset m1) with (offset m) in *.
  change (offset_sensorless_adj m1) with (offset_sensorless_adj m) in *.
  rewrite Hhit. cbn [orb].
  assert (Hearly : sc && Qgtb (z (current_position m2)) (- z (offset m2) + clearance) = false).
  { destruct sc; [|reflexivity]. cbn [andb]. apply Qgtb_false_iff.
    rewrite Hz, Hoff, Hoz.
    destruct (sane eq_refl (descents m)) as [Hm Hb].
    destruct Hclear as [-> | ->]; assumption. }
  rewrite Hearly.
  repeat (split; [assumption || reflexivity|]).
  unfold sampled_z, sample_of. rewrite Hz, Hlargest.
  now destruct (HAS_DELTA_SENSORLESS_PROBING cfg).
Qed.

(** One slow probe that hits. *)
Lemma slow_probe_hits (p : Z) (s : Samples) (m : Machine) :
  z (offset m) = oz ->
  let d := descent world (descents m) low in
  let zv := sample_of cfg world low (offset_sensorless_adj m) (descents m) in
  let raised :=
    multi cfg && (if extra cfg then (p <? TOTAL_PROBING cfg - 1)%Z else negb (p =? 0)%Z) in
  let s' :=
    if extra cfg then mkSamples (insert_probe (probes s) zv p) (probes_z_sum s)
    else if multi cfg then mkSamples (probes s) (probes_z_sum s + zv)
    else s in
  exists m',
    slow_probe cfg world low sc p s m = (inr s', m')
    /\ z (offset m') = oz
    /\ offset_sensorless_adj m' = offset_sensorless_adj m
    /\ descents m' = S (descents m)
    /\ z (current_position m') = (if raised then zv + Z_CLEARANCE_MULTI_PROBE cfg
                                  else stepper_z d)
    /\ (raised = false -> sampled_z cfg m' = zv).
Proof.
  intros Hoz. cbv zeta.
  destruct (tare_calm m) as (reads & evs & Htare).
  unfold slow_probe. rewrite bind_run, Htare. cbn [fst snd].
  set (m1 := set_counters _ _ _ _ _).
  rewrite bind_run.
  destruct (try_to_probe_hits (MMM_TO_MMS (Z_PROBE_FEEDRATE_SLOW cfg))
              (Z_CLEARANCE_MULTI_PROBE cfg) m1 Hoz (or_introl eq_refl))
    as (Hok & Hz & Hoff & Hadj & Hdesc & Hsample).
  set (m2 := snd (try_to_probe cfg world low (MMM_TO_MMS (Z_PROBE_FEEDRATE_SLOW cfg)) sc
                    (Z_CLEARANCE_MULTI_PROBE cfg) m1)) in *.
  change (descents m1) with (descents m) in *.
  change (offset m1) with (offset m) in *.
  change (offset_sensorless_adj m1) with (offset_sensorless_adj m) in *.
  rewrite Hok, !bind_run. cbn [get fst snd].
  set (m3 := snd (when (MEASURE_BACKLASH_WHEN_PROBING cfg) (emit EvBacklash) m2)).
  assert (H3 : current_position m3 = current_position m2
               /\ offset m3 = offset m2
               /\ offset_sensorless_adj m3 = offset_sensorless_adj m2
               /\ descents m3 = descents m2
               /\ sampled_z cfg m3 = sampled_z cfg m2).
  { subst m3. destruct (MEASURE_BACKLASH_WHEN_PROBING cfg); cbn; repeat split. }
  destruct H3 as (H3c & H3o & H3a & H3d & H3s).
  rewrite H3s, Hsample.
  eexists. split; [reflexivity|].
  match goal with
  | |- context [when ?t _ _] => destruct t
  end; cbn [when do_blocking_move_to_z bind emit ret fst snd];
    cbn [set_current_z set_log offset offset_sensorless_adj descents current_position z];
    rewrite ?H3c, ?H3o, ?H3a, ?H3d, ?Hz, ?Hoff, ?Hadj, ?Hdesc, ?Hoz;
    repeat (split; [reflexivity|]); try (intros; congruence); try discriminate.
Qed.

(** A probing move, whatever its outcome, leaves the probe offsets alone. *)
Lemma probe_down_to_z_keeps (z_to fr : Q) :
  preserves (keeps offset) (probe_down_to_z cfg world z_to fr)
  /\ preserves (keeps offset_sensorless_adj) (probe_down_to_z cfg world z_to fr).
Proof.
  unfold probe_down_to_z, wait_for_heaters, probe_down, bltouch_cmd, probing_move,
    do_blocking_move_to_z, refresh_largest_sensorless_adj,
    set_current_from_steppers_for_axis_Z, get.
  split; preserve_steps; keeps_leaf.
Qed.

Lemma fast_approach_keeps :
  preserves (keeps offset) (fast_approach cfg world)
  /\ preserves (keeps offset_sensorless_adj) (fast_approach cfg world).
Proof.
  unfold fast_approach, do_blocking_move_to_z, get.
  split; preserve_steps;
    try apply (proj1 (probe_down_to_z_keeps _ _));
    try apply (proj2 (probe_down_to_z_keeps _ _));
    keeps_leaf.
Qed.

(** With TOTAL_PROBING != 2 the steps before the slow probes cannot fail. *)
Lemma before_slow_probes_frame (m : Machine) :
  TOTAL_PROBING cfg <> 2%Z ->
  fst (before_slow_probes cfg world low sc m) = inr 0
  /\ offset (snd (before_slow_probes cfg world low sc m)) = offset m
  /\ offset_sensorless_adj (snd (before_slow_probes cfg world low sc m))
     = offset_sensorless_adj m.
Proof.
  intros H. unfold before_slow_probes.
  destruct (Z.eqb_spec (TOTAL_PROBING cfg) 2); [contradiction|].
  destruct (negb _); [rewrite bind_run; cbn [ret fst snd] | cbn; repeat split].
  destruct fast_approach_keeps as [Ho Ha].
  split; [reflexivity|]. split; [apply Ho | apply Ha].
Qed.

(** The loop without EXTRA_PROBING adds up the samples of its descents and
    ends at the height of the last trigger. *)
Lemma sample_loop_sums (n : nat) :
  extra cfg = false -> multi cfg = true ->
  forall (s : Samples) (m : Machine),
    z (offset m) = oz ->
    exists s' m',
      sample_loop cfg world low sc (rev (map Z.of_nat (seq 0 n))) s m = (inr s', m')
      /\ probes_z_sum s' ==
           probes_z_sum s
           + Qsum (samples_from cfg world low (offset_sensorless_adj m) (descents m) n)
      /\ descents m' = (descents m + n)%nat
      /\ (0 < n ->
          z (current_position m')
          = stepper_z (descent world (descents m + n - 1) low))%nat.
Proof.
  intros He Hm. induction n as [|n IH]; intros s m Hoz.
  - exists s, m. cbn. split; [reflexivity|]. split; [ring|]. split; [lia | lia].
  - rewrite seq_S, map_app, rev_app_distr. cbn [map rev app Nat.add sample_loop].
    rewrite bind_run.
    destruct (slow_probe_hits (Z.of_nat n) s m Hoz)
      as (m1 & Hrun & Hoz1 & Hadj1 & Hdesc1 & Hpos & _).
    rewrite Hrun. cbn [fst snd]. rewrite He, Hm in *. cbn [andb] in Hpos.
    set (zv := sample_of cfg world low (offset_sensorless_adj m) (descents m)) in *.
    destruct (IH (mkSamples (probes s) (probes_z_sum s + zv)) m1 Hoz1)
      as (s' & m' & Hloop & Hsum & Hdesc & Hlast).
    exists s', m'. split; [exact Hloop|].
    rewrite Hadj1, Hdesc1 in *. cbn [probes_z_sum] in Hsum.
    split; [|split].
    + rewrite Hsum. unfold samples_from, Qsum. cbn [seq map fold_right]. fold zv. ring.
    + lia.
    + intros _. destruct n as [|n].
      * cbn in Hloop. injection Hloop as <- <-.
        cbn [Z.of_nat Z.eqb negb] in Hpos. rewrite Hpos. f_equal. f_equal. lia.
      * rewrite Hlast by lia. f_equal. f_equal. lia.
Qed.

(** The loop with EXTRA_PROBING files the samples of its descents in
    ascending order and ends at the height of the last trigger. *)
Lemma sample_loop_fills (k : nat) :
  extra cfg = true -> multi cfg = true -> (TOTAL_PROBING cfg <= 128)%Z ->
  forall (p : nat) (s : Samples) (m : Machine) (filled rest : list Q),
    z (offset m) = oz ->
    (p + k)%nat = Z.to_nat (TOTAL_PROBING cfg) ->
    probes s = filled ++ rest -> length filled = p -> length rest = k ->
    StronglySorted Qle filled ->
    exists s' m',
      sample_loop cfg world low sc (map Z.of_nat (seq p k)) s m = (inr s', m')
      /\ StronglySorted Qle (probes s')
      /\ Permutation (probes s')
           (filled ++ samples_from cfg world low (offset_sensorless_adj m) (descents m) k)
      /\ probes_z_sum s' = probes_z_sum s
      /\ descents m' = (descents m + k)%nat
      /\ (0 < k ->
          z (current_position m')
          = stepper_z (descent world (descents m + k - 1) low))%nat.
Proof.
  intros He Hm Hfits.
  induction k as [|k IH]; intros p s m filled rest Hoz Hpk Hs Hfilled Hrest Hsorted.
  - exists s, m. cbn [seq map sample_loop ret].
    apply length_zero_iff_nil in Hrest. subst rest.
    rewrite app_nil_r in Hs. rewrite Hs.
    split; [reflexivity|]. split; [exact Hsorted|].
    split; [unfold samples_from; cbn; now rewrite app_nil_r|].
    split; [reflexivity|]. split; lia.
  - destruct rest as [|old post]; [discriminate|].
    cbn [seq map sample_loop]. rewrite bind_run.
    destruct (slow_probe_hits (Z.of_nat p) s m Hoz)
      as (m1 & Hrun & Hoz1 & Hadj1 & Hdesc1 & Hpos & _).
    rewrite Hrun. cbn [fst snd]. rewrite He, Hm in *. cbn [andb] in Hpos.
    rewrite Hs, <- Hfilled, insert_probe_at in * by lia.
    set (zv := sample_of cfg world low (offset_sensorless_adj m) (descents m)) in *.
    destruct (IH (S (length filled)) (mkSamples (ins zv filled ++ post) (probes_z_sum s))
                m1 (ins zv filled) post Hoz1)
      as (s' & m' & Hloop & Hsorted' & Hperm & Hsum & Hdesc & Hlast);
      [lia | reflexivity | apply ins_length | now injection Hrest
      | now apply ins_sorted |].
    exists s', m'. split; [exact Hloop|].
    rewrite Hadj1, Hdesc1 in *.
    split; [exact Hsorted'|]. split; [|split; [exact Hsum|split]].
    + eapply Permutation_trans; [exact Hperm|].
      unfold samples_from. cbn [seq map]. fold zv.
      eapply Permutation_trans;
        [apply Permutation_app_tail, ins_perm|].
      cbn [app]. apply Permutation_middle.
    + lia.
    + intros _. destruct k as [|k].
      * cbn in Hloop. injection Hloop as <- <-.
        destruct (Z.ltb_spec (Z.of_nat (length filled)) (TOTAL_PROBING cfg - 1)); [lia|].
        rewrite Hpos. f_equal. f_equal. lia.
      * rewrite Hlast by lia. f_equal. f_equal. lia.
Qed.

(** X9.  Three or more probes, as many as the [uint8_t] loop counter holds
    (at most 255), without EXTRA_PROBING, on a bed that every descent hits:
    [run_z_probe] returns the mean of the Z sampled at each of its
    TOTAL_PROBING slow descents, uses exactly that many descents after the
    fast approach, and leaves the nozzle at the height of the last
    trigger. *)
Theorem run_z_probe_mean (m : Machine) :
  low = z_probe_low_point cfg m ->
  z (offset m) = oz ->
  (2 < TOTAL_PROBING cfg)%Z ->
  (TOTAL_PROBING cfg <= 255)%Z ->
  (EXTRA_PROBING cfg <= 0)%Z ->
  MULTIPLE_PROBING cfg = TOTAL_PROBING cfg ->
  let m1 := snd (before_slow_probes cfg world low sc m) in
  let n := Z.to_nat (TOTAL_PROBING cfg) in
  let r := run_z_probe cfg world sc m in
  exists v,
    fst r = Some (FNum v)
    /\ v == mean (samples_from cfg world low (offset_sensorless_adj m) (descents m1) n)
    /\ descents (snd r) = (descents m1 + n)%nat
    /\ z (current_position (snd r))
       = stepper_z (descent world (descents m1 + n - 1) low).
Proof.
  intros Hlow Hoz Hthree Hfits Hextra Hmult. cbv zeta.
  assert (He : extra cfg = false).
  { unfold extra. destruct (Z.ltb_spec 0 (EXTRA_PROBING cfg)); [lia | reflexivity]. }
  assert (Hm : multi cfg = true).
  { unfold multi. destruct (Z.ltb_spec 2 (TOTAL_PROBING cfg)); [reflexivity | lia]. }
  destruct (before_slow_probes_frame m) as (Hpre & Hoff & Hadj); [lia|].
  unfold run_z_probe. rewrite bind_run. cbn [get fst snd]. rewrite <- Hlow.
  rewrite bind_run, Hpre, endless_small, Hm, bind_run by exact Hfits.
  set (m1 := snd (before_slow_probes cfg world low sc m)) in *.
  rewrite loop_counter_small, He by lia.
  destruct (sample_loop_sums (Z.to_nat (TOTAL_PROBING cfg)) He Hm (no_samples cfg) m1)
    as (s' & m' & Hloop & Hsum & Hdesc & Hlast);
    [now rewrite Hoff|].
  rewrite Hloop. cbn [fst snd]. rewrite bind_run. cbn [get ret fst snd].
  eexists. split; [reflexivity|].
  split; [|split; [exact Hdesc | apply Hlast; lia]].
  unfold measured_z. rewrite Hm, He, Hsum, Hadj, Hmult.
  unfold mean, samples_from, RECIPROCAL. rewrite length_map, length_seq, Z2Nat.id by lia.
  cbn [no_samples probes_z_sum].
  assert (Hnz : ~ inject_Z (TOTAL_PROBING cfg) == 0).
  { intros H. apply (Qlt_irrefl 0). rewrite <- H at 2.
    change 0 with (inject_Z 0). rewrite <- Zlt_Qlt. lia. }
  field. exact Hnz.
Qed.

(** X10.  Three or more probes with EXTRA_PROBING, on a bed that every
    descent hits: [run_z_probe] returns a number; the array it aggregates is
    the Z sampled at its TOTAL_PROBING slow descents put in ascending order,
    and the result is the mean of the range kept by the trimming.  The
    nozzle is left at the height of the last trigger. *)
Theorem run_z_probe_sorts_samples (m : Machine) :
  low = z_probe_low_point cfg m ->
  z (offset m) = oz ->
  (2 < TOTAL_PROBING cfg)%Z ->
  (0 < EXTRA_PROBING cfg)%Z ->
  (0 < MULTIPLE_PROBING cfg)%Z ->
  TOTAL_PROBING cfg = (MULTIPLE_PROBING cfg + EXTRA_PROBING cfg)%Z ->
  (TOTAL_PROBING cfg <= 128)%Z ->
  let m1 := snd (before_slow_probes cfg world low sc m) in
  let n := Z.to_nat (TOTAL_PROBING cfg) in
  let r := run_z_probe cfg world sc m in
  exists ps v,
    fst r = Some (FNum v)
    /\ StronglySorted Qle ps
    /\ Permutation ps
         (samples_from cfg world low (offset_sensorless_adj m) (descents m1) n)
    /\ v == mean (kept_range ps (fst (trim_range cfg ps)) (snd (trim_range cfg ps)))
    /\ descents (snd r) = (descents m1 + n)%nat
    /\ z (current_position (snd r))
       = stepper_z (descent world (descents m1 + n - 1) low).
Proof.
  intros Hlow Hoz Hthree Hextra Hkept Htotal Hfits. cbv zeta.
  assert (He : extra cfg = true).
  { unfold extra. destruct (Z.ltb_spec 0 (EXTRA_PROBING cfg)); [reflexivity | lia]. }
  assert (Hm : multi cfg = true).
  { unfold multi. destruct (Z.ltb_spec 2 (TOTAL_PROBING cfg)); [reflexivity | lia]. }
  destruct (before_slow_probes_frame m) as (Hpre & Hoff & Hadj); [lia|].
  unfold run_z_probe. rewrite bind_run. cbn [get fst snd]. rewrite <- Hlow.
  rewrite bind_run, Hpre, endless_small, Hm, bind_run by lia.
  set (m1 := snd (before_slow_probes cfg world low sc m)) in *.
  rewrite loop_counter_small, He by lia.
  destruct (sample_loop_fills (Z.to_nat (TOTAL_PROBING cfg)) He Hm Hfits 0
              (no_samples cfg) m1 [] (repeat 0 (Z.to_nat (TOTAL_PROBING cfg))))
    as (s' & m' & Hloop & Hsorted & Hperm & Hsum & Hdesc & Hlast);
    [ now rewrite Hoff | reflexivity | reflexivity | reflexivity
    | apply repeat_length | constructor |].
  rewrite Hloop. cbn [fst snd]. rewrite bind_run. cbn [get ret fst snd].
  cbn [app] in Hperm. rewrite Hadj in Hperm.
  destruct s' as [ps sum]. cbn [probes probes_z_sum no_samples] in *. subst sum.
  assert (Hlen : Z.of_nat (length ps) = TOTAL_PROBING cfg).
  { rewrite (Permutation_length Hperm). unfold samples_from.
    rewrite length_map, length_seq. lia. }
  pose proof (sorted_array_of ps Hsorted) as Harray.
  pose proof (measured_z_mean cfg ps) as Hmean. use_facts Hmean.
  destruct (Hmean 0 m') as (_ & _ & _ & _ & Hv).
  exists ps. eexists. split; [reflexivity|].
  split; [exact Hsorted|]. split; [exact Hperm|]. split; [exact Hv|].
  split; [exact Hdesc | apply Hlast; lia].
Qed.

(** X11.  A build with a single probe (TOTAL_PROBING below 2), on a bed that
    the descent hits: [run_z_probe] returns the stepper height of the
    trigger as it is, also with HAS_DELTA_SENSORLESS_PROBING, where the
    samples of two or more probes have [largest_sensorless_adj] taken off;
    one descent is used and the nozzle stays at the trigger height. *)
Theorem run_z_probe_single (m : Machine) :
  low = z_probe_low_point cfg m ->
  z (offset m) = oz ->
  (TOTAL_PROBING cfg < 2)%Z ->
  let m1 := snd (before_slow_probes cfg world low sc m) in
  let d := descent world (descents m1) low in
  let r := run_z_probe cfg world sc m in
  fst r = Some (FNum (stepper_z d))
  /\ z (current_position (snd r)) = stepper_z d
  /\ descents (snd r) = S (descents m1)
  /\ (HAS_DELTA_SENSORLESS_PROBING cfg = true ->
      sampled_z cfg (snd r)
      = stepper_z d - refresh_adj cfg (offset_sensorless_adj m) (live_state d)).
Proof.
  intros Hlow Hoz Hone. cbv zeta.
  assert (Hm : multi cfg = false).
  { unfold multi. destruct (Z.ltb_spec 2 (TOTAL_PROBING cfg)); [lia | reflexivity]. }
  destruct (before_slow_probes_frame m) as (Hpre & Hoff & Hadj); [lia|].
  unfold run_z_probe. rewrite bind_run. cbn [get fst snd]. rewrite <- Hlow.
  rewrite bind_run, Hpre, endless_small, Hm, bind_run by lia.
  set (m1 := snd (before_slow_probes cfg world low sc m)) in *.
  destruct (slow_probe_hits 0 (no_samples cfg) m1)
    as (m' & Hrun & _ & _ & Hdesc & Hpos & Hsample);
    [now rewrite Hoff|].
  rewrite Hm in Hpos, Hsample. cbn [andb] in Hpos, Hsample.
  rewrite Hrun. cbn [fst snd]. rewrite bind_run. cbn [get ret fst snd].
  unfold measured_z. rewrite Hm.
  destruct (Z.eqb_spec (TOTAL_PROBING cfg) 2); [lia|].
  rewrite Hpos. repeat split; [exact Hdesc|].
  intros Hdelta. rewrite Hsample by reflexivity.
  unfold sample_of. now rewrite Hdelta, Hadj.
Qed.

End Hits.


(** ** The fast approach *)

(** X12.  The fast approach before the slow probes (TOTAL_PROBING other than
    2, FAST and SLOW feedrates differing) does nothing when the nozzle is at
    or below [Z_CLEARANCE_DEPLOY_PROBE + 5 + (offset.z < 0 ? -offset.z : 0)].
    Above it, one descent to that height is made at the fast feedrate; when
    that descent reports a trigger the nozzle is raised to the trigger
    height plus Z_CLEARANCE_BETWEEN_PROBES, and when it reports a failure
    nothing more is done. *)
Theorem fast_approach_outcome (cfg : Config) (world : World) (m : Machine) :
  let zt := Z_CLEARANCE_DEPLOY_PROBE cfg + 5
            + (if Qltb (z (offset m)) 0 then - z (offset m) else 0) in
  let down := probe_down_to_z cfg world zt (z_probe_fast_mm_s cfg) m in
  let m' := snd (fast_approach cfg world m) in
  (z (current_position m) <= zt -> m' = m)
  /\ (zt < z (current_position m) -> fst down = true -> m' = snd down)
  /\ (zt < z (current_position m) -> fst down = false ->
      let top := stepper_z (descent world (descents m) zt)
                 + Z_CLEARANCE_BETWEEN_PROBES cfg in
      probe_triggered_of cfg (descent world (descents m) zt) = true
      /\ m' = set_current_z top
                (set_log (log (snd down) ++ [EvMoveZ top (z_probe_fast_mm_s cfg)])
                   (snd down))).
Proof.
  cbv zeta. unfold fast_approach. rewrite bind_run. cbn [get fst snd].
  set (zt := Z_CLEARANCE_DEPLOY_PROBE cfg + 5
             + (if Qltb (z (offset m)) 0 then - z (offset m) else 0)).
  split; [|split].
  - intros H. apply Qgtb_false_iff in H. now rewrite H.
  - intros H Hdown. apply Qgtb_true_iff in H. rewrite H. cbn [when].
    rewrite bind_run, Hdown. reflexivity.
  - intros H Hdown. apply Qgtb_true_iff in H. rewrite H. cbn [when].
    rewrite bind_run, Hdown. cbn [negb when]. rewrite bind_run. cbn [get fst snd].
    destruct (probe_down_to_z_triggered cfg world zt (z_probe_fast_mm_s cfg) m Hdown)
      as (Htrig & Hz & _).
    cbv zeta in Hz. split; [exact Htrig|].
    unfold do_blocking_move_to_z, bind, emit. cbn [fst snd]. rewrite Hz.
    now destruct (snd (probe_down_to_z cfg world zt (z_probe_fast_mm_s cfg) m)).
Qed.

(** ** The sensorless adjustment *)

(** X13.  After [set_offset_sensorless_adj(sz)] with all three towers
    sensed, a refresh of [largest_sensorless_adj] gives the larger of -3 and
    [sz] when an endstop bit of some tower is set, and -3 when none is. *)
Theorem set_offset_sensorless_adj_refresh
    (cfg : Config) (sense : sense_bool_t) (sz : Q) (adj : abc_float_t) (state : Z) :
  sense_x sense = true -> sense_y sense = true -> sense_z sense = true ->
  refresh_adj cfg (set_offset_sensorless_adj sense sz adj) state
  == (if TEST state (X_MAX cfg) || TEST state (Y_MAX cfg) || TEST state (Z_MAX cfg)
      then Qmax (- (3)) sz else - (3)).
Proof.
  intros Hx Hy Hz.
  eapply Qeq_trans; [apply refresh_adj_max|].
  unfold set_offset_sensorless_adj. rewrite Hx, Hy, Hz. cbn [a b c].
  destruct (TEST state (X_MAX cfg)), (TEST state (Y_MAX cfg)), (TEST state (Z_MAX cfg));
    cbn [orb];
    repeat first
      [ rewrite Q.max_id
      | rewrite (Q.max_assoc (- (3)) sz sz)
      | rewrite <- Q.max_assoc ];
    try reflexivity;
    try (rewrite (Q.max_comm sz (- (3))));
    try (rewrite Q.max_assoc, Q.max_id); try reflexivity.
Qed.

(** ** Quiet probing *)

Lemma Z_MAX_of_max (p q : Z) : Z_MAX_of p q = Z.max p q.
Proof. unfold Z_MAX_of. destruct (Z.ltb_spec q p); lia. Qed.

Section QuietSteppers.

Variable opt : Options.
Variable st : Steppers.

Hypothesis steppers_off : PROBING_STEPPERS_OFF opt = true.
Hypothesis not_delta : DELTA opt = false.

Lemma set_probing_paused_pause (q : Quiet) :
  let heaters := PROBING_HEATERS_OFF opt
                 && (if HAS_PROBE_SETTINGS opt then turn_heaters_off (quiet_settings q) else true) in
  set_probing_paused opt st true q
  = mkQuiet
      (after_disable_axis st (Y_AXIS opt)
         (after_disable_axis st (X_AXIS opt) (axes_trusted q)))
      (u8 (axes_trusted q)) (quiet_settings q)
      (calls q
       ++ ((if heaters then [PauseHeaters true] else [])
           ++ (if PROBING_FANS_OFF opt then [PauseFans true] else [])
           ++ (if PROBING_ESTEPPERS_OFF opt then [DisableESteppers] else []))
       ++ [DisableAxis (X_AXIS opt); DisableAxis (Y_AXIS opt);
           SafeDelay (Z.max (DELAY_BEFORE_PROBING opt) 25)]).
Proof.
  cbv zeta. unfold set_probing_paused, quiet_call, disable_axis.
  rewrite steppers_off, not_delta, Z_MAX_of_max. cbn [andb negb].
  destruct q as [trusted old heaters made]. cbn [quiet_settings].
  destruct (PROBING_HEATERS_OFF opt && (if HAS_PROBE_SETTINGS opt then turn_heaters_off heaters else true)),
    (PROBING_FANS_OFF opt), (PROBING_ESTEPPERS_OFF opt);
    cbn -[u8 Z.max]; rewrite <- ?app_assoc; cbn -[u8 Z.max]; rewrite ?app_nil_r;
    reflexivity.
Qed.

Lemma set_probing_paused_resume (q : Quiet) :
  let heaters := PROBING_HEATERS_OFF opt
                 && (if HAS_PROBE_SETTINGS opt then turn_heaters_off (quiet_settings q) else true) in
  set_probing_paused opt st false q
  = mkQuiet (old_trusted q) (old_trusted q) (quiet_settings q)
      (calls q
       ++ ((if heaters then [PauseHeaters false] else [])
           ++ (if PROBING_FANS_OFF opt then [PauseFans false] else []))
       ++ (if TEST (old_trusted q) (X_AXIS opt) then [EnableAxis (X_AXIS opt)] else [])
       ++ (if TEST (old_trusted q) (Y_AXIS opt) then [EnableAxis (Y_AXIS opt)] else [])).
Proof.
  cbv zeta. unfold set_probing_paused, quiet_call, enable_axis.
  rewrite steppers_off, not_delta. cbn [andb negb].
  destruct q as [trusted old heaters made]. cbn [quiet_settings].
  rewrite andb_false_r.
  destruct (PROBING_HEATERS_OFF opt && (if HAS_PROBE_SETTINGS opt then turn_heaters_off heaters else true)),
    (PROBING_FANS_OFF opt);
    cbn -[TEST]; destruct (TEST old (X_AXIS opt)); cbn -[TEST];
    destruct (TEST old (Y_AXIS opt)); cbn -[TEST];
    rewrite <- ?app_assoc; cbn -[TEST]; rewrite ?app_nil_r; reflexivity.
Qed.

(** X14.  PROBING_STEPPERS_OFF on a machine that is not a delta: a pause
    disables the X and the Y stepper and then waits
    [max(DELAY_BEFORE_PROBING, 25)] ms; the resume that follows enables
    again exactly those of X and Y that were trusted before the pause, and
    puts [axes_trusted] back to its value before the pause, whatever
    disabling and enabling the steppers did to it. *)
Theorem set_probing_paused_round_trip (q : Quiet) :
  (0 <= axes_trusted q < 256)%Z ->
  let q1 := set_probing_paused opt st true q in
  let q2 := set_probing_paused opt st false q1 in
  axes_trusted q2 = axes_trusted q
  /\ exists paused resumed,
       forallb is_thermal_or_e paused = true
       /\ forallb is_thermal_or_e resumed = true
       /\ calls q1 = calls q ++ paused
                     ++ [DisableAxis (X_AXIS opt); DisableAxis (Y_AXIS opt);
                         SafeDelay (Z.max (DELAY_BEFORE_PROBING opt) 25)]
       /\ calls q2 = calls q1 ++ resumed
                     ++ (if TEST (axes_trusted q) (X_AXIS opt)
                         then [EnableAxis (X_AXIS opt)] else [])
                     ++ (if TEST (axes_trusted q) (Y_AXIS opt)
                         then [EnableAxis (Y_AXIS opt)] else []).
Proof.
  intros Hfit. cbv zeta.
  rewrite set_probing_paused_resume, set_probing_paused_pause.
  cbn [axes_trusted old_trusted quiet_settings calls].
  rewrite u8_small by lia.
  split; [reflexivity|].
  eexists. eexists.
  split; [|split; [|split; reflexivity]].
  - now destruct (PROBING_HEATERS_OFF opt && _), (PROBING_FANS_OFF opt),
      (PROBING_ESTEPPERS_OFF opt).
  - now destruct (PROBING_HEATERS_OFF opt && _), (PROBING_FANS_OFF opt).
Qed.

End QuietSteppers.

(** ** Preheating *)

(** X15.  [preheat_for_probing] sets a heater target only to the
    temperature asked for and only when that is above the present target,
    so it never lowers one; it waits for a heater only when the temperature
    asked for is above the present temperature plus the window; and an
    early call neither waits nor writes to the LCD. *)
Theorem preheat_for_probing_calls
    (opt : Options) (th : Thermal) (hotend_temp bed_temp : Z) (early : bool) :
  let made := preheat_for_probing opt th hotend_temp bed_temp early in
  (forall t, In (SetTargetHotend t) made ->
             t = hotend_temp /\ (degTargetHotend th < t)%Z)
  /\ (forall t, In (SetTargetBed t) made ->
                t = bed_temp /\ (degTargetBed th < t)%Z)
  /\ (In WaitForHotend made ->
      early = false /\ (wholeDegHotend th + TEMP_WINDOW opt < hotend_temp)%Z)
  /\ (In WaitForBedHeating made ->
      early = false /\ (wholeDegBed th + TEMP_BED_WINDOW opt < bed_temp)%Z)
  /\ (In LcdPreheating made <-> early = false).
Proof.
  cbv zeta. unfold preheat_for_probing.
  destruct (WAIT_FOR_NOZZLE_HEAT opt), (WAIT_FOR_BED_HEAT opt), early;
    destruct (Z.ltb_spec (degTargetHotend th) hotend_temp);
    destruct (Z.ltb_spec (degTargetBed th) bed_temp);
    destruct (Z.ltb_spec (wholeDegHotend th + TEMP_WINDOW opt) hotend_temp);
    destruct (Z.ltb_spec (wholeDegBed th + TEMP_BED_WINDOW opt) bed_temp);
    destruct (Z.eqb_spec hotend_temp 0); destruct (Z.eqb_spec bed_temp 0);
    cbn [negb andb app In Z.eqb];
    repeat split; try tauto; try lia;
    intros; repeat match goal with
                   | H : _ \/ _ |- _ => destruct H
                   | H : False |- _ => destruct H
                   | H : _ = _ |- _ => first [discriminate H | injection H as <- | fail 1]
                   end; try tauto; try lia; auto.
Qed.


(** ** The probing cycle *)

Lemma op_bind_run {A B} (o : Op A) (k : A -> Op B) (c : Cycle) :
  op_bind o k c = k (fst (o c)) (snd (o c)).
Proof. unfold op_bind. now destruct (o c). Qed.

Lemma lift_run {A} (cmd : Cmd A) (c : Cycle) :
  lift cmd c = (fst (cmd (machine c)), mkCycle (snd (cmd (machine c))) (notes c)).
Proof. unfold lift. now destruct (cmd (machine c)). Qed.

Lemma op_and_then_run {A B} (o : Op (option A)) (k : A -> Op (option B)) (c : Cycle) :
  op_and_then o k c
  = match fst (o c) with
    | Some v => k v (snd (o c))
    | None => (None, snd (o c))
    end.
Proof. unfold op_and_then. rewrite op_bind_run. now destruct (fst (o c)). Qed.

#[export] Instance stays_stopped_preorder : PreOrder stays_stopped.
Proof.
  split; [intros m H; exact H|].
  intros m1 m2 m3 H1 H2 H. apply H2, H1, H.
Qed.

Ltac stopped_leaf := intros ? ?; cbn; first [assumption | reflexivity].

(** Deploying and stowing use no descent and never restart the machine. *)
Lemma set_deployed_steady (cfg : Config) (world : World) (deploy : bool) :
  preserves (keeps descents) (set_deployed cfg world deploy)
  /\ preserves stays_stopped (set_deployed cfg world deploy).
Proof.
  unfold set_deployed, do_z_raise, do_z_clearance, set_deployed_homed,
    homing_needed_error, probe_error_stop, stop,
    set_deployed_actuate, read_PROBE_TRIGGERED, deploy_if_needed, enable_z_probe,
    probe_specific_action, pause_before, actuate, bltouch_cmd, deploy_failed, IsRunning,
    set_deployed_finish, do_blocking_move_to_xy, get, emit.
  split; preserve_steps; cbv zeta; preserve_steps;
    try (apply wait_for_probe_preserves; preorder_goal; unfold emit);
    first [keeps_leaf | stopped_leaf].
Qed.

(** Step through the operations of a cycle. *)
Ltac run_op :=
  repeat (progress (rewrite ?op_and_then_run, ?op_bind_run, ?lift_run;
                    cbn [get fst snd machine notes op_ret op_when note isnan])).

Section CycleProperties.

Variable cfg : Config.
Variable bench : Bench.
Variable world : World.
Variables rx ry : Q.
Variable raise_after : ProbePtRaise.
Variable verbose_level : Z.
Variables probe_relative sanity_check : bool.

(** The cycle up to the reach test. *)
Lemma probe_at_point_unreached (c : Cycle) :
  can_reach bench (probe_start (options cfg) bench (machine c) rx ry) probe_relative = false ->
  probe_at_point cfg bench world rx ry raise_after verbose_level probe_relative
    sanity_check c
  = (Some FNaN,
     mkCycle (machine c)
       (notes c
        ++ (if BLTOUCH cfg
               && (bltouch_high_speed_mode (machine c) && bltouch_triggered bench)
            then [(length (log (machine c)), NoteBltouchReset)] else []))).
Proof.
  intros Hreach. destruct c as [m ns]. unfold probe_start in Hreach.
  cbn [machine notes] in *.
  unfold probe_at_point. rewrite op_bind_run, lift_run. cbn [get fst snd machine notes].
  rewrite op_bind_run.
  rewrite Hreach. cbn [negb op_ret].
  destruct (BLTOUCH cfg && _); cbn; [reflexivity | now rewrite app_nil_r].
Qed.

(** The cycle from the move on. *)
Lemma probe_at_point_reached (c : Cycle) :
  can_reach bench (probe_start (options cfg) bench (machine c) rx ry) probe_relative
  = true ->
  let c2 := at_start cfg bench rx ry probe_relative c in
  let npos := nozzle_start (options cfg) bench (machine c) rx ry probe_relative in
  probe_at_point cfg bench world rx ry raise_after verbose_level probe_relative
    sanity_check c
  = if BD_SENSOR (options cfg)
    then (Some (FNum (z npos - bdl_read bench)), c2)
    else
      let c3 := mkCycle (snd (deploy cfg world (machine c2))) (notes c2) in
      match fst (deploy cfg world (machine c2)) with
      | None => (None, c3)
      | Some failed =>
          after_deploy cfg bench world rx ry raise_after verbose_level sanity_check
            npos c3 failed
      end.
Proof.
  intros Hreach. cbv zeta. destruct c as [m ns]. unfold probe_start in Hreach.
  cbn [machine notes] in *.
  unfold probe_at_point. rewrite op_bind_run, lift_run. cbn [get fst snd machine notes].
  rewrite op_bind_run.
  rewrite Hreach. cbn [negb].
  rewrite op_bind_run.
  assert (Hmove :
    do_blocking_move_to (nozzle_start (options cfg) bench m rx ry probe_relative)
      (XY_PROBE_FEEDRATE_MM_S (options cfg))
      (snd (op_when (BLTOUCH cfg && (bltouch_high_speed_mode m && bltouch_triggered bench))
              (note NoteBltouchReset) (mkCycle m ns)))
    = (tt, at_start cfg bench rx ry probe_relative (mkCycle m ns))).
  { unfold at_start, do_blocking_move_to, note, op_when.
    rewrite op_bind_run, lift_run. cbn [machine notes fst snd].
    destruct (BLTOUCH cfg && _); cbn [op_ret fst snd machine notes];
      rewrite ?app_nil_r; reflexivity. }
  unfold nozzle_start, probe_start in *. cbn [z] in *.
  rewrite Hmove. cbn [fst snd].
  destruct (BD_SENSOR (options cfg)).
  - rewrite op_bind_run, lift_run. cbn [get fst snd op_ret machine].
    unfold at_start. cbn [machine]. unfold set_current_position. cbn [current_position].
    now destruct probe_relative.
  - rewrite op_and_then_run, lift_run. cbn [fst snd].
    destruct (fst (deploy cfg world _)) as [failed|]; [|reflexivity].
    unfold after_deploy. rewrite op_and_then_run.
    destruct failed; cbn [op_ret fst snd];
      repeat (try rewrite op_and_then_run;
              match goal with
              | |- match fst ?a with _ => _ end = _ => destruct (fst a)
              end);
      reflexivity.
Qed.

Lemma measure_notes (npos : xyz_pos_t) (c : Cycle) :
  notes (snd (measure cfg bench world npos sanity_check c)) = notes c.
Proof.
  unfold measure. rewrite op_and_then_run, lift_run. cbn [fst snd].
  destruct (fst (run_z_probe cfg world sanity_check (machine c))); [|reflexivity].
  rewrite op_bind_run, lift_run. reflexivity.
Qed.

Lemma after_measure_notes (measured : float) (c : Cycle) :
  exists report,
    notes (snd (after_measure cfg world rx ry raise_after verbose_level measured c))
    = notes c ++ report
    /\ filter is_lcd_message report = [].
Proof.
  unfold after_measure.
  destruct (isnan measured); [exists []; cbn; rewrite app_nil_r; auto|].
  rewrite op_and_then_run.
  destruct raise_after; cbn [op_ret fst snd];
    rewrite ?op_and_then_run, ?op_bind_run, ?lift_run; cbn [fst snd get machine notes];
    rewrite ?op_bind_run, ?lift_run; cbn [fst snd get machine notes op_ret];
    try match goal with
        | |- context [match fst (stow cfg world ?m) with _ => _ end] =>
            destruct (fst (stow cfg world m))
        end;
    cbn [op_ret fst snd notes machine];
    rewrite ?op_bind_run;
    destruct (2 <? verbose_level)%Z; cbn [op_when note op_ret fst snd notes machine];
    try (exists []; rewrite app_nil_r; auto; fail);
    (eexists; split; reflexivity).
Qed.

(** What [on_failure] does, by the value it is given. *)
Lemma on_failure_run (measured : float) (c : Cycle) :
  on_failure cfg world measured c
  = if isnan measured then
      let m := snd (stow cfg world (machine c)) in
      match fst (stow cfg world (machine c)) with
      | Some _ =>
          (Some tt,
           mkCycle
             (if G29_RETRY_AND_RECOVER (options cfg) then m
              else set_log (log m ++ [EvSerial "STR_ERR_PROBING_FAILED"]) m)
             (notes c ++ [(length (log m), NoteLcdMessage "MSG_LCD_PROBING_FAILED")]))
      | None => (None, mkCycle m (notes c))
      end
    else (Some tt, c).
Proof.
  unfold on_failure. destruct (isnan measured); cbn [op_when op_ret]; [|reflexivity].
  rewrite op_and_then_run, lift_run. cbn [fst snd].
  destruct (fst (stow cfg world (machine c))); [|reflexivity].
  rewrite op_bind_run. cbn [note fst snd machine notes]. rewrite op_bind_run.
  destruct (G29_RETRY_AND_RECOVER (options cfg)); cbn [negb op_when op_ret fst snd];
    [|rewrite lift_run].
  - now destruct (snd (stow cfg world (machine c))).
  - reflexivity.
Qed.

(** X16.  A cycle whose point cannot be reached returns NAN and leaves the
    machine as it was, with no failure message on the LCD.  With a BD
    sensor a cycle that can reach its point returns the Z of the start
    position less the sensor reading, and the machine has only moved there:
    the probe is neither deployed nor lowered. *)
Theorem probe_at_point_skips_probe (c : Cycle) :
  let m := machine c in
  let start := probe_start (options cfg) bench m rx ry in
  let r := probe_at_point cfg bench world rx ry raise_after verbose_level
             probe_relative sanity_check c in
  (can_reach bench start probe_relative = false ->
   fst r = Some FNaN
   /\ machine (snd r) = m
   /\ filter is_lcd_message (notes (snd r)) = filter is_lcd_message (notes c))
  /\ (can_reach bench start probe_relative = true -> BD_SENSOR (options cfg) = true ->
      fst r = Some (FNum (z start - bdl_read bench))
      /\ machine (snd r)
         = set_current_position
             (nozzle_start (options cfg) bench m rx ry probe_relative) m).
Proof.
  cbv zeta. split.
  - intros Hreach. rewrite probe_at_point_unreached by exact Hreach.
    cbn [fst snd machine notes]. repeat split.
    rewrite filter_app.
    destruct (BLTOUCH cfg && _); cbn; now rewrite app_nil_r.
  - intros Hreach Hbd. rewrite probe_at_point_reached by exact Hreach.
    rewrite Hbd. cbn [fst snd]. split; [|reflexivity].
    unfold nozzle_start. now destruct probe_relative.
Qed.

Lemma at_start_messages (c : Cycle) :
  filter is_lcd_message (notes (at_start cfg bench rx ry probe_relative c))
  = filter is_lcd_message (notes c).
Proof.
  unfold at_start. cbn [notes]. rewrite !filter_app.
  destruct (BLTOUCH cfg && _); cbn; now rewrite !app_nil_r.
Qed.

(** X17.  A cycle that reaches its point and uses the probe puts the
    failure message on the LCD exactly when it returns NAN, as the last
    thing but the serial error, which follows unless G29_RETRY_AND_RECOVER
    is on. *)
Theorem probe_at_point_announces (c : Cycle) :
  can_reach bench (probe_start (options cfg) bench (machine c) rx ry) probe_relative
  = true ->
  BD_SENSOR (options cfg) = false ->
  let r := probe_at_point cfg bench world rx ry raise_after verbose_level
             probe_relative sanity_check c in
  exists k,
    filter is_lcd_message (notes (snd r))
    = filter is_lcd_message (notes c)
      ++ (if returned_nan (fst r)
          then [(k, NoteLcdMessage "MSG_LCD_PROBING_FAILED")] else [])
    /\ (returned_nan (fst r) = true ->
        exists before,
          length before = k
          /\ log (machine (snd r))
             = before ++ (if G29_RETRY_AND_RECOVER (options cfg) then []
                          else [EvSerial "STR_ERR_PROBING_FAILED"])).
Proof.
  intros Hreach Hbd. cbv zeta.
  rewrite probe_at_point_reached by exact Hreach. rewrite Hbd. cbv zeta.
  set (c2 := at_start cfg bench rx ry probe_relative c).
  set (c3 := mkCycle (snd (deploy cfg world (machine c2))) (notes c2)).
  assert (H3 : filter is_lcd_message (notes c3) = filter is_lcd_message (notes c))
    by apply at_start_messages.
  destruct (fst (deploy cfg world (machine c2))) as [failed|].
  2: { exists 0%nat. cbn [fst snd returned_nan]. rewrite app_nil_r.
       split; [exact H3 | discriminate]. }
  unfold after_deploy.
  set (measured := if failed then (Some FNaN, c3) else _).
  assert (Hm : notes (snd measured) = notes c3).
  { subst measured. destruct failed; [reflexivity | apply measure_notes]. }
  destruct (fst measured) as [mz|].
  2: { exists 0%nat. cbn [fst snd returned_nan]. rewrite app_nil_r, Hm.
       split; [exact H3 | discriminate]. }
  destruct (after_measure_notes mz (snd measured)) as (report & Hrep & Hnone).
  set (after := after_measure cfg world rx ry raise_after verbose_level _ _) in *.
  assert (Hbefore : filter is_lcd_message (notes (snd after))
                    = filter is_lcd_message (notes c)).
  { rewrite Hrep, Hm, filter_app, Hnone, app_nil_r. exact H3. }
  destruct (fst after) as [mz'|].
  2: { exists 0%nat. cbn [fst snd returned_nan]. rewrite app_nil_r.
       split; [exact Hbefore | discriminate]. }
  rewrite on_failure_run. cbv zeta.
  exists (length (log (snd (stow cfg world (machine (snd after)))))).
  destruct (isnan mz') eqn:Hnan.
  - destruct (fst (stow cfg world (machine (snd after)))); cbn [fst snd returned_nan].
    + rewrite Hnan. cbn [notes machine]. rewrite filter_app, Hbefore.
      split; [reflexivity|]. intros _.
      exists (log (snd (stow cfg world (machine (snd after))))).
      split; [reflexivity|].
      destruct (G29_RETRY_AND_RECOVER (options cfg)); [now rewrite app_nil_r | reflexivity].
    + cbn [notes]. rewrite app_nil_r. split; [exact Hbefore | discriminate].
  - cbn [fst snd returned_nan]. rewrite Hnan, app_nil_r.
    split; [exact Hbefore | discriminate].
Qed.

(** X18.  When the deploy fails, the cycle does not probe: it returns NAN
    with the machine stopped and no descent made, and its closing stow does
    nothing, the failed deploy having left the endstop off.  The machine is
    as the failed deploy left it, up to the serial error. *)
Theorem probe_at_point_deploy_failure (c : Cycle) :
  can_reach bench (probe_start (options cfg) bench (machine c) rx ry) probe_relative
  = true ->
  BD_SENSOR (options cfg) = false ->
  let c2 := at_start cfg bench rx ry probe_relative c in
  let m3 := snd (deploy cfg world (machine c2)) in
  fst (deploy cfg world (machine c2)) = Some true ->
  let r := probe_at_point cfg bench world rx ry raise_after verbose_level
             probe_relative sanity_check c in
  fst r = Some FNaN
  /\ machine (snd r)
     = (if G29_RETRY_AND_RECOVER (options cfg) then m3
        else set_log (log m3 ++ [EvSerial "STR_ERR_PROBING_FAILED"]) m3)
  /\ running m3 = false
  /\ descents m3 = descents (machine c).
Proof.
  intros Hreach Hbd c2 m3 Hfail. cbv zeta.
  rewrite probe_at_point_reached by exact Hreach. rewrite Hbd. cbv zeta.
  fold c2. rewrite Hfail. unfold after_deploy. cbn [fst snd].
  unfold after_measure. cbn [isnan op_ret fst snd].
  rewrite on_failure_run. cbn [isnan fst snd machine notes]. cbv zeta.
  destruct (set_deployed_fails cfg world true (machine c2) Hfail) as (Hstop & _ & Hoff).
  cbv zeta in Hstop, Hoff. fold (deploy cfg world) in Hstop, Hoff. fold m3 in Hstop, Hoff.
  fold m3. unfold stow. rewrite (set_deployed_noop cfg world false m3 Hoff).
  cbn [fst snd machine]. repeat split; [exact Hstop|].
  destruct (set_deployed_steady cfg world true) as [Hkeep _].
  unfold m3, deploy. rewrite (Hkeep (machine c2)). reflexivity.
Qed.

(** X19.  When the deploy and the probing succeed (and no probe temperature
    compensation is built in), the cycle's value is that of [run_z_probe]
    plus [offset.z], plus the twist compensation at the probe's XY when
    X_AXIS_TWIST_COMPENSATION is on.  PROBE_PT_RAISE then raises the nozzle
    by Z_CLEARANCE_BETWEEN_PROBES from where the probing left it,
    PROBE_PT_BIG_RAISE by 25, PROBE_PT_NONE leaves it there; PROBE_PT_STOW
    and PROBE_PT_LAST_STOW stow the probe, and a stow that fails turns the
    value into NAN, which the cycle returns once its closing stow has
    returned. *)
Theorem probe_at_point_value (c : Cycle) (v : Q) :
  can_reach bench (probe_start (options cfg) bench (machine c) rx ry) probe_relative
  = true ->
  BD_SENSOR (options cfg) = false ->
  HAS_PTC (options cfg) = false ->
  let c2 := at_start cfg bench rx ry probe_relative c in
  let npos := nozzle_start (options cfg) bench (machine c) rx ry probe_relative in
  let m3 := snd (deploy cfg world (machine c2)) in
  let m4 := snd (run_z_probe cfg world sanity_check m3) in
  fst (deploy cfg world (machine c2)) = Some false ->
  fst (run_z_probe cfg world sanity_check m3) = Some (FNum v) ->
  let value :=
    if X_AXIS_TWIST_COMPENSATION (options cfg)
    then v + z (offset m4)
         + xatc_compensation bench (x npos + fst (offset_xy (options cfg) m4))
             (y npos + snd (offset_xy (options cfg) m4))
    else v + z (offset m4) in
  let r := probe_at_point cfg bench world rx ry raise_after verbose_level
             probe_relative sanity_check c in
  let raised (by_mm : Q) :=
    snd (do_blocking_move_to_z (z (current_position m4) + by_mm) (z_probe_fast_mm_s cfg) m4) in
  match raise_after with
  | PROBE_PT_NONE => fst r = Some (FNum value) /\ machine (snd r) = m4
  | PROBE_PT_RAISE =>
      fst r = Some (FNum value)
      /\ machine (snd r) = raised (Z_CLEARANCE_BETWEEN_PROBES cfg)
  | PROBE_PT_BIG_RAISE => fst r = Some (FNum value) /\ machine (snd r) = raised 25
  | PROBE_PT_STOW | PROBE_PT_LAST_STOW =>
      match fst (stow cfg world m4) with
      | Some false =>
          fst r = Some (FNum value) /\ machine (snd r) = snd (stow cfg world m4)
      | Some true =>
          fst r = option_map (fun _ => FNaN)
                    (fst (stow cfg world (snd (stow cfg world m4))))
      | None => fst r = None
      end
  end.
Proof.
  intros Hreach Hbd Hptc c2 npos m3 m4 Hdeploy Hrun. cbv zeta.
  rewrite probe_at_point_reached by exact Hreach. rewrite Hbd. cbv zeta.
  fold c2 npos. rewrite Hdeploy. unfold after_deploy.
  unfold measure. rewrite op_and_then_run, lift_run. cbn [fst snd machine notes].
  fold m3. rewrite Hrun. fold m4.
  rewrite op_bind_run, lift_run. cbn [get fst snd machine notes op_ret fadd].
  rewrite Hptc.
  set (value := if X_AXIS_TWIST_COMPENSATION (options cfg)
                then v + z (offset m4)
                     + xatc_compensation bench (x npos + fst (offset_xy (options cfg) m4))
                         (y npos + snd (offset_xy (options cfg) m4))
                else v + z (offset m4)).
  assert (Hvalue :
    (if X_AXIS_TWIST_COMPENSATION (options cfg)
     then fadd (FNum (v + z (offset m4)))
            (xatc_compensation bench (x npos + fst (offset_xy (options cfg) m4))
               (y npos + snd (offset_xy (options cfg) m4)))
     else FNum (v + z (offset m4))) = FNum value).
  { subst value. now destruct (X_AXIS_TWIST_COMPENSATION (options cfg)). }
  rewrite Hvalue. unfold after_measure. cbn [isnan].
  destruct raise_after; run_op.
  - rewrite on_failure_run. cbn [isnan fst snd].
    now destruct (2 <? verbose_level)%Z.
  - destruct (fst (stow cfg world m4)) as [[|]|] eqn:Hstow; run_op; cbn [fst].
    + rewrite on_failure_run. cbn [isnan fst snd machine]. cbv zeta.
      destruct (2 <? verbose_level)%Z; cbn [op_when op_ret note fst snd machine];
        now destruct (fst (stow cfg world (snd (stow cfg world m4)))).
    + rewrite on_failure_run. cbn [isnan fst snd]. split; [reflexivity|].
      now destruct (2 <? verbose_level)%Z.
    + reflexivity.
  - destruct (fst (stow cfg world m4)) as [[|]|] eqn:Hstow; run_op; cbn [fst].
    + rewrite on_failure_run. cbn [isnan fst snd machine]. cbv zeta.
      destruct (2 <? verbose_level)%Z; cbn [op_when op_ret note fst snd machine];
        now destruct (fst (stow cfg world (snd (stow cfg world m4)))).
    + rewrite on_failure_run. cbn [isnan fst snd]. split; [reflexivity|].
      now destruct (2 <? verbose_level)%Z.
    + reflexivity.
  - rewrite on_failure_run. cbn [isnan fst snd].
    now destruct (2 <? verbose_level)%Z.
  - rewrite on_failure_run. cbn [isnan fst snd].
    now destruct (2 <? verbose_level)%Z.
Qed.

End CycleProperties.


(** ** What a probing run never does *)

Section Descends.






End Descends.

Section Run.

Variable cfg : Config.
Variable world : World.

Lemma tare_keeps :
  preserves (keeps descents) (TERN0_PROBE_TARE_tare cfg world)
  /\ preserves (keeps running) (TERN0_PROBE_TARE_tare cfg world)
  /\ preserves (keeps z_probe_enabled) (TERN0_PROBE_TARE_tare cfg world)
  /\ preserves (keeps pin_reads) (TERN0_PROBE_TARE_tare cfg world)
  /\ preserves (log_grows probing_only) (TERN0_PROBE_TARE_tare cfg world).
Proof.
  unfold TERN0_PROBE_TARE_tare, tare, read_probe_switch_activated.
  repeat split; preserve_steps; try keeps_leaf; log_leaf; exact I.
Qed.

Lemma probe_down_to_z_steady (z_to fr : Q) :
  preserves (keeps running) (probe_down_to_z cfg world z_to fr)
  /\ preserves (keeps z_probe_enabled) (probe_down_to_z cfg world z_to fr)
  /\ preserves (keeps pin_reads) (probe_down_to_z cfg world z_to fr)
  /\ preserves (log_grows probing_only) (probe_down_to_z cfg world z_to fr).
Proof.
  unfold probe_down_to_z, wait_for_heaters, probe_down, probing_move,
    do_blocking_move_to_z, bltouch_cmd,
    refresh_largest_sensorless_adj, set_current_from_steppers_for_axis_Z, get.
  repeat split; preserve_steps; try keeps_leaf; log_leaf; first [exact I | reflexivity].
Qed.


Lemma move_z_steady (z_to fr : Q) :
  preserves (keeps descents) (do_blocking_move_to_z z_to fr)
  /\ preserves (keeps running) (do_blocking_move_to_z z_to fr)
  /\ preserves (keeps z_probe_enabled) (do_blocking_move_to_z z_to fr)
  /\ preserves (keeps pin_reads) (do_blocking_move_to_z z_to fr)
  /\ preserves (keeps offset) (do_blocking_move_to_z z_to fr)
  /\ preserves (log_grows probing_only) (do_blocking_move_to_z z_to fr).
Proof.
  unfold do_blocking_move_to_z.
  repeat split; preserve_steps; try keeps_leaf; log_leaf; exact I.
Qed.

Ltac by_ret := apply preserves_ret; preorder_goal.
Ltac by_read := apply preserves_read; preorder_goal.
Ltac in_when := apply preserves_when; preorder_goal.

(** A relation that the tare, the probing move, the Z move and the backlash
    measurement respect is respected by the whole run. *)
Section Respected.

Variable R : Machine -> Machine -> Prop.
Context {R_preorder : PreOrder R}.

Hypothesis tare_ok : preserves R (TERN0_PROBE_TARE_tare cfg world).
Hypothesis down_ok : forall z_to fr, preserves R (probe_down_to_z cfg world z_to fr).
Hypothesis move_ok : forall z_to fr, preserves R (do_blocking_move_to_z z_to fr).
Hypothesis backlash_ok : preserves R (emit EvBacklash).

Lemma try_to_probe_respects (low fr : Q) (sc : bool) (clearance : Q) :
  preserves R (try_to_probe cfg world low fr sc clearance).
Proof.
  unfold try_to_probe, get.
  apply preserves_bind; preorder_goal; [apply tare_ok | intros t].
  apply preserves_if; [by_ret|].
  apply preserves_bind; preorder_goal; [apply down_ok | intros pf].
  apply preserves_bind; preorder_goal; [by_read | intros m].
  by_ret.
Qed.

Lemma slow_probe_respects (low : Q) (sc : bool) (p : Z) (s : Samples) :
  preserves R (slow_probe cfg world low sc p s).
Proof.
  unfold slow_probe, get.
  apply preserves_bind; preorder_goal; [apply tare_ok | intros t].
  apply preserves_if; [by_ret|].
  apply preserves_bind; preorder_goal; [apply try_to_probe_respects | intros f].
  apply preserves_if; [by_ret|].
  apply preserves_bind; preorder_goal; [in_when; apply backlash_ok | intros _].
  apply preserves_bind; preorder_goal; [by_read | intros m].
  apply preserves_bind; preorder_goal; [in_when; apply move_ok | intros _].
  by_ret.
Qed.

Lemma sample_loop_respects (low : Q) (sc : bool) (ps : list Z) :
  forall s, preserves R (sample_loop cfg world low sc ps s).
Proof.
  induction ps as [|p ps IH]; intros s; cbn [sample_loop].
  - by_ret.
  - apply preserves_bind; preorder_goal; [apply slow_probe_respects|].
    intros [v|s']; [by_ret | apply IH].
Qed.

Lemma before_slow_probes_respects (low : Q) (sc : bool) :
  preserves R (before_slow_probes cfg world low sc).
Proof.
  unfold before_slow_probes.
  apply preserves_if; [|apply preserves_if; [|by_ret]].
  - unfold fast_probe, get.
    apply preserves_bind; preorder_goal; [apply tare_ok | intros t].
    apply preserves_if; [by_ret|].
    apply preserves_bind; preorder_goal; [apply try_to_probe_respects | intros f].
    apply preserves_if; [by_ret|].
    apply preserves_bind; preorder_goal; [by_read | intros m].
    apply preserves_bind; preorder_goal; [apply move_ok | intros _].
    by_ret.
  - apply preserves_bind; preorder_goal; [|intros; by_ret].
    unfold fast_approach, get.
    apply preserves_bind; preorder_goal; [by_read | intros m].
    in_when.
    apply preserves_bind; preorder_goal; [apply down_ok | intros nt].
    in_when.
    apply preserves_bind; preorder_goal; [by_read | intros m1].
    apply move_ok.
Qed.

Lemma endless_loop_respects (low : Q) (sc : bool) (fuel : nat) :
  forall p s, preserves R (endless_loop cfg world low sc fuel p s).
Proof.
  induction fuel as [|fuel IH]; intros p s; cbn [endless_loop].
  - by_ret.
  - apply preserves_bind; preorder_goal; [apply slow_probe_respects|].
    intros [v|s']; [by_ret | apply IH].
Qed.

Lemma run_z_probe_respects (sc : bool) : preserves R (run_z_probe cfg world sc).
Proof.
  unfold run_z_probe, get.
  apply preserves_bind; preorder_goal; [by_read | intros m0].
  apply preserves_bind; preorder_goal;
    [apply before_slow_probes_respects | intros [v|first_probe_z]].
  - by_ret.
  - apply preserves_if; [apply endless_loop_respects|].
    apply preserves_bind; preorder_goal.
    + apply preserves_if; [apply sample_loop_respects | apply slow_probe_respects].
    + intros [v|s]; [by_ret|].
      apply preserves_bind; preorder_goal;
        [by_read | intros; by_ret].
Qed.

End Respected.

(** X20.  Whatever its result, and also when it is followed only for some
    rounds of a loop that does not end, [run_z_probe] does not stop the
    machine, does not switch the Z-probe endstop, does not read the probe
    pin and changes no probe offset.  It makes no Z clearance, no XY move,
    no operator pause, idle wait or confirmation, no preheat, no LCD alert,
    no stop, no switch of the Z-probe endstop and no actuation other than a
    BLTouch command: what it writes to the log are Z moves, BLTouch
    commands, tare pin writes, the switches of the sensorless and quiet
    modes, serial lines, LCD status lines, the waits for the heaters,
    [endstops.hit_on_purpose()], the planner sync and the backlash
    measurement. *)
Theorem run_z_probe_frame (sc : bool) (m : Machine) :
  let m' := snd (run_z_probe cfg world sc m) in
  running m' = running m
  /\ z_probe_enabled m' = z_probe_enabled m
  /\ pin_reads m' = pin_reads m
  /\ offset m' = offset m
  /\ offset_sensorless_adj m' = offset_sensorless_adj m
  /\ exists evs, Forall probing_only evs /\ log m' = log m ++ evs.
Proof.
  cbv zeta.
  destruct tare_keeps as (_ & Ht1 & Ht2 & Ht3 & Ht4).
  pose proof (fun z_to fr => proj1 (probe_down_to_z_steady z_to fr)) as Hd1.
  pose proof (fun z_to fr => proj1 (proj2 (probe_down_to_z_steady z_to fr))) as Hd2.
  pose proof (fun z_to fr => proj1 (proj2 (proj2 (probe_down_to_z_steady z_to fr)))) as Hd3.
  pose proof (fun z_to fr => proj2 (proj2 (proj2 (probe_down_to_z_steady z_to fr)))) as Hd4.
  split; [|split; [|split; [|split; [|split]]]].
  - apply (run_z_probe_respects (keeps running)); try assumption;
      first [intros; apply move_z_steady | keeps_leaf].
  - apply (run_z_probe_respects (keeps z_probe_enabled)); try assumption;
      first [intros; apply move_z_steady | keeps_leaf].
  - apply (run_z_probe_respects (keeps pin_reads)); try assumption;
      first [intros; apply move_z_steady | keeps_leaf].
  - apply (run_z_probe_respects (keeps offset));
      first [ intros; apply move_z_steady
            | intros; apply (proj1 (probe_down_to_z_keeps cfg world _ _))
            | unfold TERN0_PROBE_TARE_tare, tare, read_probe_switch_activated;
              preserve_steps; keeps_leaf
            | keeps_leaf ].
  - apply (run_z_probe_respects (keeps offset_sensorless_adj));
      first [ intros; apply (proj2 (probe_down_to_z_keeps cfg world _ _))
            | unfold TERN0_PROBE_TARE_tare, tare, read_probe_switch_activated,
                do_blocking_move_to_z;
              intros; preserve_steps; keeps_leaf
            | keeps_leaf ].
  - apply (run_z_probe_respects (log_grows probing_only)); try assumption;
      first [intros; apply move_z_steady | apply log_grows_emit; exact I].
Qed.






End Run.


(** ** TOTAL_PROBING beyond the loop counter *)

(** X22.  Without EXTRA_PROBING and with a TOTAL_PROBING above 2 that is a
    multiple of 256, the [uint8_t] counter of [for (uint8_t p =
    TOTAL_PROBING; p--;)] starts at 0: no slow probe is made, and
    [run_z_probe] returns the empty sum times [1 / MULTIPLE_PROBING], that
    is 0, from where the steps before the slow probes left the machine. *)
Theorem run_z_probe_wrapped (cfg : Config) (world : World) (sc : bool) (m : Machine) :
  (2 < TOTAL_PROBING cfg)%Z ->
  (EXTRA_PROBING cfg <= 0)%Z ->
  u8 (TOTAL_PROBING cfg) = 0%Z ->
  let before := before_slow_probes cfg world (z_probe_low_point cfg m) sc m in
  exists v,
    run_z_probe cfg world sc m = (Some (FNum v), snd before)
    /\ v == 0.
Proof.
  intros Hthree Hextra Hwrap. cbv zeta.
  assert (He : extra cfg = false).
  { unfold extra. destruct (Z.ltb_spec 0 (EXTRA_PROBING cfg)); [lia | reflexivity]. }
  assert (Hm : multi cfg = true).
  { unfold multi. destruct (Z.ltb_spec 2 (TOTAL_PROBING cfg)); [reflexivity | lia]. }
  exists (0 * RECIPROCAL (MULTIPLE_PROBING cfg)). split; [|ring].
  unfold run_z_probe. rewrite bind_run. cbn [get fst snd].
  rewrite bind_run, before_slow_probes_multi by exact Hthree.
  unfold endless, loop_counter. rewrite He, Hm, Hwrap. cbn [andb Z.to_nat seq map rev].
  rewrite bind_run. cbn [sample_loop ret fst snd]. rewrite bind_run. cbn [get fst snd].
  unfold measured_z. rewrite Hm, He. reflexivity.
Qed.

Section Endless.

Variable cfg : Config.
Variable world : World.
Variable low : Q.
Variable sc : bool.
Variable oz : Q.

(** The bed of [Section Hits]: every descent to [low] triggers, no lower
    than the sanity check allows. *)
Hypothesis switch_inactive : forall n, probe_switch_activated world n = false.
Hypothesis bltouch_obeys : forall n, bltouch_fails world n = false.
Hypothesis hits : forall n, probe_triggered_of cfg (descent world n low) = true.
Hypothesis sane :
  sc = true ->
  forall n, stepper_z (descent world n low) <= - oz + Z_CLEARANCE_MULTI_PROBE cfg
            /\ stepper_z (descent world n low) <= - oz + Z_CLEARANCE_BETWEEN_PROBES cfg.

Lemma endless_loop_runs_out (fuel : nat) :
  forall (p : Z) (s : Samples) (m : Machine),
    z (offset m) = oz ->
    fst (endless_loop cfg world low sc fuel p s m) = None
    /\ descents (snd (endless_loop cfg world low sc fuel p s m)) = (descents m + fuel)%nat.
Proof.
  induction fuel as [|fuel IH]; intros p s m Hoz; cbn [endless_loop].
  - cbn. split; [reflexivity | lia].
  - rewrite bind_run.
    destruct (slow_probe_hits cfg world low sc oz switch_inactive bltouch_obeys hits sane
                p s m Hoz) as (m' & Hrun & Hoz' & _ & Hdesc & _).
    rewrite Hrun. cbn [fst snd].
    destruct (IH (u8 (p + 1))
                (if extra cfg
                 then mkSamples
                        (insert_probe (probes s)
                           (sample_of cfg world low (offset_sensorless_adj m) (descents m)) p)
                        (probes_z_sum s)
                 else if multi cfg
                      then mkSamples (probes s)
                             (probes_z_sum s
                              + sample_of cfg world low (offset_sensorless_adj m)
                                  (descents m))
                      else s)
                m' Hoz') as [Hnone Hcount].
    split; [exact Hnone|]. rewrite Hcount, Hdesc. lia.
Qed.

(** X23.  With EXTRA_PROBING and a TOTAL_PROBING of 256 or more, [p <
    TOTAL_PROBING] holds for every value of the [uint8_t] counter: over a
    bed that every descent hits no probe fails, so the loop is never left,
    and [run_z_probe] has not returned after any number of rounds, each of
    which has made one more descent. *)
Theorem run_z_probe_endless (m : Machine) :
  low = z_probe_low_point cfg m ->
  z (offset m) = oz ->
  (0 < EXTRA_PROBING cfg)%Z ->
  (255 < TOTAL_PROBING cfg)%Z ->
  let m1 := snd (before_slow_probes cfg world low sc m) in
  let r := run_z_probe cfg world sc m in
  fst r = None
  /\ descents (snd r) = (descents m1 + loop_fuel world)%nat.
Proof.
  intros Hlow Hoz Hextra Hmany. cbv zeta.
  assert (Hendless : endless cfg = true).
  { unfold endless, extra.
    destruct (Z.ltb_spec 0 (EXTRA_PROBING cfg)), (Z.ltb_spec 255 (TOTAL_PROBING cfg));
      try reflexivity; lia. }
  destruct (before_slow_probes_frame cfg world low sc m) as (Hpre & Hoff & _); [lia|].
  unfold run_z_probe. rewrite bind_run. cbn [get fst snd]. rewrite <- Hlow.
  rewrite bind_run, Hpre, Hendless.
  apply endless_loop_runs_out. now rewrite Hoff.
Qed.

End Endless.


(** * The further properties at work *)

(** X1: a servo probe is deployed. *)
Lemma set_deployed_success_witness :
  let m' := snd (set_deployed Scenario.servo_probe Scenario.no_bed true
                   (Scenario.machine false true)) in
  z_probe_enabled m' = true /\ running m' = true.
Proof.
  cbv zeta.
  destruct (set_deployed_success Scenario.servo_probe Scenario.no_bed true
              (Scenario.machine false true) eq_refl eq_refl)
    as (Henabled & Hrunning & _).
  split; [exact Henabled | exact Hrunning].
Defined.

(** X2: the pin of a tested servo probe still reads triggered after the
    deploy. *)
Lemma set_deployed_failure_witness :
  let m' := snd (set_deployed Scenario.servo_tested (Scenario.world_of true 0 []) true
                   (Scenario.machine false true)) in
  running m' = false /\ z_probe_enabled m' = false.
Proof.
  cbv zeta.
  destruct (set_deployed_failure Scenario.servo_tested (Scenario.world_of true 0 []) true
              (Scenario.machine false true) eq_refl)
    as (Hstopped & _ & Henabled).
  split; [exact Hstopped | exact Henabled].
Defined.

(** X3: the pin of a tested servo probe never reads triggered; the first
    stow fails, the second succeeds without a move. *)
Lemma stow_after_failed_stow_witness :
  let m' := snd (stow Scenario.servo_tested (Scenario.world_of false 0 [])
                   (Scenario.machine true true)) in
  stow Scenario.servo_tested (Scenario.world_of false 0 []) m' = (Some false, m').
Proof.
  cbv zeta.
  apply (stow_after_failed_stow Scenario.servo_tested (Scenario.world_of false 0 [])
           (Scenario.machine true true)); reflexivity.
Defined.

(** X4: a sled before homing. *)
Lemma set_deployed_unhomed_witness :
  let r := set_deployed Rig.sled_probe Scenario.no_bed true (Rig.machine_at 10 false) in
  fst r = Some true
  /\ log (snd r)
     = [EvZClearance (10 - - (15 # 10)); EvSerial "STR_STOP_PRE";
        EvSerial "STR_STOP_UNHOMED"; EvSerial "STR_STOP_POST"; EvStop]
  /\ current_position (snd r) = mkXYZ 100 100 (10 - - (15 # 10)).
Proof.
  cbv zeta.
  destruct (set_deployed_unhomed Rig.sled_probe Scenario.no_bed true
              (Rig.machine_at 10 false) eq_refl eq_refl eq_refl)
    as (Hfail & Hleft & _).
  split; [exact Hfail|]. rewrite Hleft. split; reflexivity.
Defined.

(** X6: no bed under a fix-mounted probe. *)
Lemma probe_down_to_z_no_trigger_witness :
  let r := probe_down_to_z Scenario.fixed_mount Scenario.no_bed (- (1 # 2)) 2
             (Scenario.machine true true) in
  largest_sensorless_adj (snd r) = 0 /\ fst r = true.
Proof.
  cbv zeta.
  destruct (probe_down_to_z_no_trigger Scenario.fixed_mount Scenario.no_bed (- (1 # 2)) 2
              (Scenario.machine true true) (or_introl eq_refl))
    as [Hkept Hfail].
  split; [exact Hkept | apply Hfail; reflexivity].
Defined.

(** X7: a BLTouch that does not deploy. *)
Lemma probe_down_to_z_bltouch_stuck_witness :
  let r := probe_down_to_z Rig.bltouch_probe Rig.stuck_bltouch (- (1 # 2)) 2
             (Scenario.machine true true) in
  fst r = true /\ descents (snd r) = 0%nat /\ log (snd r) = [EvActuate BLTouchPin true].
Proof.
  cbv zeta.
  rewrite (probe_down_to_z_bltouch_stuck Rig.bltouch_probe Rig.stuck_bltouch (- (1 # 2)) 2
             (Scenario.machine true true) eq_refl eq_refl eq_refl).
  repeat split.
Defined.

(** X8: the activation switch of a tared probe reads active. *)
Lemma try_to_probe_tare_refused_witness :
  let r := try_to_probe Scenario.tared_single (Scenario.world_of true 64 [1 # 10])
             (- (1 # 2)) 2 true 2 (Scenario.machine true true) in
  fst r = true /\ log (snd r) = [EvSerial "Cannot tare an active probe"].
Proof.
  cbv zeta.
  rewrite (try_to_probe_tare_refused Scenario.tared_single
             (Scenario.world_of true 64 [1 # 10]) (- (1 # 2)) 2 true 2
             (Scenario.machine true true) eq_refl eq_refl eq_refl).
  split; reflexivity.
Defined.

(** X9: three probes at 0.1, 0.2 and 0.3. *)
Lemma run_z_probe_mean_witness :
  exists v,
    fst (run_z_probe Rig.three_probes (Scenario.world_of false 64 [1 # 10; 2 # 10; 3 # 10])
           true (Scenario.machine true true)) = Some (FNum v)
    /\ v == 2 # 10.
Proof.
  assert (Hsane :
    true = true ->
    forall n,
      stepper_z (descent (Scenario.world_of false 64 [1 # 10; 2 # 10; 3 # 10]) n
                   (- - (15 # 10) + - (2)))
      <= - - (15 # 10) + Z_CLEARANCE_MULTI_PROBE Rig.three_probes
      /\ stepper_z (descent (Scenario.world_of false 64 [1 # 10; 2 # 10; 3 # 10]) n
                      (- - (15 # 10) + - (2)))
         <= - - (15 # 10) + Z_CLEARANCE_BETWEEN_PROBES Rig.three_probes).
  { intros _ n.
    destruct n as [|[|[|[|n]]]]; split; unfold Qle; cbn; lia. }
  assert (Hthree : (2 < TOTAL_PROBING Rig.three_probes)%Z) by (cbn; lia).
  assert (Hextra : (EXTRA_PROBING Rig.three_probes <= 0)%Z) by (cbn; lia).
  assert (Hfits : (TOTAL_PROBING Rig.three_probes <= 255)%Z) by (cbn; lia).
  destruct (run_z_probe_mean Rig.three_probes
              (Scenario.world_of false 64 [1 # 10; 2 # 10; 3 # 10])
              (- - (15 # 10) + - (2)) true (- (15 # 10))
              (fun _ => eq_refl) (fun _ => eq_refl) (fun _ => eq_refl) Hsane
              (Scenario.machine true true) eq_refl eq_refl Hthree Hfits Hextra eq_refl)
    as (v & Hv & Hmean & _).
  exists v. split; [exact Hv|].
  apply (Qeq_trans _ _ _ Hmean). reflexivity.
Defined.

(** X10: the five samples of scenario S3. *)
Lemma run_z_probe_sorts_samples_witness :
  exists ps v,
    fst (run_z_probe Scenario.five_drop_one
           (Scenario.world_of false 64 [10 # 100; 40 # 100; 5 # 100; 11 # 100; 9 # 100])
           true (Scenario.machine true true)) = Some (FNum v)
    /\ StronglySorted Qle ps
    /\ Permutation ps [10 # 100; 40 # 100; 5 # 100; 11 # 100; 9 # 100].
Proof.
  assert (Hsane :
    true = true ->
    forall n,
      stepper_z
        (descent
           (Scenario.world_of false 64 [10 # 100; 40 # 100; 5 # 100; 11 # 100; 9 # 100]) n
           (- - (15 # 10) + - (2)))
      <= - - (15 # 10) + Z_CLEARANCE_MULTI_PROBE Scenario.five_drop_one
      /\ stepper_z
           (descent
              (Scenario.world_of false 64 [10 # 100; 40 # 100; 5 # 100; 11 # 100; 9 # 100])
              n (- - (15 # 10) + - (2)))
         <= - - (15 # 10) + Z_CLEARANCE_BETWEEN_PROBES Scenario.five_drop_one).
  { intros _ n.
    destruct n as [|[|[|[|[|[|n]]]]]]; split; unfold Qle; cbn; lia. }
  assert (Hthree : (2 < TOTAL_PROBING Scenario.five_drop_one)%Z) by (cbn; lia).
  assert (Hextra : (0 < EXTRA_PROBING Scenario.five_drop_one)%Z) by (cbn; lia).
  assert (Hkept : (0 < MULTIPLE_PROBING Scenario.five_drop_one)%Z) by (cbn; lia).
  assert (Hfits : (TOTAL_PROBING Scenario.five_drop_one <= 128)%Z) by (cbn; lia).
  destruct (run_z_probe_sorts_samples Scenario.five_drop_one
              (Scenario.world_of false 64 [10 # 100; 40 # 100; 5 # 100; 11 # 100; 9 # 100])
              (- - (15 # 10) + - (2)) true (- (15 # 10))
              (fun _ => eq_refl) (fun _ => eq_refl) (fun _ => eq_refl) Hsane
              (Scenario.machine true true) eq_refl eq_refl Hthree Hextra Hkept eq_refl Hfits)
    as (ps & v & Hv & Hsorted & Hperm & _).
  exists ps, v. split; [exact Hv|]. split; [exact Hsorted | exact Hperm].
Defined.

(** X11: a delta with sensorless probing, one probe that stops at Z = 1
    with only the Y tower set: the result is 1, the sample would be 0.8. *)
Lemma run_z_probe_single_witness :
  let r := run_z_probe Scenario.delta_sensorless (Scenario.world_of false 8 [1]) true
             (Scenario.machine true true) in
  fst r = Some (FNum 1) /\ sampled_z Scenario.delta_sensorless (snd r) = 1 - (2 # 10).
Proof.
  assert (Hsane :
    true = true ->
    forall n,
      stepper_z (descent (Scenario.world_of false 8 [1]) n (- - (15 # 10) + - (2)))
      <= - - (15 # 10) + Z_CLEARANCE_MULTI_PROBE Scenario.delta_sensorless
      /\ stepper_z (descent (Scenario.world_of false 8 [1]) n (- - (15 # 10) + - (2)))
         <= - - (15 # 10) + Z_CLEARANCE_BETWEEN_PROBES Scenario.delta_sensorless).
  { intros _ n. destruct n as [|[|n]]; split; unfold Qle; cbn; lia. }
  assert (Hone : (TOTAL_PROBING Scenario.delta_sensorless < 2)%Z) by (cbn; lia).
  destruct (run_z_probe_single Scenario.delta_sensorless (Scenario.world_of false 8 [1])
              (- - (15 # 10) + - (2)) true (- (15 # 10))
              (fun _ => eq_refl) (fun _ => eq_refl) (fun _ => eq_refl) Hsane
              (Scenario.machine true true) eq_refl eq_refl Hone)
    as (Hv & _ & _ & Hsample).
  cbv zeta. split; [exact Hv | exact (Hsample eq_refl)].
Defined.

(** X12: from Z = 30 the fast approach goes for 16.5, is stopped at 16 and
    backs off to 21. *)
Lemma fast_approach_outcome_witness :
  z (current_position
       (snd (fast_approach Rig.three_probes (Scenario.world_of false 64 [16])
               (Rig.machine_at 30 true))))
  = 16 + 5.
Proof.
  assert (Habove :
    Z_CLEARANCE_DEPLOY_PROBE Rig.three_probes + 5
    + (if Qltb (z (offset (Rig.machine_at 30 true))) 0
       then - z (offset (Rig.machine_at 30 true)) else 0)
    < z (current_position (Rig.machine_at 30 true)))
    by (unfold Qlt; cbn; lia).
  destruct (fast_approach_outcome Rig.three_probes (Scenario.world_of false 64 [16])
              (Rig.machine_at 30 true))
    as (_ & _ & Hhit).
  destruct (Hhit Habove eq_refl) as [_ Hleft].
  rewrite Hleft. reflexivity.
Defined.

(** X13: all towers sensed, adjustment 0.5, the Y tower set. *)
Lemma set_offset_sensorless_adj_refresh_witness :
  refresh_adj Scenario.delta_sensorless
    (set_offset_sensorless_adj (mkSense true true true) (1 # 2)
       (mkABC (1 # 10) (2 # 10) (- (5 # 100)))) 8
  == 1 # 2.
Proof.
  apply (Qeq_trans _ _ _
           (set_offset_sensorless_adj_refresh Scenario.delta_sensorless
              (mkSense true true true) (1 # 2) (mkABC (1 # 10) (2 # 10) (- (5 # 100))) 8
              eq_refl eq_refl eq_refl)).
  reflexivity.
Defined.

(** X14: X, Y and Z trusted before the pause. *)
Lemma set_probing_paused_round_trip_witness :
  let q1 := set_probing_paused (Scenario.switches false) Rig.steppers true Rig.quiet in
  let q2 := set_probing_paused (Scenario.switches false) Rig.steppers false q1 in
  axes_trusted q1 = 4%Z /\ axes_trusted q2 = 7%Z.
Proof.
  assert (Hfit : (0 <= axes_trusted Rig.quiet < 256)%Z) by (cbn; lia).
  cbv zeta. split; [reflexivity|].
  apply (proj1 (set_probing_paused_round_trip (Scenario.switches false) Rig.steppers
                  eq_refl eq_refl Rig.quiet Hfit)).
Defined.

(** X15: the nozzle is asked to 120 from a target of 0, the bed to 50 from
    a target of 60. *)
Lemma preheat_for_probing_calls_witness :
  preheat_for_probing (Scenario.switches false) Rig.thermal 120 50 false
  = [LcdPreheating; SetTargetHotend 120; WaitForHotend; WaitForBedHeating]
  /\ (degTargetHotend Rig.thermal < 120)%Z.
Proof.
  split; [reflexivity|].
  destruct (preheat_for_probing_calls (Scenario.switches false) Rig.thermal 120 50 false)
    as (Hhotend & _).
  apply (Hhotend 120%Z). right. left. reflexivity.
Defined.

(** X16: no point can be reached. *)
Lemma probe_at_point_skips_probe_witness :
  let r := probe_at_point Scenario.fixed_mount (Rig.bench false)
             Scenario.no_bed 50 60 PROBE_PT_RAISE 0 true true Rig.cycle in
  fst r = Some FNaN /\ machine (snd r) = Scenario.machine false true.
Proof.
  cbv zeta.
  destruct (probe_at_point_skips_probe Scenario.fixed_mount
              (Rig.bench false) Scenario.no_bed 50 60 PROBE_PT_RAISE 0 true true Rig.cycle)
    as [Hout _].
  destruct (Hout eq_refl) as (Hnan & Hmachine & _).
  split; [exact Hnan | exact Hmachine].
Defined.

(** X17: the bed is missing. *)
Lemma probe_at_point_announces_witness :
  let r := probe_at_point Scenario.fixed_mount (Rig.bench true)
             Scenario.no_bed 50 60 PROBE_PT_RAISE 0 true true Rig.cycle in
  exists k,
    filter is_lcd_message (notes (snd r)) = [(k, NoteLcdMessage "MSG_LCD_PROBING_FAILED")].
Proof.
  cbv zeta.
  destruct (probe_at_point_announces Scenario.fixed_mount
              (Rig.bench true) Scenario.no_bed 50 60 PROBE_PT_RAISE 0 true true Rig.cycle
              eq_refl eq_refl)
    as (k & Hnotes & _).
  exists k. exact Hnotes.
Defined.

(** X18: the pin of a tested servo probe still reads triggered after the
    deploy. *)
Lemma probe_at_point_deploy_failure_witness :
  let r := probe_at_point Scenario.servo_tested (Rig.bench true)
             (Scenario.world_of true 64 [1 # 10]) 50 60 PROBE_PT_RAISE 0 true true
             Rig.cycle in
  fst r = Some FNaN /\ descents (machine (snd r)) = 0%nat.
Proof.
  cbv zeta.
  destruct (probe_at_point_deploy_failure Scenario.servo_tested
              (Rig.bench true) (Scenario.world_of true 64 [1 # 10]) 50 60 PROBE_PT_RAISE 0
              true true Rig.cycle eq_refl eq_refl eq_refl)
    as (Hnan & Hleft & _ & _).
  split; [exact Hnan|]. rewrite Hleft. reflexivity.
Defined.

(** X19: a trigger at 0.1 with the probe 1.5 below the nozzle, then the
    raise by 5. *)
Lemma probe_at_point_value_witness :
  let r := probe_at_point Scenario.fixed_mount (Rig.bench true)
             (Scenario.world_of false 64 [1 # 10]) 50 60 PROBE_PT_RAISE 0 true true
             Rig.cycle in
  fst r = Some (FNum ((1 # 10) + - (15 # 10)))
  /\ z (current_position (machine (snd r))) = (1 # 10) + 5.
Proof.
  cbv zeta.
  destruct (probe_at_point_value Scenario.fixed_mount
              (Rig.bench true) (Scenario.world_of false 64 [1 # 10]) 50 60 PROBE_PT_RAISE 0
              true true Rig.cycle (1 # 10) eq_refl eq_refl eq_refl eq_refl eq_refl)
    as [Hvalue Hleft].
  split; [exact Hvalue|]. rewrite Hleft. reflexivity.
Defined.


(** X22: 256 probes, none of them extra, and no bed at all. *)
Lemma run_z_probe_wrapped_witness :
  exists v,
    fst (run_z_probe Rig.wrapped_probes Scenario.no_bed true (Scenario.machine true true))
    = Some (FNum v)
    /\ v == 0
    /\ descents (snd (run_z_probe Rig.wrapped_probes Scenario.no_bed true
                        (Scenario.machine true true))) = 0%nat.
Proof.
  assert (Hthree : (2 < TOTAL_PROBING Rig.wrapped_probes)%Z) by (cbn; lia).
  assert (Hextra : (EXTRA_PROBING Rig.wrapped_probes <= 0)%Z) by (cbn; lia).
  destruct (run_z_probe_wrapped Rig.wrapped_probes Scenario.no_bed true
              (Scenario.machine true true) Hthree Hextra eq_refl)
    as (v & Hrun & Hv).
  exists v. rewrite Hrun. split; [reflexivity|]. split; [exact Hv | reflexivity].
Defined.

(** X23: 256 probes of which one is extra, over a bed at Z = 0, followed
    for 16 rounds. *)
Lemma run_z_probe_endless_witness :
  let r := run_z_probe Rig.endless_probes (Scenario.world_of false 64 []) true
             (Scenario.machine true true) in
  fst r = None /\ descents (snd r) = 16%nat.
Proof.
  assert (Hsane :
    true = true ->
    forall n,
      stepper_z (descent (Scenario.world_of false 64 []) n (- - (15 # 10) + - (2)))
      <= - - (15 # 10) + Z_CLEARANCE_MULTI_PROBE Rig.endless_probes
      /\ stepper_z (descent (Scenario.world_of false 64 []) n (- - (15 # 10) + - (2)))
         <= - - (15 # 10) + Z_CLEARANCE_BETWEEN_PROBES Rig.endless_probes).
  { intros _ n. destruct n as [|n]; split; unfold Qle; cbn; lia. }
  assert (Hextra : (0 < EXTRA_PROBING Rig.endless_probes)%Z) by (cbn; lia).
  assert (Hmany : (255 < TOTAL_PROBING Rig.endless_probes)%Z) by (cbn; lia).
  cbv zeta.
  apply (run_z_probe_endless Rig.endless_probes (Scenario.world_of false 64 [])
           (- - (15 # 10) + - (2)) true (- (15 # 10))
           (fun _ => eq_refl) (fun _ => eq_refl) (fun _ => eq_refl) Hsane
           (Scenario.machine true true) eq_refl eq_refl Hextra Hmany).
Defined.
